(** * Payment reconciliation of the clothes-site backend

    A shallow embedding of [src/user/controllers/paymentController.js]
    (gateway order initiation, synchronous verification, webhook processing),
    of the notification helper it calls ([createNotification]) and of the
    server setup in front of the routes, followed by the properties of the
    reconciliation flow.

    Handlers are functions in a state-and-exception monad over the stored
    Payment Records, Orders and notifications; the error console and the calls
    made to the gateway are recorded in the same state.  The environment
    ([process.env], the gateway's answers, the notification store, the
    identifier cast of the schemas) is a record passed to every handler.  HMAC-SHA256 is computed, so the examples run on
    real digests. *)

From Stdlib Require Import ZArith NArith List String Ascii Bool Lia.
From Stdlib Require Import SpecFloat DecimalString.
Import ListNotations.

Local Open Scope string_scope.

(** ** Node's [crypto]: SHA-256 and HMAC-SHA256 with a hex digest

    [crypto.createHmac('sha256', key).update(msg).digest('hex')].  Strings are
    byte strings (the UTF-8 encoding Node applies to its arguments). *)
Module Crypto.

Local Open Scope list_scope.
Local Open Scope N_scope.

Definition word (x : N) : N := x mod 4294967296.
Definition wadd (x y : N) : N := word (x + y).
Definition rotr (n x : N) : N :=
  N.lor (N.shiftr x n) (word (N.shiftl x (32 - n))).
Definition wnot (x : N) : N := N.lxor x 4294967295.

Definition choose (e f g : N) : N := N.lxor (N.land e f) (N.land (wnot e) g).
Definition majority (a b c : N) : N :=
  N.lxor (N.lxor (N.land a b) (N.land a c)) (N.land b c).
Definition big_sigma0 (a : N) : N :=
  N.lxor (N.lxor (rotr 2 a) (rotr 13 a)) (rotr 22 a).
Definition big_sigma1 (e : N) : N :=
  N.lxor (N.lxor (rotr 6 e) (rotr 11 e)) (rotr 25 e).
Definition small_sigma0 (x : N) : N :=
  N.lxor (N.lxor (rotr 7 x) (rotr 18 x)) (N.shiftr x 3).
Definition small_sigma1 (x : N) : N :=
  N.lxor (N.lxor (rotr 17 x) (rotr 19 x)) (N.shiftr x 10).

(** The round constants are the fractional bits of the square and cube roots
    of the first primes; they are computed here rather than tabulated. *)
Definition is_prime (n : nat) : bool :=
  forallb (fun d => negb (Nat.eqb (Nat.modulo n d) 0)) (seq 2 (n - 2)).

Definition first_primes : list N :=
  Eval vm_compute in map N.of_nat (filter is_prime (seq 2 310)).

Fixpoint cube_root_bits (bits : nat) (n r : N) : N :=
  match bits with
  | O => r
  | S b =>
      let c := r + N.shiftl 1 (N.of_nat b) in
      cube_root_bits b n (if c * c * c <=? n then c else r)
  end.

Definition round_constants : list N :=
  Eval vm_compute in
    map (fun p => word (cube_root_bits 36 (p * 2 ^ 96) 0)) first_primes.

Definition initial_hash : list N :=
  Eval vm_compute in
    map (fun p => word (N.sqrt (p * 2 ^ 64))) (firstn 8 first_primes).

Definition bytes_of_string (s : string) : list N :=
  map N_of_ascii (list_ascii_of_string s).

Fixpoint be_bytes (count : nat) (x : N) : list N :=
  match count with
  | O => []
  | S c => N.shiftr x (8 * N.of_nat c) mod 256 :: be_bytes c x
  end.

Definition pad (msg : list N) : list N :=
  let len := List.length msg in
  let zeros := Nat.modulo (64 - Nat.modulo (len + 9) 64) 64 in
  msg ++ 128 :: repeat 0 zeros ++ be_bytes 8 (8 * N.of_nat len).

Fixpoint words_of_bytes (fuel : nat) (bs : list N) : list N :=
  match fuel, bs with
  | S f, a :: b :: c :: d :: rest =>
      (((a * 256 + b) * 256 + c) * 256 + d) :: words_of_bytes f rest
  | _, _ => []
  end.

Fixpoint chunks (fuel : nat) (ws : list N) : list (list N) :=
  match fuel, ws with
  | S f, _ :: _ => firstn 16 ws :: chunks f (skipn 16 ws)
  | _, _ => []
  end.

(** Message schedule: [w] holds the words computed so far, latest first. *)
Fixpoint schedule (count : nat) (w : list N) : list N :=
  match count with
  | O => w
  | S c =>
      let next :=
        wadd (wadd (small_sigma1 (nth 1 w 0)) (nth 6 w 0))
             (wadd (small_sigma0 (nth 14 w 0)) (nth 15 w 0)) in
      schedule c (next :: w)
  end.

Definition round (st : list N) (kw : N * N) : list N :=
  match st with
  | [a; b; c; d; e; f; g; h] =>
      let t1 := wadd (wadd (wadd h (big_sigma1 e)) (choose e f g))
                     (wadd (fst kw) (snd kw)) in
      let t2 := wadd (big_sigma0 a) (majority a b c) in
      [wadd t1 t2; a; b; c; wadd d t1; e; f; g]
  | _ => st
  end.

Definition compress (h : list N) (block : list N) : list N :=
  let w := rev (schedule 48 (rev block)) in
  let st := fold_left round (combine round_constants w) h in
  map (fun p => wadd (fst p) (snd p)) (combine h st).

Definition sha256 (msg : list N) : list N :=
  let padded := pad msg in
  let ws := words_of_bytes (List.length padded) padded in
  let digest := fold_left compress (chunks (List.length ws) ws) initial_hash in
  flat_map (be_bytes 4) digest.

Definition hmac_sha256 (key msg : list N) : list N :=
  let k := if Nat.ltb 64 (List.length key) then sha256 key else key in
  let k := k ++ repeat 0 (64 - List.length k) in
  let ipad := map (N.lxor 54) k in
  let opad := map (N.lxor 92) k in
  sha256 (opad ++ sha256 (ipad ++ msg)).

Definition hex_digit (n : N) : ascii :=
  ascii_of_N (if n <? 10 then 48 + n else 87 + n).

Fixpoint hex (bs : list N) : string :=
  match bs with
  | [] => EmptyString
  | b :: rest => String (hex_digit (b / 16)) (String (hex_digit (b mod 16)) (hex rest))
  end.

Definition sha256_hex (msg : string) : string :=
  hex (sha256 (bytes_of_string msg)).

(** [crypto.createHmac('sha256', key).update(msg).digest('hex')] *)
Definition hmac_sha256_hex (key msg : string) : string :=
  hex (hmac_sha256 (bytes_of_string key) (bytes_of_string msg)).

End Crypto.

(** ** JSON values and [JSON.stringify]

    Wire payloads as the handlers receive them, already parsed (webhook
    bodies, gateway entities, stored detail blobs).  [JNum n] is the Number a
    JSON text with the integer literal [n] denotes, that is the binary64 value
    nearest to [n]; Numbers with a fraction do not occur in the payloads
    modelled.  An object is the list of its bindings; the first binding of a
    key is the property. *)
Module Json.

#[local] Unset Elimination Schemes.
Inductive JSON : Type :=
| JNull
| JBool (b : bool)
| JNum (n : Z)
| JStr (s : string)
| JArr (items : list JSON)
| JObj (fields : list (string * JSON)).
#[local] Set Elimination Schemes.

(** A JavaScript value read from a payload: [None] is [undefined]. *)
Definition JSVal : Type := option JSON.

Definition string_of_Z (n : Z) : string := NilZero.string_of_int (Z.to_int n).

(** *** Number::toString on integer-valued Numbers *)

(** The integer value of the binary64 nearest to [n]; [None] when the
    literal overflows to [Infinity]. *)
Definition nearest_double (n : Z) : option Z :=
  match binary_normalize 53 1024 n 0 false with
  | S754_zero _ => Some 0%Z
  | S754_finite s m e =>
      Some (if (0 <=? e)%Z then cond_Zopp s (Zpos m) * 2 ^ e
            else cond_Zopp s (Zpos m) / 2 ^ (- e))%Z
  | _ => None
  end.

Definition rounds_to (v c : Z) : bool :=
  match nearest_double c with
  | Some v' => Z.eqb v' v
  | None => false
  end.

(** The decimal with the fewest significant digits that still denotes the
    Number [v > 0]; of two such decimals the one closer to [v], and on a tie
    the one with the even last digit.  [e] counts the trailing zeros tried. *)
Fixpoint shortest_decimal (e : nat) (v : Z) : Z :=
  let p := (10 ^ Z.of_nat e)%Z in
  let lo := (v / p * p)%Z in
  let hi := (lo + p)%Z in
  let lo_ok := (0 <? lo)%Z && rounds_to v lo in
  let hi_ok := rounds_to v hi in
  let next := match e with O => v | S e' => shortest_decimal e' v end in
  if lo_ok && hi_ok then
    if (v - lo <? hi - v)%Z then lo
    else if (hi - v <? v - lo)%Z then hi
    else if Z.even (lo / p) then lo else hi
  else if lo_ok then lo
  else if hi_ok then hi
  else next.

Fixpoint strip_zeros (digits : list ascii) : list ascii :=
  match digits with
  | "0"%char :: rest => strip_zeros rest
  | _ => digits
  end.

(** The digits of the decimal [c > 0]: written out up to 21 digits, in
    exponent notation beyond. *)
Definition format_decimal (c : Z) : string :=
  let digits := string_of_Z c in
  let n := String.length digits in
  if Nat.leb n 21 then digits
  else
    match rev (strip_zeros (rev (list_ascii_of_string digits))) with
    | [] => digits
    | d :: [] =>
        String d ("e+" ++ string_of_Z (Z.of_nat n - 1))
    | d :: more =>
        String d ("." ++ string_of_list_ascii more ++
                  "e+" ++ string_of_Z (Z.of_nat n - 1))
    end.

(** [JSON.stringify] of the Number denoted by [n]; [Infinity] is written
    [null]. *)
Definition number_to_string (n : Z) : string :=
  match nearest_double n with
  | None => "null"
  | Some 0%Z => "0"
  | Some v =>
      let a := Z.abs v in
      let c := shortest_decimal (String.length (string_of_Z a)) a in
      if (v <? 0)%Z then "-" ++ format_decimal c else format_decimal c
  end.

(** *** Strings *)

Definition hex4 (n : N) : string :=
  String (Crypto.hex_digit (n / 4096 mod 16))
    (String (Crypto.hex_digit (n / 256 mod 16))
       (String (Crypto.hex_digit (n / 16 mod 16))
          (String (Crypto.hex_digit (n mod 16)) EmptyString))).

Definition dquote : ascii := ascii_of_N 34.

(** QuoteJSONString of ECMA-262, on bytes. *)
Fixpoint escape (s : string) : string :=
  match s with
  | EmptyString => EmptyString
  | String c rest =>
      let n := N_of_ascii c in
      let tail := escape rest in
      if N.eqb n 34 then String "\" (String dquote tail)
      else if N.eqb n 92 then String "\" (String "\" tail)
      else if N.eqb n 8 then String "\" (String "b" tail)
      else if N.eqb n 12 then String "\" (String "f" tail)
      else if N.eqb n 10 then String "\" (String "n" tail)
      else if N.eqb n 13 then String "\" (String "r" tail)
      else if N.eqb n 9 then String "\" (String "t" tail)
      else if N.ltb n 32 then String "\" (String "u" (hex4 n ++ tail))
      else String c tail
  end.

Definition quote (s : string) : string :=
  String dquote (escape s ++ String dquote EmptyString).

(** *** Own property keys in enumeration order

    Array indices (canonical numerals up to 2^32 - 2) come first, in
    ascending order; the other keys follow in the order they were added. *)
Definition is_digit (c : ascii) : bool :=
  let n := N_of_ascii c in N.leb 48 n && N.leb n 57.

Fixpoint all_digits (s : string) : bool :=
  match s with
  | EmptyString => true
  | String c rest => is_digit c && all_digits rest
  end.

Fixpoint numeral_value (acc : Z) (s : string) : Z :=
  match s with
  | EmptyString => acc
  | String c rest => numeral_value (10 * acc + Z.of_N (N_of_ascii c) - 48) rest
  end.

Definition array_index (k : string) : option Z :=
  match k with
  | EmptyString => None
  | String c rest =>
      if all_digits k
         && (negb (N.eqb (N_of_ascii c) 48) || String.eqb rest "")
         && Nat.leb (String.length k) 10
         && (numeral_value 0 k <=? 4294967294)%Z
      then Some (numeral_value 0 k)
      else None
  end.

Section Properties.

Context {A : Type}.

Fixpoint has_key (k : string) (l : list (string * A)) : bool :=
  match l with
  | [] => false
  | (k', _) :: rest => String.eqb k k' || has_key k rest
  end.

(** The first binding of every key, in the order of the list. *)
Fixpoint first_bindings (seen l : list (string * A)) : list (string * A) :=
  match l with
  | [] => []
  | (k, v) :: rest =>
      if has_key k seen then first_bindings seen rest
      else (k, v) :: first_bindings ((k, v) :: seen) rest
  end.

Fixpoint insert_index (i : Z) (kv : string * A) (l : list (Z * (string * A)))
  : list (Z * (string * A)) :=
  match l with
  | [] => [(i, kv)]
  | (j, kv') :: rest =>
      if (i <? j)%Z then (i, kv) :: l else (j, kv') :: insert_index i kv rest
  end.

Fixpoint indexed (l : list (string * A)) : list (Z * (string * A)) :=
  match l with
  | [] => []
  | (k, v) :: rest =>
      match array_index k with
      | Some i => insert_index i (k, v) (indexed rest)
      | None => indexed rest
      end
  end.

Fixpoint named (l : list (string * A)) : list (string * A) :=
  match l with
  | [] => []
  | (k, v) :: rest =>
      match array_index k with
      | Some _ => named rest
      | None => (k, v) :: named rest
      end
  end.

Definition own_properties (l : list (string * A)) : list (string * A) :=
  let bindings := first_bindings [] l in
  (map snd (indexed bindings) ++ named bindings)%list.

End Properties.

Fixpoint join (parts : list string) : string :=
  match parts with
  | [] => ""
  | x :: [] => x
  | x :: rest => x ++ "," ++ join rest
  end.

(** [JSON.stringify(value)] with no indentation. *)
Fixpoint stringify (j : JSON) : string :=
  match j with
  | JNull => "null"
  | JBool true => "true"
  | JBool false => "false"
  | JNum n => number_to_string n
  | JStr s => quote s
  | JArr items => "[" ++ join (map stringify items) ++ "]"
  | JObj fields =>
      "{" ++
      join (map (fun kv => quote (fst kv) ++ ":" ++ snd kv)
              (own_properties
                 ((fix members (l : list (string * JSON)) : list (string * string) :=
                     match l with
                     | [] => []
                     | (k, v) :: rest => (k, stringify v) :: members rest
                     end) fields))) ++ "}"
  end.

(** Property read [o.k] on a value that is not [null] or [undefined]. *)
Fixpoint lookup (k : string) (fields : list (string * JSON)) : JSVal :=
  match fields with
  | [] => None
  | (k', v) :: rest => if String.eqb k k' then Some v else lookup k rest
  end.

Definition prop (v : JSVal) (k : string) : JSVal :=
  match v with
  | Some (JObj fields) => lookup k fields
  | _ => None
  end.

(** ToBoolean *)
Definition truthy (v : JSVal) : bool :=
  match v with
  | None | Some JNull => false
  | Some (JBool b) => b
  | Some (JNum n) => negb (Z.eqb n 0)
  | Some (JStr s) => negb (String.eqb s "")
  | Some (JArr _) | Some (JObj _) => true
  end.

(** [a || b] and [a && b] *)
Definition js_or (a b : JSVal) : JSVal := if truthy a then a else b.
Definition js_and (a b : JSVal) : JSVal := if truthy a then b else a.

(** [v === 'literal'] *)
Definition is_str (v : JSVal) (lit : string) : bool :=
  match v with
  | Some (JStr s) => String.eqb s lit
  | _ => false
  end.

End Json.

Import Json.

(** ** JavaScript Numbers: IEEE 754 binary64 *)
Module Number.

Definition Number : Type := spec_float.

Definition prec : Z := 53.
Definition emax : Z := 1024.

Definition of_Z (n : Z) : Number := binary_normalize prec emax n 0 false.

(** [x * y] *)
Definition mul (x y : Number) : Number := SFmul prec emax x y.

(** [isNaN(x)] *)
Definition isNaN (x : Number) : bool :=
  match x with S754_nan => true | _ => false end.

(** [x <= y] *)
Definition leb (x y : Number) : bool := SFleb x y.

(** ToBoolean of a Number: [0], [-0] and [NaN] are falsy. *)
Definition truthy (x : Number) : bool :=
  match x with
  | S754_zero _ | S754_nan => false
  | S754_infinity _ | S754_finite _ _ _ => true
  end.

(** The integer [floor(v + 1/2)] for [v = num * 2^e] with [e < 0]. *)
Definition round_half_up (num e : Z) : Z :=
  (2 * num + 2 ^ (- e)) / 2 ^ (- e + 1).

(** [Math.round(x)]: the integer closest to [x], ties towards +infinity;
    the sign of a zero result is the sign of [x]. *)
Definition Math_round (x : Number) : Number :=
  match x with
  | S754_finite s m e =>
      if (0 <=? e)%Z then x
      else
        let r := round_half_up (cond_Zopp s (Zpos m)) e in
        if (r =? 0)%Z then S754_zero s else of_Z r
  | _ => x
  end.

End Number.

Import Number.
(** ** Stored documents *)

(** Modelled from the spec: the Payment schema ([user/models/Payment.js]) is
    not among the sources; the statuses are the ones the data model lists and
    the controller writes. *)
Inductive PaymentStatus : Type := pending | completed | failed | refunded.

Definition PaymentStatus_eqb (a b : PaymentStatus) : bool :=
  match a, b with
  | pending, pending | completed, completed
  | failed, failed | refunded, refunded => true
  | _, _ => false
  end.

Module Payment.
Record doc : Type := {
  _id : nat;
  orderId : string;
  userId : string;
  razorpayOrderId : string;
  razorpayPaymentId : option string;
  razorpaySignature : option string;
  amount : Number;
  currency : string;
  status : PaymentStatus;
  paymentMethod : string;
  paymentDetails : option JSON;
  error : option string;
  refundDetails : option JSON
}.
End Payment.

(** The Order document with its payment sub-record, one field per dotted
    path the controller writes (['payment.status'] is [payment_status]). *)
Module Order.
Record doc : Type := {
  _id : string;
  orderNumber : string;
  status : string;
  payment_method : option string;
  payment_status : option PaymentStatus;
  payment_razorpayOrderId : option string;
  payment_razorpayPaymentId : option string;
  payment_razorpaySignature : option string;
  payment_amount : option Number;
  payment_paymentMethod : option string;
  payment_details : option JSON;
  payment_error : option string
}.
End Order.

(** Notifications: the message templates of the three webhook handlers and
    the [data] object stored with them. *)
Inductive Message : Type :=
| PaymentReceived (amount : JSVal) (orderNumber : string)
    (* `Payment of ₹${payment.amount / 100} received for order #${order.orderNumber}` *)
| PaymentFailed (amount : JSVal) (orderNumber : string)
    (* `Payment of ₹${payment.amount / 100} failed for order #${order.orderNumber}` *)
| RefundProcessed (amount : JSVal) (orderNumber : string).
    (* `Refund of ₹${refund.amount / 100} processed for order #${order.orderNumber}` *)

Inductive DataValue : Type :=
| DValue (v : JSVal)        (* a value copied from the gateway entity *)
| DDiv100 (v : JSVal)       (* [v / 100] *)
| DPaymentId (id : nat)     (* a Payment document's [_id] *)
| DString (s : string).

Record Notification : Type := {
  type : string;
  message : Message;
  data : list (string * DataValue)
}.

(** ** Errors, environment and the world the handlers run in *)

(** What a [catch (error)] clause can observe: [error.message] of a thrown
    Error, or [error.error] of a rejection of the gateway SDK. *)
Inductive JsError : Type :=
| Thrown (message : string)
| GatewayRejected (error : JSON).

Definition error_message (e : JsError) : JSVal :=
  match e with
  | Thrown m => Some (JStr m)
  | GatewayRejected _ => None
  end.

Definition error_error (e : JsError) : JSVal :=
  match e with
  | Thrown _ => None
  | GatewayRejected err => Some err
  end.

Inductive Result (A : Type) : Type :=
| Ok (a : A)
| Throw (e : JsError).
Arguments Ok {A} a.
Arguments Throw {A} e.

(** [razorpay.orders.create] request and response *)
Record GatewayOrderRequest : Type := {
  req_amount : Number;
  req_currency : string;
  req_receipt : string
}.

Record RazorpayOrder : Type := {
  id : string;
  order_amount : Z;
  order_currency : string
}.

Inductive GatewayCall : Type :=
| OrdersCreate (r : GatewayOrderRequest)
| PaymentsFetch (payment_id : string).

(** [process.env], the gateway behind the SDK client and the notification
    store, as the handlers see them: the gateway answers or rejects, saving a
    notification succeeds or throws.

    The Payment and Order schemas are not among the sources; what the
    handlers need of them is taken from the environment.  [Order._id] and
    [Payment.orderId] are ObjectIds ([admin/routes/paymentRoutes.js]), so a
    string given for one is cast before the query runs: [cast_ObjectId] is
    the identifier a string is cast to, [None] when Mongoose refuses it with
    a CastError, whose message for a model, a path and a value is
    [CastError_message].  [createHmac_key_message] is the message of the
    TypeError that [crypto.createHmac] throws for a key that is
    [undefined]. *)
Record Env : Type := {
  RAZORPAY_KEY_SECRET : option string;
  RAZORPAY_WEBHOOK_SECRET : option string;
  orders_create : GatewayOrderRequest -> Result RazorpayOrder;
  payments_fetch : string -> Result (list (string * JSON));
  notification_save : Notification -> Result unit;
  cast_ObjectId : string -> option string;
  CastError_message : string -> string -> string -> string;
  createHmac_key_message : string
}.

Record World : Type := {
  payments : list Payment.doc;
  orders : list Order.doc;
  notifications : list Notification;
  next_id : nat;
  gateway_calls : list GatewayCall;
  console_error : list string
}.

(** The stored state the properties speak of: Payment Records and Orders. *)
Definition same_records (w w' : World) : Prop :=
  payments w' = payments w /\ orders w' = orders w.

(** ** The handler monad: state with exceptions

    A thrown error keeps the writes made before it (nothing is rolled back),
    as awaited Mongoose calls do. *)
Definition M (A : Type) : Type := World -> Result A * World.

Definition ret {A} (a : A) : M A := fun w => (Ok a, w).

Definition throw {A} (e : JsError) : M A := fun w => (Throw e, w).

Definition bind {A B} (m : M A) (k : A -> M B) : M B :=
  fun w =>
    match m w with
    | (Ok a, w') => k a w'
    | (Throw e, w') => (Throw e, w')
    end.

(** [try { m } catch (error) { handler error }] *)
Definition try_catch {A} (m : M A) (handler : JsError -> M A) : M A :=
  fun w =>
    match m w with
    | (Ok a, w') => (Ok a, w')
    | (Throw e, w') => handler e w'
    end.

Declare Scope monad_scope.
Delimit Scope monad_scope with monad.
Notation "x <- m ;; k" := (bind m (fun x => k))
  (at level 61, m at next level, right associativity) : monad_scope.
Notation "m ;; k" := (bind m (fun _ => k))
  (at level 61, right associativity) : monad_scope.
Local Open Scope monad_scope.

Definition lift {A} (r : Result A) : M A := fun w => (r, w).

(** [console.error(label, ...)] *)
Definition log_error (label : string) : M unit :=
  fun w =>
    (Ok tt,
     {| payments := payments w; orders := orders w;
        notifications := notifications w; next_id := next_id w;
        gateway_calls := gateway_calls w;
        console_error := console_error w ++ [label] |}).

Definition call_gateway (c : GatewayCall) : M unit :=
  fun w =>
    (Ok tt,
     {| payments := payments w; orders := orders w;
        notifications := notifications w; next_id := next_id w;
        gateway_calls := gateway_calls w ++ [c];
        console_error := console_error w |}).

Definition set_payments (ps : list Payment.doc) : M unit :=
  fun w =>
    (Ok tt,
     {| payments := ps; orders := orders w;
        notifications := notifications w; next_id := next_id w;
        gateway_calls := gateway_calls w;
        console_error := console_error w |}).

Definition set_orders (os : list Order.doc) : M unit :=
  fun w =>
    (Ok tt,
     {| payments := payments w; orders := os;
        notifications := notifications w; next_id := next_id w;
        gateway_calls := gateway_calls w;
        console_error := console_error w |}).

Definition get_payments : M (list Payment.doc) := fun w => (Ok (payments w), w).
Definition get_orders : M (list Order.doc) := fun w => (Ok (orders w), w).

(** ** Mongoose queries on the two collections

    Documents are kept in insertion order; a query takes the first match.
    An identifier is the string of its ObjectId.  The queries below take
    identifiers that are ObjectIds already (read from a stored document, or
    cast by the handler, see [cast_id]); validation errors and a lost
    connection are not modelled. *)
Fixpoint update_first {A} (q : A -> bool) (f : A -> A) (l : list A) : list A :=
  match l with
  | [] => []
  | x :: rest => if q x then f x :: rest else x :: update_first q f rest
  end.

(** A string-valued path compared with a query value: [null]/[undefined]
    matches a missing field. *)
Definition opt_eqb (a b : option string) : bool :=
  match a, b with
  | Some x, Some y => String.eqb x y
  | None, None => true
  | _, _ => false
  end.

(** An identifier read from a gateway entity: a string, or absent. *)
Definition string_field (v : JSVal) : option string :=
  match v with
  | Some (JStr s) => Some s
  | _ => None
  end.

(** [Model.findOne(filter)] *)
Definition Payment_findOne (q : Payment.doc -> bool) : M (option Payment.doc) :=
  ps <- get_payments ;; ret (find q ps).

Definition Order_findOne (q : Order.doc -> bool) : M (option Order.doc) :=
  os <- get_orders ;; ret (find q os).

(** [Model.findOneAndUpdate(filter, update, { new: true })]: the updated
    document, or [null]. *)
Definition Payment_findOneAndUpdate (q : Payment.doc -> bool)
    (f : Payment.doc -> Payment.doc) : M (option Payment.doc) :=
  ps <- get_payments ;;
  set_payments (update_first q f ps) ;;
  ret (option_map f (find q ps)).

Definition Order_findOneAndUpdate (q : Order.doc -> bool)
    (f : Order.doc -> Order.doc) : M (option Order.doc) :=
  os <- get_orders ;;
  set_orders (update_first q f os) ;;
  ret (option_map f (find q os)).

Definition by_payment_id (i : nat) (p : Payment.doc) : bool :=
  Nat.eqb (Payment._id p) i.

Definition by_order_id (i : string) (o : Order.doc) : bool :=
  String.eqb (Order._id o) i.

(** [Model.findByIdAndUpdate(id, update)] on an id that is an ObjectId
    already; a handler that passes a string from the request casts it first. *)
Definition Payment_findByIdAndUpdate (i : nat) (f : Payment.doc -> Payment.doc)
  : M (option Payment.doc) :=
  Payment_findOneAndUpdate (by_payment_id i) f.

Definition Order_findByIdAndUpdate (i : string) (f : Order.doc -> Order.doc)
  : M (option Order.doc) :=
  Order_findOneAndUpdate (by_order_id i) f.

(** [Order.findById(id)] *)
Definition Order_findById (i : string) : M (option Order.doc) :=
  Order_findOne (by_order_id i).

(** [existing.field = value; ...; await existing.save()]: Mongoose writes the
    modified paths to the stored document with that [_id]. *)
Definition Payment_save (existing : Payment.doc)
    (modify : Payment.doc -> Payment.doc) : M unit :=
  ps <- get_payments ;;
  set_payments (update_first (by_payment_id (Payment._id existing)) modify ps).

(** [new Payment(fields).save()]: a fresh [_id], appended. *)
Definition Payment_create (mk : nat -> Payment.doc) : M Payment.doc :=
  fun w =>
    let p := mk (next_id w) in
    (Ok p,
     {| payments := payments w ++ [p]; orders := orders w;
        notifications := notifications w; next_id := S (next_id w);
        gateway_calls := gateway_calls w;
        console_error := console_error w |}).

(** ** HTTP responses: [res.status(code).json(body)] *)
#[local] Unset Elimination Schemes.
Inductive Body : Type :=
| BValue (v : JSVal)
| BPayment (p : option Payment.doc)
| BObject (fields : list (string * Body)).
#[local] Set Elimination Schemes.

Record Response : Type := {
  statusCode : nat;
  json : Body
}.

Definition BString (s : string) : Body := BValue (Some (JStr s)).
Definition BBool (b : bool) : Body := BValue (Some (JBool b)).

Fixpoint body_lookup (k : string) (fields : list (string * Body)) : option Body :=
  match fields with
  | [] => None
  | (k', v) :: rest => if String.eqb k k' then Some v else body_lookup k rest
  end.

(** [body.k] of a response body *)
Definition field (k : string) (b : Body) : option Body :=
  match b with
  | BObject fields => body_lookup k fields
  | _ => None
  end.

(** ** Requests *)

(** [req.body] and [req.user._id] of [createOrder]; [amount] is a JSON
    number when it is sent (the coercion [!amount], [isNaN] and [<=] apply
    to other JSON types is not modelled). *)
Record CreateOrderRequest : Type := {
  body_amount : option Number;
  body_currency : option string;
  body_orderId : option string;
  body_paymentMethod : option string;
  user_id : string
}.

(** [req.body] of [verifyPayment]; an absent field is [None]. *)
Record VerifyRequest : Type := {
  razorpay_order_id : option string;
  razorpay_payment_id : option string;
  razorpay_signature : option string;
  payment_method : option string;
  order_id : option string
}.

(** [req.body] (as left by the body parser) and the signature header of
    the webhook route *)
Record WebhookRequest : Type := {
  payload_body : JSON;
  x_razorpay_signature : option string
}.

(** ToBoolean and ToString of an optional string field *)
Definition present (v : option string) : bool :=
  match v with
  | Some s => negb (String.eqb s "")
  | None => false
  end.

Definition js_string (v : option string) : string :=
  match v with
  | Some s => s
  | None => "undefined"
  end.

(** [v || fallback] *)
Definition or_default (v : option string) (fallback : string) : string :=
  if present v then js_string v else fallback.

(** [v || 'literal'] on a payload value *)
Definition or_literal (v : JSVal) (lit : string) : JSON :=
  match js_or v (Some (JStr lit)) with
  | Some j => j
  | None => JStr lit
  end.

(** [null] or [undefined] *)
Definition nullish (v : JSVal) : bool :=
  match v with
  | None | Some JNull => true
  | Some _ => false
  end.

(** [payload.k]: a TypeError on [null] and [undefined] *)
Definition get (v : JSVal) (k : string) : M JSVal :=
  if nullish v
  then throw (Thrown "Cannot read properties of undefined")
  else ret (prop v k).

Section Controllers.

Variable env : Env.

(** [crypto.createHmac('sha256', secret).update(text).digest('hex')];
    [createHmac] throws when the secret is not configured. *)
Definition createHmac_digest (secret : option string) (text : string) : M string :=
  match secret with
  | Some key => ret (Crypto.hmac_sha256_hex key text)
  | None => throw (Thrown (createHmac_key_message env))
  end.

(** The cast of a string to the ObjectId at [path] of [model], made by
    Mongoose before the query runs: a CastError when the string is not an
    ObjectId. *)
Definition cast_id (model path value : string) : M string :=
  match cast_ObjectId env value with
  | Some i => ret i
  | None => throw (Thrown (CastError_message env model path value))
  end.

(** *** notificationController.js: [createNotification] (part_002) *)
Definition createNotification (type : string) (message : Message)
    (data : list (string * DataValue)) : M Notification :=
  let notification := {| type := type; message := message; data := data |} in
  try_catch
    (lift (notification_save env notification) ;;
     (fun w =>
        (Ok notification,
         {| payments := payments w; orders := orders w;
            notifications := notifications w ++ [notification];
            next_id := next_id w; gateway_calls := gateway_calls w;
            console_error := console_error w |})))
    (fun error => log_error "Error creating notification:" ;; throw error).

(** *** paymentController.js: [createOrder] *)

Definition hundred : Number := Eval vm_compute in Number.of_Z 100.

Definition createOrder_update_existing (gateway_id : string) (amount : Number)
    (currency : string) (paymentMethod : option string)
    (validPaymentMethod : string) (p : Payment.doc) : Payment.doc :=
  {| Payment._id := Payment._id p;
     Payment.orderId := Payment.orderId p;
     Payment.userId := Payment.userId p;
     Payment.razorpayOrderId := gateway_id;
     Payment.razorpayPaymentId := Payment.razorpayPaymentId p;
     Payment.razorpaySignature := Payment.razorpaySignature p;
     Payment.amount := amount;
     Payment.currency := currency;
     Payment.status := Payment.status p;
     Payment.paymentMethod :=
       if present paymentMethod && negb (opt_eqb paymentMethod (Some "razorpay"))
       then validPaymentMethod else Payment.paymentMethod p;
     Payment.paymentDetails := Payment.paymentDetails p;
     Payment.error := Payment.error p;
     Payment.refundDetails := Payment.refundDetails p |}.

Definition createOrder_new_payment (orderId userId gateway_id : string)
    (amount : Number) (currency validPaymentMethod : string) (i : nat)
  : Payment.doc :=
  {| Payment._id := i;
     Payment.orderId := orderId;
     Payment.userId := userId;
     Payment.razorpayOrderId := gateway_id;
     Payment.razorpayPaymentId := None;
     Payment.razorpaySignature := None;
     Payment.amount := amount;
     Payment.currency := currency;
     Payment.status := pending;
     Payment.paymentMethod := validPaymentMethod;
     Payment.paymentDetails := None;
     Payment.error := None;
     Payment.refundDetails := None |}.

Definition createOrder_update_order (gateway_id : string) (amount : Number)
    (o : Order.doc) : Order.doc :=
  {| Order._id := Order._id o;
     Order.orderNumber := Order.orderNumber o;
     Order.status := Order.status o;
     Order.payment_method := Some "razorpay";
     Order.payment_status := Some pending;
     Order.payment_razorpayOrderId := Some gateway_id;
     Order.payment_razorpayPaymentId := Order.payment_razorpayPaymentId o;
     Order.payment_razorpaySignature := Order.payment_razorpaySignature o;
     Order.payment_amount := Some amount;
     Order.payment_paymentMethod := Order.payment_paymentMethod o;
     Order.payment_details := Order.payment_details o;
     Order.payment_error := Order.payment_error o |}.

Definition createOrder (req : CreateOrderRequest) : M Response :=
  try_catch
    (let currency :=
       match body_currency req with Some c => c | None => "INR" end in
     let orderId := body_orderId req in
     let paymentMethod := body_paymentMethod req in
     match body_amount req with
     | None =>
         ret {| statusCode := 400;
                json := BObject [("success", BBool false);
                                 ("error", BString "Missing required fields: amount or orderId")] |}
     | Some amount =>
         if negb (Number.truthy amount) || negb (present orderId) then
           ret {| statusCode := 400;
                  json := BObject [("success", BBool false);
                                   ("error", BString "Missing required fields: amount or orderId")] |}
         else if Number.isNaN amount || Number.leb amount (S754_zero false) then
           ret {| statusCode := 400;
                  json := BObject [("success", BBool false);
                                   ("error", BString "Invalid amount: must be a positive number")] |}
         else
           let amountInPaise := Number.Math_round (Number.mul amount hundred) in
           let request := {| req_amount := amountInPaise;
                             req_currency := currency;
                             req_receipt := js_string orderId |} in
           call_gateway (OrdersCreate request) ;;
           razorpayOrder <- lift (orders_create env request) ;;
           let validPaymentMethod := or_default paymentMethod "card" in
           (* Payment.findOne({ orderId }): the filter value is cast first *)
           orderRef <- cast_id "Payment" "orderId" (js_string orderId) ;;
           existingPayment <-
             Payment_findOne (fun p => String.eqb (Payment.orderId p) orderRef) ;;
           match existingPayment with
           | Some existing =>
               Payment_save existing
                 (createOrder_update_existing (id razorpayOrder) amount currency
                    paymentMethod validPaymentMethod)
           | None =>
               Payment_create
                 (createOrder_new_payment orderRef (user_id req)
                    (id razorpayOrder) amount currency validPaymentMethod) ;;
               ret tt
           end ;;
           (* Order.findByIdAndUpdate(orderId, ...): the id is cast first *)
           orderKey <- cast_id "Order" "_id" (js_string orderId) ;;
           Order_findByIdAndUpdate orderKey
             (createOrder_update_order (id razorpayOrder) amount) ;;
           ret {| statusCode := 200;
                  json := BObject
                    [("success", BBool true);
                     ("data", BObject
                        [("orderId", BString (id razorpayOrder));
                         ("amount", BValue (Some (JNum (order_amount razorpayOrder))));
                         ("currency", BString (order_currency razorpayOrder));
                         ("paymentMethod", BString validPaymentMethod)])] |}
     end)
    (fun error =>
       log_error "Detailed error in createOrder:" ;;
       if Json.truthy (error_error error) then
         ret {| statusCode := 400;
                json := BObject
                  [("success", BBool false);
                   ("error", BValue (Some (or_literal (prop (error_error error) "description")
                                             "Payment initialization failed")));
                   ("details", BValue (error_error error))] |}
       else
         ret {| statusCode := 500;
                json := BObject
                  [("success", BBool false);
                   ("error", BString "Payment initialization failed");
                   ("details", BValue (error_message error))] |}).

(** *** paymentController.js: [verifyPayment] *)

(** "Map Razorpay payment method to our payment method" *)
Definition resolve_paymentMethod (payment_method : option string)
    (razorpayPayment : list (string * JSON)) : string :=
  let paymentMethod := or_default payment_method "card" in
  let method := lookup "method" razorpayPayment in
  if Json.truthy method then
    if is_str method "upi" || is_str method "upi_intent" then "upi"
    else if is_str method "netbanking" then "netbanking"
    else if is_str method "wallet" then "wallet"
    else if is_str method "emi" then "emi"
    else if is_str method "card" then "card"
    else paymentMethod
  else paymentMethod.

(** "Extract payment details based on method": one spread per method *)
Definition build_paymentDetails (paymentMethod : string)
    (razorpayPayment : list (string * JSON)) : JSON :=
  let rp := Some (JObj razorpayPayment) in
  JObj
    ((if String.eqb paymentMethod "upi" then
        [("upi", JObj
            [("vpa",
              or_literal
                (js_or (js_or (prop rp "vpa")
                              (js_and (prop rp "upi") (prop (prop rp "upi") "vpa")))
                       (js_and (prop rp "upi_intent")
                               (prop (prop rp "upi_intent") "vpa")))
                "unknown")])]
      else []) ++
     (if String.eqb paymentMethod "netbanking" then
        [("bank", JObj
            [("name",
              or_literal
                (js_or (prop rp "bank")
                       (js_and (prop rp "netbanking")
                               (prop (prop rp "netbanking") "bank_name")))
                "unknown");
             ("ifsc",
              or_literal
                (js_or (prop rp "ifsc")
                       (js_and (prop rp "netbanking")
                               (prop (prop rp "netbanking") "ifsc")))
                "unknown")])]
      else []) ++
     (if String.eqb paymentMethod "wallet" then
        [("wallet", JObj
            [("name",
              or_literal
                (js_or (prop rp "wallet")
                       (js_and (prop rp "wallet") (prop (prop rp "wallet") "name")))
                "unknown")])]
      else []) ++
     (if String.eqb paymentMethod "card" then
        [("card", JObj
            [("last4",
              or_literal
                (js_and (prop rp "card")
                        (js_or (prop (prop rp "card") "last4")
                               (prop (prop rp "card") "last4_digits")))
                "unknown");
             ("network",
              or_literal
                (js_and (prop rp "card")
                        (js_or (prop (prop rp "card") "network")
                               (prop (prop rp "card") "card_network")))
                "unknown");
             ("issuer",
              or_literal
                (js_and (prop rp "card")
                        (js_or (prop (prop rp "card") "issuer")
                               (prop (prop rp "card") "issuer_name")))
                "unknown")])]
      else []))%list.

Definition verifyPayment_update_payment (req : VerifyRequest)
    (paymentMethod : string) (paymentDetails : JSON) (p : Payment.doc)
  : Payment.doc :=
  {| Payment._id := Payment._id p;
     Payment.orderId := Payment.orderId p;
     Payment.userId := Payment.userId p;
     Payment.razorpayOrderId := Payment.razorpayOrderId p;
     Payment.razorpayPaymentId := razorpay_payment_id req;
     Payment.razorpaySignature := razorpay_signature req;
     Payment.amount := Payment.amount p;
     Payment.currency := Payment.currency p;
     Payment.status := completed;
     Payment.paymentMethod := paymentMethod;
     Payment.paymentDetails := Some paymentDetails;
     Payment.error := Payment.error p;
     Payment.refundDetails := Payment.refundDetails p |}.

Definition verifyPayment_update_order (req : VerifyRequest)
    (paymentMethod : string) (o : Order.doc) : Order.doc :=
  {| Order._id := Order._id o;
     Order.orderNumber := Order.orderNumber o;
     Order.status := "confirmed";
     Order.payment_method := Some "razorpay";
     Order.payment_status := Some completed;
     Order.payment_razorpayOrderId := Order.payment_razorpayOrderId o;
     Order.payment_razorpayPaymentId := razorpay_payment_id req;
     Order.payment_razorpaySignature := razorpay_signature req;
     Order.payment_amount := Order.payment_amount o;
     Order.payment_paymentMethod := Some paymentMethod;
     Order.payment_details := Order.payment_details o;
     Order.payment_error := Order.payment_error o |}.

Definition by_razorpayOrderId (v : option string) (p : Payment.doc) : bool :=
  match v with
  | Some s => String.eqb (Payment.razorpayOrderId p) s
  | None => false
  end.

Definition missing (name : string) (v : option string) : list string :=
  if present v then [] else [name].

Definition verifyPayment (req : VerifyRequest) : M Response :=
  try_catch
    (let missingFields :=
       (missing "razorpay_order_id" (razorpay_order_id req) ++
        missing "razorpay_payment_id" (razorpay_payment_id req) ++
        missing "razorpay_signature" (razorpay_signature req) ++
        missing "order_id" (order_id req))%list in
     if Nat.ltb 0 (List.length missingFields) then
       log_error "Missing required fields:" ;;
       ret {| statusCode := 400;
              json := BObject
                [("success", BBool false);
                 ("error", BString "Missing required payment verification fields");
                 ("missingFields", BValue (Some (JArr (map JStr missingFields))))] |}
     else
       let body := js_string (razorpay_order_id req) ++ "|" ++
                   js_string (razorpay_payment_id req) in
       expectedSignature <- createHmac_digest (RAZORPAY_KEY_SECRET env) body ;;
       if negb (opt_eqb (Some expectedSignature) (razorpay_signature req)) then
         log_error "Signature mismatch:" ;;
         ret {| statusCode := 400;
                json := BObject
                  [("success", BBool false);
                   ("error", BString "Invalid payment signature");
                   ("details", BObject
                      [("received", BString (js_string (razorpay_signature req)));
                       ("expected", BString expectedSignature)])] |}
       else
         call_gateway (PaymentsFetch (js_string (razorpay_payment_id req))) ;;
         razorpayPayment <-
           lift (payments_fetch env (js_string (razorpay_payment_id req))) ;;
         let paymentMethod :=
           resolve_paymentMethod (payment_method req) razorpayPayment in
         existingPayment <-
           Payment_findOne (by_razorpayOrderId (razorpay_order_id req)) ;;
         match existingPayment with
         | None =>
             log_error "Payment record not found for order ID:" ;;
             ret {| statusCode := 404;
                    json := BObject [("success", BBool false);
                                     ("error", BString "Payment not found")] |}
         | Some _ =>
             let paymentDetails :=
               build_paymentDetails paymentMethod razorpayPayment in
             payment <-
               Payment_findOneAndUpdate
                 (by_razorpayOrderId (razorpay_order_id req))
                 (verifyPayment_update_payment req paymentMethod paymentDetails) ;;
             (* Order.findByIdAndUpdate(order_id, ...): the id is cast first,
                after the Payment Record was written *)
             orderKey <- cast_id "Order" "_id" (js_string (order_id req)) ;;
             Order_findByIdAndUpdate orderKey
               (verifyPayment_update_order req paymentMethod) ;;
             ret {| statusCode := 200;
                    json := BObject
                      [("success", BBool true);
                       ("data", BPayment payment);
                       ("message", BString ("Payment successful via " ++ paymentMethod))] |}
         end)
    (fun error =>
       log_error "Error verifying payment:" ;;
       ret {| statusCode := 500;
              json := BObject [("success", BBool false);
                               ("error", BString "Payment verification failed");
                               ("details", BValue (error_message error))] |}).

(** *** paymentController.js: the webhook handlers *)

Definition by_order_razorpayOrderId (v : JSVal) (o : Order.doc) : bool :=
  opt_eqb (Order.payment_razorpayOrderId o) (string_field v).

Definition captured_update_order (payment : JSVal) (o : Order.doc) : Order.doc :=
  {| Order._id := Order._id o;
     Order.orderNumber := Order.orderNumber o;
     Order.status := Order.status o;
     Order.payment_method := Order.payment_method o;
     Order.payment_status := Some completed;
     Order.payment_razorpayOrderId := Order.payment_razorpayOrderId o;
     Order.payment_razorpayPaymentId := string_field (prop payment "id");
     Order.payment_razorpaySignature := Order.payment_razorpaySignature o;
     Order.payment_amount := Order.payment_amount o;
     Order.payment_paymentMethod := Order.payment_paymentMethod o;
     Order.payment_details := payment;
     Order.payment_error := Order.payment_error o |}.

Definition captured_update_payment (payment : JSVal) (p : Payment.doc)
  : Payment.doc :=
  {| Payment._id := Payment._id p;
     Payment.orderId := Payment.orderId p;
     Payment.userId := Payment.userId p;
     Payment.razorpayOrderId := Payment.razorpayOrderId p;
     Payment.razorpayPaymentId := string_field (prop payment "id");
     Payment.razorpaySignature := Payment.razorpaySignature p;
     Payment.amount := Payment.amount p;
     Payment.currency := Payment.currency p;
     Payment.status := completed;
     Payment.paymentMethod := Payment.paymentMethod p;
     Payment.paymentDetails := payment;
     Payment.error := Payment.error p;
     Payment.refundDetails := Payment.refundDetails p |}.

Definition handlePaymentCaptured (payload : JSON) : M unit :=
  try_catch
    (p1 <- get (Some payload) "payload" ;;
     p2 <- get p1 "payment" ;;
     payment <- get p2 "entity" ;;
     order_id <- get payment "order_id" ;;
     order <- Order_findOne (by_order_razorpayOrderId order_id) ;;
     match order with
     | None => log_error "Order not found for payment:"
     | Some order =>
         createNotification "payment"
           (PaymentReceived (prop payment "amount") (Order.orderNumber order))
           [("paymentId", DValue (prop payment "id"));
            ("orderId", DString (Order._id order));
            ("orderNumber", DString (Order.orderNumber order));
            ("amount", DDiv100 (prop payment "amount"));
            ("status", DString "success")] ;;
         Order_findByIdAndUpdate (Order._id order) (captured_update_order payment) ;;
         Payment_findOneAndUpdate (by_razorpayOrderId (string_field order_id))
           (captured_update_payment payment) ;;
         ret tt
     end)
    (fun error => log_error "Error handling payment captured:").

Definition failed_update_order (payment : JSVal) (o : Order.doc) : Order.doc :=
  {| Order._id := Order._id o;
     Order.orderNumber := Order.orderNumber o;
     Order.status := Order.status o;
     Order.payment_method := Order.payment_method o;
     Order.payment_status := Some failed;
     Order.payment_razorpayOrderId := Order.payment_razorpayOrderId o;
     Order.payment_razorpayPaymentId := Order.payment_razorpayPaymentId o;
     Order.payment_razorpaySignature := Order.payment_razorpaySignature o;
     Order.payment_amount := Order.payment_amount o;
     Order.payment_paymentMethod := Order.payment_paymentMethod o;
     Order.payment_details := Order.payment_details o;
     Order.payment_error := string_field (prop payment "error_description") |}.

Definition failed_update_payment (payment : JSVal) (p : Payment.doc)
  : Payment.doc :=
  {| Payment._id := Payment._id p;
     Payment.orderId := Payment.orderId p;
     Payment.userId := Payment.userId p;
     Payment.razorpayOrderId := Payment.razorpayOrderId p;
     Payment.razorpayPaymentId := Payment.razorpayPaymentId p;
     Payment.razorpaySignature := Payment.razorpaySignature p;
     Payment.amount := Payment.amount p;
     Payment.currency := Payment.currency p;
     Payment.status := failed;
     Payment.paymentMethod := Payment.paymentMethod p;
     Payment.paymentDetails := Payment.paymentDetails p;
     Payment.error := string_field (prop payment "error_description");
     Payment.refundDetails := Payment.refundDetails p |}.

Definition handlePaymentFailed (payload : JSON) : M unit :=
  try_catch
    (p1 <- get (Some payload) "payload" ;;
     p2 <- get p1 "payment" ;;
     payment <- get p2 "entity" ;;
     order_id <- get payment "order_id" ;;
     order <- Order_findOne (by_order_razorpayOrderId order_id) ;;
     match order with
     | None => log_error "Order not found for failed payment:"
     | Some order =>
         createNotification "payment"
           (PaymentFailed (prop payment "amount") (Order.orderNumber order))
           [("paymentId", DValue (prop payment "id"));
            ("orderId", DString (Order._id order));
            ("orderNumber", DString (Order.orderNumber order));
            ("amount", DDiv100 (prop payment "amount"));
            ("status", DString "failed");
            ("error", DValue (prop payment "error_description"))] ;;
         Order_findByIdAndUpdate (Order._id order) (failed_update_order payment) ;;
         Payment_findOneAndUpdate (by_razorpayOrderId (string_field order_id))
           (failed_update_payment payment) ;;
         ret tt
     end)
    (fun error => log_error "Error handling payment failed:").

Definition by_razorpayPaymentId (v : JSVal) (p : Payment.doc) : bool :=
  opt_eqb (Payment.razorpayPaymentId p) (string_field v).

Definition refund_update_payment (refund : JSVal) (p : Payment.doc)
  : Payment.doc :=
  {| Payment._id := Payment._id p;
     Payment.orderId := Payment.orderId p;
     Payment.userId := Payment.userId p;
     Payment.razorpayOrderId := Payment.razorpayOrderId p;
     Payment.razorpayPaymentId := Payment.razorpayPaymentId p;
     Payment.razorpaySignature := Payment.razorpaySignature p;
     Payment.amount := Payment.amount p;
     Payment.currency := Payment.currency p;
     Payment.status := refunded;
     Payment.paymentMethod := Payment.paymentMethod p;
     Payment.paymentDetails := Payment.paymentDetails p;
     Payment.error := Payment.error p;
     Payment.refundDetails := refund |}.

Definition handleRefundCreated (payload : JSON) : M unit :=
  try_catch
    (p1 <- get (Some payload) "payload" ;;
     p2 <- get p1 "refund" ;;
     refund <- get p2 "entity" ;;
     payment_id <- get refund "payment_id" ;;
     payment <- Payment_findOne (by_razorpayPaymentId payment_id) ;;
     match payment with
     | None => log_error "Payment not found for refund:"
     | Some payment =>
         order <- Order_findById (Payment.orderId payment) ;;
         match order with
         | None => log_error "Order not found for refund:"
         | Some order =>
             createNotification "payment"
               (RefundProcessed (prop refund "amount") (Order.orderNumber order))
               [("paymentId", DPaymentId (Payment._id payment));
                ("orderId", DString (Order._id order));
                ("orderNumber", DString (Order.orderNumber order));
                ("amount", DDiv100 (prop refund "amount"));
                ("status", DString "refunded")] ;;
             Payment_findByIdAndUpdate (Payment._id payment)
               (refund_update_payment refund) ;;
             ret tt
         end
     end)
    (fun error => log_error "Error handling refund created:").

Definition handlePaymentWebhook (req : WebhookRequest) : M Response :=
  try_catch
    (let payload := payload_body req in
     let signature := x_razorpay_signature req in
     expectedSignature <-
       createHmac_digest (RAZORPAY_WEBHOOK_SECRET env) (Json.stringify payload) ;;
     if negb (opt_eqb signature (Some expectedSignature)) then
       log_error "Invalid webhook signature" ;;
       ret {| statusCode := 400;
              json := BObject [("error", BString "Invalid signature")] |}
     else
       event <- get (Some payload) "event" ;;
       (if is_str event "payment.captured" then handlePaymentCaptured payload
        else if is_str event "payment.failed" then handlePaymentFailed payload
        else if is_str event "refund.created" then handleRefundCreated payload
        else ret tt) ;;
       ret {| statusCode := 200;
              json := BObject [("received", BBool true)] |})
    (fun error =>
       log_error "Error processing webhook:" ;;
       ret {| statusCode := 500;
              json := BObject [("error", BString "Webhook processing failed")] |}).

End Controllers.

(** ** Vocabulary of the specification *)

(** The verification request of a caller who supplies the four mandatory
    fields. *)
Definition well_formed (req : VerifyRequest) (o p sig oid : string) : Prop :=
  razorpay_order_id req = Some o /\ o <> "" /\
  razorpay_payment_id req = Some p /\ p <> "" /\
  razorpay_signature req = Some sig /\ sig <> "" /\
  order_id req = Some oid /\ oid <> "".

Definition all_fields_present (req : VerifyRequest) : bool :=
  present (razorpay_order_id req) && present (razorpay_payment_id req) &&
  present (razorpay_signature req) && present (order_id req).

(** The HMAC-SHA256, under [secret], of
    "{gateway_order_id}|{gateway_payment_id}" *)
Definition expected_signature (secret : string) (req : VerifyRequest) : string :=
  Crypto.hmac_sha256_hex secret
    (js_string (razorpay_order_id req) ++ "|" ++
     js_string (razorpay_payment_id req)).

Definition invalid_signature_response (received expected : string) : Response :=
  {| statusCode := 400;
     json := BObject
       [("success", BBool false);
        ("error", BString "Invalid payment signature");
        ("details", BObject [("received", BString received);
                             ("expected", BString expected)])] |}.

(** The same request resubmitted with another signature. *)
Definition with_signature (req : VerifyRequest) (sig : string) : VerifyRequest :=
  {| razorpay_order_id := razorpay_order_id req;
     razorpay_payment_id := razorpay_payment_id req;
     razorpay_signature := Some sig;
     payment_method := payment_method req;
     order_id := order_id req |}.

(** [body.details.expected] of a response *)
Definition details_expected (res : Response) : option Body :=
  match field "details" (json res) with
  | Some details => field "expected" details
  | None => None
  end.

(** The fixed table of section 4.2, gateway method to stored method. *)
Definition method_table : list (string * string) :=
  [("upi", "upi"); ("upi_intent", "upi"); ("netbanking", "netbanking");
   ("wallet", "wallet"); ("emi", "emi"); ("card", "card")].

Fixpoint table_lookup (m : string) (table : list (string * string))
  : option string :=
  match table with
  | [] => None
  | (k, v) :: rest => if String.eqb m k then Some v else table_lookup m rest
  end.

(** The client-declared hint, defaulting to card when none is given. *)
Definition hint_or_card (hint : option string) : string :=
  match hint with
  | Some h => if String.eqb h "" then "card" else h
  | None => "card"
  end.

(** Method resolution as the specification words it: a recognised gateway
    method goes through the table, anything else keeps the hint. *)
Definition spec_resolved_method (gateway_method : JSVal) (hint : option string)
  : string :=
  match gateway_method with
  | Some (JStr m) =>
      match table_lookup m method_table with
      | Some stored => stored
      | None => hint_or_card hint
      end
  | _ => hint_or_card hint
  end.

(** [amount > 0] on Numbers *)
Definition positive (amount : Number) : Prop :=
  SFltb (S754_zero false) amount = true.


(** [{ received: true }] with status 200 *)
Definition acknowledgment : Response :=
  {| statusCode := 200; json := BObject [("received", BBool true)] |}.

(** [{ error: 'Invalid signature' }] with status 400 *)
Definition invalid_webhook_signature : Response :=
  {| statusCode := 400; json := BObject [("error", BString "Invalid signature")] |}.

(** [payload.payload.payment.entity.order_id] where it can be read *)
Definition captured_order_id (payload : JSON) : JSVal :=
  prop (prop (prop (prop (Some payload) "payload") "payment") "entity") "order_id".

(** The request carries the signature the handler computes for its body. *)
Definition signed (env : Env) (req : WebhookRequest) : Prop :=
  exists secret,
    RAZORPAY_WEBHOOK_SECRET env = Some secret /\
    x_razorpay_signature req =
      Some (Crypto.hmac_sha256_hex secret (Json.stringify (payload_body req))).

(** [payload.event === name] *)
Definition event_is (req : WebhookRequest) (name : string) : Prop :=
  prop (Some (payload_body req)) "event" = Some (JStr name).

(** The operations of the reconciliation flow, and the store after one. *)
Inductive Operation : Type :=
| Initiation (req : CreateOrderRequest)
| Verification (req : VerifyRequest)
| Webhook (req : WebhookRequest).

Definition perform (env : Env) (op : Operation) (w : World) : World :=
  match op with
  | Initiation req => snd (createOrder env req w)
  | Verification req => snd (verifyPayment env req w)
  | Webhook req => snd (handlePaymentWebhook env req w)
  end.

(** Every Payment Record that is refunded in [w] is still refunded in [w']
    (records are identified by their position in the collection). *)
Definition keeps_refunded (w w' : World) : Prop :=
  forall k p,
    nth_error (payments w) k = Some p ->
    Payment.status p = refunded ->
    exists p',
      nth_error (payments w') k = Some p' /\ Payment.status p' = refunded.

(** The operations that write a status other than refunded on a record they
    find: verification, and the payment.captured and payment.failed events. *)
Definition overwrites_status (op : Operation) : bool :=
  match op with
  | Initiation _ => false
  | Verification _ => true
  | Webhook req =>
      is_str (prop (Some (payload_body req)) "event") "payment.captured" ||
      is_str (prop (Some (payload_body req)) "event") "payment.failed"
  end.

(** The notification store is down: every save throws. *)
Definition sink_down (env : Env) : Prop :=
  forall n, exists e, notification_save env n = Throw e.

(** ** A concrete deployment used by the examples

    One order [O1] with a pending Payment Record for the gateway order
    [order_G1]; the gateway knows the payment [pay_1] as a UPI-intent payment;
    the notification store accepts every notification. *)
Module Scenario.

(** The [_id]s of two orders. *)
Definition O1 : string := "64f1c0de0000000000000001".
Definition O2 : string := "64f1c0de0000000000000002".

Definition amount_499 : Number := Eval vm_compute in Number.of_Z 499.

Definition gateway_entity : list (string * JSON) :=
  [("id", JStr "pay_1"); ("order_id", JStr "order_G1");
   ("amount", JNum 49900); ("method", JStr "upi_intent");
   ("vpa", JStr "buyer@upi")].

Definition quoted (s : string) : string :=
  String Json.dquote (s ++ String Json.dquote EmptyString).

(** The cast of a string to an ObjectId: 24 hexadecimal digits, read
    without regard to case. *)
Definition lower_hex (c : ascii) : option ascii :=
  let n := N_of_ascii c in
  if (N.leb 48 n && N.leb n 57) || (N.leb 97 n && N.leb n 102) then Some c
  else if N.leb 65 n && N.leb n 70 then Some (ascii_of_N (n + 32))
  else None.

Fixpoint lower_hex_string (s : string) : option string :=
  match s with
  | EmptyString => Some EmptyString
  | String c rest =>
      match lower_hex c, lower_hex_string rest with
      | Some c', Some rest' => Some (String c' rest')
      | _, _ => None
      end
  end.

Definition ObjectId (s : string) : option string :=
  if Nat.eqb (String.length s) 24 then lower_hex_string s else None.

Definition env : Env :=
  {| RAZORPAY_KEY_SECRET := Some "gateway_secret";
     RAZORPAY_WEBHOOK_SECRET := Some "webhook_secret";
     orders_create := fun r =>
       Ok {| id := "order_G1"; order_amount := 49900; order_currency := req_currency r |};
     payments_fetch := fun _ => Ok gateway_entity;
     notification_save := fun _ => Ok tt;
     cast_ObjectId := ObjectId;
     CastError_message := fun model path value =>
       "Cast to ObjectId failed for value " ++ quoted value ++
       " (type string) at path " ++ quoted path ++ " for model " ++ quoted model;
     createHmac_key_message :=
       "The " ++ quoted "key" ++ " argument must be of type string or an " ++
       "instance of ArrayBuffer, Buffer, TypedArray, DataView, KeyObject, or " ++
       "CryptoKey. Received undefined" |}.

(** The same deployment with a notification store that is down. *)
Definition env_sink_down : Env :=
  {| RAZORPAY_KEY_SECRET := RAZORPAY_KEY_SECRET env;
     RAZORPAY_WEBHOOK_SECRET := RAZORPAY_WEBHOOK_SECRET env;
     orders_create := orders_create env;
     payments_fetch := payments_fetch env;
     notification_save := fun _ => Throw (Thrown "buffering timed out");
     cast_ObjectId := cast_ObjectId env;
     CastError_message := CastError_message env;
     createHmac_key_message := createHmac_key_message env |}.

Definition payment_with (st : PaymentStatus) (pid : option string) : Payment.doc :=
  {| Payment._id := 0;
     Payment.orderId := O1;
     Payment.userId := "U1";
     Payment.razorpayOrderId := "order_G1";
     Payment.razorpayPaymentId := pid;
     Payment.razorpaySignature := None;
     Payment.amount := amount_499;
     Payment.currency := "INR";
     Payment.status := st;
     Payment.paymentMethod := "card";
     Payment.paymentDetails := None;
     Payment.error := None;
     Payment.refundDetails := None |}.

Definition order_O1 : Order.doc :=
  {| Order._id := O1;
     Order.orderNumber := "ORD-0001";
     Order.status := "pending";
     Order.payment_method := Some "razorpay";
     Order.payment_status := Some pending;
     Order.payment_razorpayOrderId := Some "order_G1";
     Order.payment_razorpayPaymentId := None;
     Order.payment_razorpaySignature := None;
     Order.payment_amount := Some amount_499;
     Order.payment_paymentMethod := None;
     Order.payment_details := None;
     Order.payment_error := None |}.

Definition world_with (ps : list Payment.doc) (os : list Order.doc) : World :=
  {| payments := ps; orders := os; notifications := [];
     next_id := 1; gateway_calls := []; console_error := [] |}.

Definition world : World := world_with [payment_with pending None] [order_O1].

(** The same store after a refund of [pay_1]. *)
Definition world_refunded : World :=
  world_with [payment_with refunded (Some "pay_1")] [order_O1].

Definition valid_signature : string :=
  Eval vm_compute in Crypto.hmac_sha256_hex "gateway_secret" "order_G1|pay_1".

Definition verify_request (sig : string) (oid : string) : VerifyRequest :=
  {| razorpay_order_id := Some "order_G1";
     razorpay_payment_id := Some "pay_1";
     razorpay_signature := Some sig;
     payment_method := Some "card";
     order_id := Some oid |}.

(** Webhook bodies as the body parser hands them over. *)
Definition payment_event (event order : string) : JSON :=
  JObj [("event", JStr event);
        ("payload", JObj
           [("payment", JObj
               [("entity", JObj [("id", JStr "pay_1");
                                 ("order_id", JStr order);
                                 ("amount", JNum 49900)])])])].

Definition refund_event : JSON :=
  JObj [("event", JStr "refund.created");
        ("payload", JObj
           [("refund", JObj
               [("entity", JObj [("id", JStr "rfnd_1");
                                 ("payment_id", JStr "pay_1");
                                 ("amount", JNum 49900)])])])].

(** A request signed the way the handler checks it. *)
Definition signed_request (payload : JSON) : WebhookRequest :=
  {| payload_body := payload;
     x_razorpay_signature :=
       Some (Crypto.hmac_sha256_hex "webhook_secret" (Json.stringify payload)) |}.

(** The payment.captured event for [order_G1] as a sender serialises it, with
    a space after each colon and comma. *)
Definition raw_captured : string :=
  "{" ++ quoted "event" ++ ": " ++ quoted "payment.captured" ++ ", " ++
  quoted "payload" ++ ": {" ++ quoted "payment" ++ ": {" ++
  quoted "entity" ++ ": {" ++
  quoted "id" ++ ": " ++ quoted "pay_1" ++ ", " ++
  quoted "order_id" ++ ": " ++ quoted "order_G1" ++ ", " ++
  quoted "amount" ++ ": 49900}}}}".

Definition create_request : CreateOrderRequest :=
  {| body_amount := Some amount_499;
     body_currency := None;
     body_orderId := Some O1;
     body_paymentMethod := None;
     user_id := "U1" |}.

End Scenario.

(** ** The three endpoints as one dispatcher *)


(** ** Further deployments used by the examples *)
Module Outage.

(** The gateway refuses every order and cannot be reached for a fetch. *)
Definition gateway_error : JSON :=
  JObj [("code", JStr "BAD_REQUEST_ERROR");
        ("description", JStr "Amount exceeds maximum amount allowed")].

Definition env : Env :=
  {| RAZORPAY_KEY_SECRET := RAZORPAY_KEY_SECRET Scenario.env;
     RAZORPAY_WEBHOOK_SECRET := RAZORPAY_WEBHOOK_SECRET Scenario.env;
     orders_create := fun _ => Throw (GatewayRejected gateway_error);
     payments_fetch := fun _ => Throw (Thrown "connect ETIMEDOUT");
     notification_save := notification_save Scenario.env;
     cast_ObjectId := cast_ObjectId Scenario.env;
     CastError_message := CastError_message Scenario.env;
     createHmac_key_message := createHmac_key_message Scenario.env |}.

End Outage.

(** ** Vocabulary of the further properties *)

(** What a payment has settled: everything of a Payment Record except the
    gateway order id, amount, currency and method an initiation may
    overwrite. *)
Definition same_settlement (p p' : Payment.doc) : Prop :=
  Payment._id p' = Payment._id p /\
  Payment.orderId p' = Payment.orderId p /\
  Payment.userId p' = Payment.userId p /\
  Payment.status p' = Payment.status p /\
  Payment.razorpayPaymentId p' = Payment.razorpayPaymentId p /\
  Payment.razorpaySignature p' = Payment.razorpaySignature p /\
  Payment.paymentDetails p' = Payment.paymentDetails p /\
  Payment.error p' = Payment.error p /\
  Payment.refundDetails p' = Payment.refundDetails p.

(** The database keeps [_id] unique within the Payment collection. *)
Definition unique_payment_ids (w : World) : Prop :=
  NoDup (map Payment._id (payments w)).

(** The request [createOrder] sends to the gateway for a validated body. *)
Definition gateway_request (req : CreateOrderRequest) (amount : Number)
    (oid : string) : GatewayOrderRequest :=
  {| req_amount := Number.Math_round (Number.mul amount hundred);
     req_currency := match body_currency req with Some c => c | None => "INR" end;
     req_receipt := oid |}.

(** An initiation that passes validation, that the gateway answers with
    [order], and whose order id is the ObjectId [cid]. *)
Definition initiated (env : Env) (req : CreateOrderRequest) (amount : Number)
    (oid cid : string) (order : RazorpayOrder) : Prop :=
  body_amount req = Some amount /\ positive amount /\
  body_orderId req = Some oid /\ oid <> "" /\
  orders_create env (gateway_request req amount oid) = Ok order /\
  cast_ObjectId env oid = Some cid.

(** The mandatory fields of a verification request that are absent, in the
    order the handler checks them. *)
Definition absent_fields (req : VerifyRequest) : list string :=
  map fst
    (filter (fun named => negb (present (snd named)))
       [("razorpay_order_id", razorpay_order_id req);
        ("razorpay_payment_id", razorpay_payment_id req);
        ("razorpay_signature", razorpay_signature req);
        ("order_id", order_id req)]).

(** The top-level key of the detail object stored for a method. *)
Definition detail_keys (paymentMethod : string) : list string :=
  if String.eqb paymentMethod "upi" then ["upi"]
  else if String.eqb paymentMethod "netbanking" then ["bank"]
  else if String.eqb paymentMethod "wallet" then ["wallet"]
  else if String.eqb paymentMethod "card" then ["card"]
  else [].

(** Every leaf of a detail object is a truthy value. *)
Definition leaves_truthy (detail : JSON) : Prop :=
  forall k sub leaf v,
    prop (Some detail) k = Some (JObj sub) ->
    lookup leaf sub = Some v ->
    Json.truthy (Some v) = true.

(** A verification request with the four fields and the signature the
    handler expects, for which the gateway returns the payment entity. *)
Definition verifiable (env : Env) (req : VerifyRequest) (o p oid : string)
    (rp : list (string * JSON)) : Prop :=
  exists secret,
    RAZORPAY_KEY_SECRET env = Some secret /\
    well_formed req o p (Crypto.hmac_sha256_hex secret (o ++ "|" ++ p)) oid /\
    payments_fetch env p = Ok rp.

(** A store with a second order, [O2], that has no payment of its own. *)
Module TwoOrders.

Definition order_O2 : Order.doc :=
  {| Order._id := Scenario.O2;
     Order.orderNumber := "ORD-0002";
     Order.status := "pending";
     Order.payment_method := None;
     Order.payment_status := None;
     Order.payment_razorpayOrderId := None;
     Order.payment_razorpayPaymentId := None;
     Order.payment_razorpaySignature := None;
     Order.payment_amount := None;
     Order.payment_paymentMethod := None;
     Order.payment_details := None;
     Order.payment_error := None |}.

Definition world : World :=
  Scenario.world_with [Scenario.payment_with pending None]
    [Scenario.order_O1; order_O2].

End TwoOrders.

(** The entity a payment event carries, and whether the handler can read it
    (no [null] or [undefined] on the path [payload.payload.<kind>.entity]). *)
Definition event_entity (kind : string) (payload : JSON) : JSVal :=
  prop (prop (prop (Some payload) "payload") kind) "entity".

Definition entity_readable (kind : string) (payload : JSON) : bool :=
  negb (nullish (Some payload)) &&
  negb (nullish (prop (Some payload) "payload")) &&
  negb (nullish (prop (prop (Some payload) "payload") kind)) &&
  negb (nullish (event_entity kind payload)).

(** The notifications the three event handlers emit. *)
Definition captured_notification (payment : JSVal) (order : Order.doc)
  : Notification :=
  {| type := "payment";
     message := PaymentReceived (prop payment "amount") (Order.orderNumber order);
     data := [("paymentId", DValue (prop payment "id"));
              ("orderId", DString (Order._id order));
              ("orderNumber", DString (Order.orderNumber order));
              ("amount", DDiv100 (prop payment "amount"));
              ("status", DString "success")] |}.

Definition failed_notification (payment : JSVal) (order : Order.doc)
  : Notification :=
  {| type := "payment";
     message := PaymentFailed (prop payment "amount") (Order.orderNumber order);
     data := [("paymentId", DValue (prop payment "id"));
              ("orderId", DString (Order._id order));
              ("orderNumber", DString (Order.orderNumber order));
              ("amount", DDiv100 (prop payment "amount"));
              ("status", DString "failed");
              ("error", DValue (prop payment "error_description"))] |}.

Definition refund_notification (refund : JSVal) (payment : Payment.doc)
    (order : Order.doc) : Notification :=
  {| type := "payment";
     message := RefundProcessed (prop refund "amount") (Order.orderNumber order);
     data := [("paymentId", DPaymentId (Payment._id payment));
              ("orderId", DString (Order._id order));
              ("orderNumber", DString (Order.orderNumber order));
              ("amount", DDiv100 (prop refund "amount"));
              ("status", DString "refunded")] |}.

(** The delivery passes the signature check of [handlePaymentWebhook] and
    its body has properties to read. *)
Definition webhook_accepts (env : Env) (req : WebhookRequest) : bool :=
  match RAZORPAY_WEBHOOK_SECRET env with
  | Some secret =>
      opt_eqb (x_razorpay_signature req)
        (Some (Crypto.hmac_sha256_hex secret (Json.stringify (payload_body req))))
      && negb (nullish (Some (payload_body req)))
  | None => false
  end.

(** The [switch (event)] of [handlePaymentWebhook]. *)
Definition handle_event (env : Env) (payload : JSON) : M unit :=
  let event := prop (Some payload) "event" in
  if is_str event "payment.captured" then handlePaymentCaptured env payload
  else if is_str event "payment.failed" then handlePaymentFailed env payload
  else if is_str event "refund.created" then handleRefundCreated env payload
  else ret tt.

(** What no webhook event rewrites on an Order: its identity, its fulfilment
    status and the payment fields written at initiation and verification. *)
Definition order_kept (o o' : Order.doc) : Prop :=
  Order._id o' = Order._id o /\
  Order.orderNumber o' = Order.orderNumber o /\
  Order.status o' = Order.status o /\
  Order.payment_method o' = Order.payment_method o /\
  Order.payment_razorpayOrderId o' = Order.payment_razorpayOrderId o /\
  Order.payment_razorpaySignature o' = Order.payment_razorpaySignature o /\
  Order.payment_amount o' = Order.payment_amount o /\
  Order.payment_paymentMethod o' = Order.payment_paymentMethod o.

(** What no webhook event rewrites on a Payment Record. *)
Definition payment_kept (p p' : Payment.doc) : Prop :=
  Payment._id p' = Payment._id p /\
  Payment.orderId p' = Payment.orderId p /\
  Payment.userId p' = Payment.userId p /\
  Payment.razorpayOrderId p' = Payment.razorpayOrderId p /\
  Payment.razorpaySignature p' = Payment.razorpaySignature p /\
  Payment.amount p' = Payment.amount p /\
  Payment.currency p' = Payment.currency p /\
  Payment.paymentMethod p' = Payment.paymentMethod p.

(** Signed deliveries for the stored order [O1], and the store once its
    payment is completed. *)
Module Deliveries.

Definition payment_captured : WebhookRequest :=
  Scenario.signed_request (Scenario.payment_event "payment.captured" "order_G1").

Definition failed_entity : JSON :=
  JObj [("id", JStr "pay_1"); ("order_id", JStr "order_G1");
        ("amount", JNum 49900);
        ("error_description", JStr "Payment was declined by the bank")].

Definition payment_failed : WebhookRequest :=
  Scenario.signed_request
    (JObj [("event", JStr "payment.failed");
           ("payload", JObj [("payment", JObj [("entity", failed_entity)])])]).

Definition refund_created : WebhookRequest :=
  Scenario.signed_request Scenario.refund_event.

Definition unhandled : WebhookRequest :=
  Scenario.signed_request (JObj [("event", JStr "order.paid")]).

Definition world_completed : World :=
  Scenario.world_with [Scenario.payment_with completed (Some "pay_1")]
    [Scenario.order_O1].

End Deliveries.

(** [{ success: false, error: 'Payment not found' }] with status 404 *)
Definition payment_not_found : Response :=
  {| statusCode := 404;
     json := BObject [("success", BBool false);
                      ("error", BString "Payment not found")] |}.

(** The 500 of [verifyPayment]'s catch block. *)
Definition verification_failed (e : JsError) : Response :=
  {| statusCode := 500;
     json := BObject [("success", BBool false);
                      ("error", BString "Payment verification failed");
                      ("details", BValue (error_message e))] |}.

(** The 500 of [handlePaymentWebhook]'s catch block. *)
Definition webhook_processing_failed : Response :=
  {| statusCode := 500;
     json := BObject [("error", BString "Webhook processing failed")] |}.

(** A deployment without the two secrets in [process.env]. *)
Module Unconfigured.

Definition env : Env :=
  {| RAZORPAY_KEY_SECRET := None;
     RAZORPAY_WEBHOOK_SECRET := None;
     orders_create := orders_create Scenario.env;
     payments_fetch := payments_fetch Scenario.env;
     notification_save := notification_save Scenario.env;
     cast_ObjectId := cast_ObjectId Scenario.env;
     CastError_message := CastError_message Scenario.env;
     createHmac_key_message := createHmac_key_message Scenario.env |}.

End Unconfigured.

(** *** paymentController.js: [testRazorpayConfig]

    [process.env.RAZORPAY_KEY_ID] is read by this handler only, so it is an
    argument here.  The gateway order is returned as the gateway sent it;
    its fields are those [RazorpayOrder] has. *)
Definition test_order_request : GatewayOrderRequest :=
  {| req_amount := hundred; req_currency := "INR"; req_receipt := "test-order" |}.

Definition order_body (o : RazorpayOrder) : Body :=
  BObject [("id", BString (id o));
           ("amount", BValue (Some (JNum (order_amount o))));
           ("currency", BString (order_currency o))].

Definition testRazorpayConfig (env : Env) (RAZORPAY_KEY_ID : option string)
  : M Response :=
  try_catch
    (if negb (present RAZORPAY_KEY_ID) || negb (present (RAZORPAY_KEY_SECRET env))
     then
       ret {| statusCode := 500;
              json := BObject
                [("success", BBool false);
                 ("error", BString "Razorpay API keys are not configured");
                 ("keyId", BBool (present RAZORPAY_KEY_ID));
                 ("keySecret", BBool (present (RAZORPAY_KEY_SECRET env)))] |}
     else
       call_gateway (OrdersCreate test_order_request) ;;
       testOrder <- lift (orders_create env test_order_request) ;;
       ret {| statusCode := 200;
              json := BObject
                [("success", BBool true);
                 ("message", BString "Razorpay configuration is working");
                 ("testOrder", order_body testOrder)] |})
    (fun error =>
       log_error "Razorpay test error:" ;;
       ret {| statusCode := 500;
              json := BObject
                [("success", BBool false);
                 ("error", BString "Razorpay test failed");
                 ("details", BValue (error_message error))] |}).

(** Both API keys are set to a non-empty value. *)
Definition keys_configured (env : Env) (key_id : option string) : bool :=
  present key_id && present (RAZORPAY_KEY_SECRET env).

(** *** Server setup (part_004): the CORS origin policy *)
Module Cors.

(** The literals of [allowedOrigins]. *)
Definition fixed_origins : list string :=
  ["http://localhost:5173";
   "http://localhost:5174";
   "https://api.cloudinary.com";
   "https://clothes-site-admin-frontend.vercel.app";
   "https://clothes-site-client-frontend.vercel.app";
   "https://clothes-site-frontend.vercel.app"].

(** [array.filter(Boolean)] on strings that may be unset *)
Fixpoint filter_Boolean (l : list (option string)) : list string :=
  match l with
  | [] => []
  | v :: rest =>
      if present v then js_string v :: filter_Boolean rest
      else filter_Boolean rest
  end.

Definition allowedOrigins (CLIENT_ORIGIN ADMIN_ORIGIN : option string)
  : list string :=
  filter_Boolean (map Some fixed_origins ++ [CLIENT_ORIGIN; ADMIN_ORIGIN]).

Fixpoint strip_prefix (p s : string) : option string :=
  match p, s with
  | EmptyString, _ => Some s
  | String a p', String b s' => if Ascii.eqb a b then strip_prefix p' s' else None
  | String _ _, EmptyString => None
  end.

(** The class [[a-z0-9-]] *)
Definition is_label_char (c : ascii) : bool :=
  let n := N_of_ascii c in
  (N.leb 97 n && N.leb n 122) || (N.leb 48 n && N.leb n 57) || N.eqb n 45.

(** The longest run of [[a-z0-9-]] at the head of a string, and what
    follows it. *)
Fixpoint label_run (s : string) : string * string :=
  match s with
  | String c rest =>
      if is_label_char c
      then let (label, tail) := label_run rest in (String c label, tail)
      else (EmptyString, s)
  | EmptyString => (EmptyString, EmptyString)
  end.

(** [vercelPreviewRegex.test(origin)] for
    [/^https:\/\/clothes-site-frontend-[a-z0-9-]+\.vercel\.app$/]: the class
    holds no dot, so the run it matches is the longest one. *)
Definition vercelPreviewRegex_test (origin : string) : bool :=
  match strip_prefix "https://clothes-site-frontend-" origin with
  | Some rest =>
      let (label, tail) := label_run rest in
      negb (String.eqb label "") && String.eqb tail ".vercel.app"
  | None => false
  end.

(** [array.includes(origin)] *)
Definition includes (l : list string) (origin : string) : bool :=
  existsb (String.eqb origin) l.

(** The [origin] callback given to [cors]: [callback(null, true)] or
    [callback(new Error(...))]. *)
Definition origin_callback (CLIENT_ORIGIN ADMIN_ORIGIN : option string)
    (origin : option string) : Result bool :=
  if negb (present origin) then Ok true
  else if includes (allowedOrigins CLIENT_ORIGIN ADMIN_ORIGIN) (js_string origin)
          || vercelPreviewRegex_test (js_string origin)
  then Ok true
  else Throw (Thrown "Not allowed by CORS").

(** The language of the preview pattern: the scheme and the project prefix,
    a non-empty label of lower-case letters, digits and hyphens, and the
    platform suffix. *)
Definition preview_origin (origin : string) : Prop :=
  exists label,
    label <> "" /\
    (forall c, In c (list_ascii_of_string label) -> is_label_char c = true) /\
    origin = "https://clothes-site-frontend-" ++ label ++ ".vercel.app".

End Cors.

(** * Properties *)

(** ** The digest is 64 hex characters, hence never the empty string *)
Module CryptoFacts.
Import Crypto.

Lemma round_length st kw :
  List.length st = 8%nat -> List.length (round st kw) = 8%nat.
Proof.
  intros H.
  do 8 (destruct st as [|? st]; [discriminate H|]).
  destruct st; [reflexivity | discriminate H].
Qed.

Lemma fold_round_length kws : forall st,
  List.length st = 8%nat -> List.length (fold_left round kws st) = 8%nat.
Proof.
  induction kws as [|kw kws IH]; intros st H; [exact H|].
  cbn [fold_left]. apply IH, round_length, H.
Qed.

Lemma compress_length h block :
  List.length h = 8%nat -> List.length (compress h block) = 8%nat.
Proof.
  intros H. unfold compress.
  rewrite length_map, length_combine, fold_round_length by exact H.
  rewrite H. reflexivity.
Qed.

Lemma fold_compress_length blocks : forall h,
  List.length h = 8%nat -> List.length (fold_left compress blocks h) = 8%nat.
Proof.
  induction blocks as [|b blocks IH]; intros h H; [exact H|].
  cbn [fold_left]. apply IH, compress_length, H.
Qed.

Lemma be_bytes_length count x : List.length (be_bytes count x) = count.
Proof. induction count; cbn [be_bytes List.length]; congruence. Qed.

Lemma flat_be_bytes_length ws :
  List.length (flat_map (be_bytes 4) ws) = (4 * List.length ws)%nat.
Proof.
  induction ws as [|w ws IH]; [reflexivity|].
  cbn [flat_map]. rewrite length_app, be_bytes_length, IH.
  cbn [List.length]. lia.
Qed.

Lemma sha256_length msg : List.length (sha256 msg) = 32%nat.
Proof.
  unfold sha256. rewrite flat_be_bytes_length, fold_compress_length; reflexivity.
Qed.

Lemma hex_length bs : String.length (hex bs) = (2 * List.length bs)%nat.
Proof.
  induction bs as [|b bs IH]; [reflexivity|].
  cbn [hex String.length List.length]. rewrite IH. lia.
Qed.

Lemma hmac_sha256_hex_length key msg :
  String.length (hmac_sha256_hex key msg) = 64%nat.
Proof.
  unfold hmac_sha256_hex, hmac_sha256.
  rewrite hex_length, sha256_length. reflexivity.
Qed.

Lemma hmac_sha256_hex_nonempty key msg :
  String.eqb (hmac_sha256_hex key msg) "" = false.
Proof.
  pose proof (hmac_sha256_hex_length key msg) as H.
  destruct (hmac_sha256_hex key msg); [discriminate H | reflexivity].
Qed.

End CryptoFacts.

Arguments Crypto.hmac_sha256_hex : simpl never.
Arguments Json.stringify : simpl never.

(** ** Facts on first-match queries *)
Section FirstMatch.

Context {A : Type}.
Variables (q : A -> bool) (f : A -> A).

Lemma update_first_no_match l :
  find q l = None -> update_first q f l = l.
Proof.
  induction l as [|x l IH]; cbn [find update_first]; [reflexivity|].
  destruct (q x); [discriminate|]. intros H. rewrite IH by exact H. reflexivity.
Qed.

Lemma update_first_length l :
  List.length (update_first q f l) = List.length l.
Proof.
  induction l as [|x l IH]; cbn [update_first]; [reflexivity|].
  destruct (q x); cbn [List.length]; congruence.
Qed.

(** Every position holds the old document or its update. *)
Lemma update_first_nth l k x :
  nth_error l k = Some x ->
  nth_error (update_first q f l) k = Some x \/
  nth_error (update_first q f l) k = Some (f x).
Proof.
  revert k. induction l as [|y l IH]; intros k H.
  - destruct k; discriminate H.
  - cbn [update_first]. destruct (q y).
    + destruct k as [|k]; cbn [nth_error] in *.
      * right. congruence.
      * left. exact H.
    + destruct k as [|k]; cbn [nth_error] in *.
      * left. exact H.
      * apply IH, H.
Qed.

Hypothesis f_keeps_match : forall x, q x = true -> q (f x) = true.

Lemma find_update_first l :
  find q (update_first q f l) = option_map f (find q l).
Proof.
  induction l as [|x l IH]; cbn [find update_first]; [reflexivity|].
  destruct (q x) eqn:E.
  - cbn [find]. rewrite (f_keeps_match x E). reflexivity.
  - cbn [find]. rewrite E. exact IH.
Qed.

Hypothesis f_idempotent : forall x, f (f x) = f x.

Lemma update_first_idempotent l :
  update_first q f (update_first q f l) = update_first q f l.
Proof.
  induction l as [|x l IH]; cbn [update_first]; [reflexivity|].
  destruct (q x) eqn:E; cbn [update_first].
  - rewrite (f_keeps_match x E), f_idempotent. reflexivity.
  - rewrite E, IH. reflexivity.
Qed.

End FirstMatch.

Lemma nth_error_app_left {A} (l l' : list A) k x :
  nth_error l k = Some x -> nth_error (l ++ l') k = Some x.
Proof.
  intros H. rewrite nth_error_app1; [exact H|].
  apply nth_error_Some. congruence.
Qed.

(** ** Running handlers *)

Create HintDb handler.
#[export] Hint Unfold bind ret throw try_catch lift log_error call_gateway
  set_payments set_orders get_payments get_orders
  Payment_findOne Order_findOne Payment_findOneAndUpdate Order_findOneAndUpdate
  Payment_findByIdAndUpdate Order_findByIdAndUpdate Order_findById
  Payment_save Payment_create createHmac_digest cast_id : handler.

Ltac run := autounfold with handler; cbn beta iota zeta.

Lemma present_Some s : s <> "" -> present (Some s) = true.
Proof.
  intros H. cbn. destruct (String.eqb_spec s ""); [contradiction | reflexivity].
Qed.

Lemma opt_eqb_Some_neq a b : a <> b -> opt_eqb (Some a) (Some b) = false.
Proof. intros H. cbn. apply String.eqb_neq, H. Qed.

Lemma opt_eqb_refl a : opt_eqb a a = true.
Proof. destruct a; cbn; [apply String.eqb_refl | reflexivity]. Qed.


Lemma well_formed_no_missing req o p sig oid :
  well_formed req o p sig oid ->
  (missing "razorpay_order_id" (razorpay_order_id req) ++
   missing "razorpay_payment_id" (razorpay_payment_id req) ++
   missing "razorpay_signature" (razorpay_signature req) ++
   missing "order_id" (order_id req))%list = [].
Proof.
  intros (-> & Ho & -> & Hp & -> & Hs & -> & Hi).
  unfold missing. rewrite !present_Some by assumption. reflexivity.
Qed.

(** The run of [verifyPayment] on a signature mismatch: the 400 response
    and one line on the error console. *)
Lemma verifyPayment_mismatch_run env req w secret o p sig oid :
  RAZORPAY_KEY_SECRET env = Some secret ->
  well_formed req o p sig oid ->
  sig <> Crypto.hmac_sha256_hex secret (o ++ "|" ++ p) ->
  verifyPayment env req w =
    (Ok (invalid_signature_response sig
           (Crypto.hmac_sha256_hex secret (o ++ "|" ++ p))),
     snd (log_error "Signature mismatch:" w)).
Proof.
  intros Hkey Hwf Hneq.
  unfold verifyPayment.
  rewrite (well_formed_no_missing _ _ _ _ _ Hwf).
  destruct Hwf as (Ho & _ & Hp & _ & Hs & _ & _ & _).
  rewrite Hkey, Ho, Hp, Hs. run. cbn [js_string].
  rewrite opt_eqb_Some_neq by congruence.
  reflexivity.
Qed.

Lemma present_true v : present v = true -> exists s, v = Some s /\ s <> "".
Proof.
  destruct v as [s|]; cbn; [|discriminate].
  destruct (String.eqb_spec s ""); [discriminate|]. intros _. eauto.
Qed.

Lemma all_fields_present_well_formed req :
  all_fields_present req = true ->
  exists o p sig oid, well_formed req o p sig oid.
Proof.
  unfold all_fields_present. intros H.
  apply andb_prop in H as [H Hi]. apply andb_prop in H as [H Hs].
  apply andb_prop in H as [Ho Hp].
  destruct (present_true _ Ho) as (o & ? & ?).
  destruct (present_true _ Hp) as (p & ? & ?).
  destruct (present_true _ Hs) as (sig & ? & ?).
  destruct (present_true _ Hi) as (oid & ? & ?).
  exists o, p, sig, oid. unfold well_formed. auto 10.
Qed.

(** A request with a mandatory field missing is answered 400 before any
    signature is computed. *)
Lemma verifyPayment_missing_fields_run env req w :
  all_fields_present req = false ->
  exists res w',
    verifyPayment env req w = (Ok res, w') /\
    statusCode res = 400 /\
    same_records w w' /\
    notifications w' = notifications w /\
    gateway_calls w' = gateway_calls w.
Proof.
  unfold all_fields_present, verifyPayment, missing. intros H.
  destruct (present (razorpay_order_id req)), (present (razorpay_payment_id req)),
    (present (razorpay_signature req)), (present (order_id req));
    try discriminate H;
    (eexists _, _; split; [reflexivity|]; repeat split).
Qed.

(** C1. Every verification request whose signature differs from the
    HMAC-SHA256, under the gateway secret, of
    "{gateway_order_id}|{gateway_payment_id}" is rejected (400) and the Payment
    Records and Orders after the call are those before it; no notification is
    stored and the gateway is not called.  For a request that carries its four
    mandatory fields the rejection is the invalid-signature error. *)
Theorem verifyPayment_tampered_signature_rejected :
  forall env req w secret,
    RAZORPAY_KEY_SECRET env = Some secret ->
    razorpay_signature req <> Some (expected_signature secret req) ->
    exists res w',
      verifyPayment env req w = (Ok res, w') /\
      statusCode res = 400 /\
      same_records w w' /\
      notifications w' = notifications w /\
      gateway_calls w' = gateway_calls w /\
      (all_fields_present req = true ->
       res = invalid_signature_response (js_string (razorpay_signature req))
               (expected_signature secret req)).
Proof.
  intros env req w secret Hkey Hneq.
  destruct (all_fields_present req) eqn:Hall.
  - destruct (all_fields_present_well_formed req Hall) as (o & p & sig & oid & Hwf).
    assert (Hexp : expected_signature secret req =
                   Crypto.hmac_sha256_hex secret (o ++ "|" ++ p)).
    { destruct Hwf as (Ho & _ & Hp & _). unfold expected_signature.
      rewrite Ho, Hp. reflexivity. }
    assert (Hsig : razorpay_signature req = Some sig) by apply Hwf.
    rewrite Hexp, Hsig in *.
    eexists _, _. split.
    + apply verifyPayment_mismatch_run with (oid := oid);
        [exact Hkey | exact Hwf | congruence].
    + unfold same_records, log_error. cbn. repeat split.
  - destruct (verifyPayment_missing_fields_run env req w Hall)
      as (res & w' & Hrun & Hst & Hrec & Hnot & Hgw).
    exists res, w'. repeat split; try assumption; try apply Hrec.
    discriminate.
Qed.

Lemma verifyPayment_tampered_signature_witness :
  exists res w',
    verifyPayment Scenario.env (Scenario.verify_request "0badc0de" Scenario.O1)
      Scenario.world = (Ok res, w') /\
    statusCode res = 400 /\
    same_records Scenario.world w' /\
    notifications w' = notifications Scenario.world /\
    gateway_calls w' = gateway_calls Scenario.world /\
    (all_fields_present (Scenario.verify_request "0badc0de" Scenario.O1) = true ->
     res = invalid_signature_response
             (js_string (razorpay_signature (Scenario.verify_request "0badc0de" Scenario.O1)))
             (expected_signature "gateway_secret"
                (Scenario.verify_request "0badc0de" Scenario.O1))).
Proof.
  apply (verifyPayment_tampered_signature_rejected
           Scenario.env (Scenario.verify_request "0badc0de" Scenario.O1) Scenario.world
           "gateway_secret").
  - reflexivity.
  - vm_compute. discriminate.
Defined.

Lemma with_signature_well_formed req o p sig oid sig' :
  well_formed req o p sig oid -> sig' <> "" ->
  well_formed (with_signature req sig') o p sig' oid.
Proof.
  intros (Ho & ? & Hp & ? & _ & _ & Hi & ?) Hs.
  unfold well_formed, with_signature; cbn. repeat split; assumption.
Qed.

Lemma hmac_neq_empty key msg : Crypto.hmac_sha256_hex key msg <> "".
Proof.
  intros H. pose proof (CryptoFacts.hmac_sha256_hex_nonempty key msg) as E.
  rewrite H in E. discriminate E.
Qed.

(** A well-formed request whose signature is the expected one reaches the
    gateway: the signature check lets it through. *)
Lemma verifyPayment_valid_signature_fetches env req w secret o p oid :
  RAZORPAY_KEY_SECRET env = Some secret ->
  well_formed req o p (Crypto.hmac_sha256_hex secret (o ++ "|" ++ p)) oid ->
  gateway_calls (snd (verifyPayment env req w)) =
  (gateway_calls w ++ [PaymentsFetch p])%list.
Proof.
  intros Hkey Hwf. unfold verifyPayment.
  rewrite (well_formed_no_missing _ _ _ _ _ Hwf).
  destruct Hwf as (Ho & _ & Hp & _ & Hs & _ & _ & _).
  rewrite Hkey, Ho, Hp, Hs. run. cbn [js_string].
  rewrite opt_eqb_refl. cbn [negb].
  destruct (payments_fetch env p) as [rp|e]; cbn; [|reflexivity].
  destruct (find _ (payments w)); [|reflexivity].
  cbn. destruct (cast_ObjectId env _); reflexivity.
Qed.

(** C9. On a signature mismatch the 400 response carries, under
    [details.expected], the HMAC-SHA256 of
    "{gateway_order_id}|{gateway_payment_id}" under the gateway secret; that
    value is a valid signature for the pair: the same request resubmitted with
    it passes the signature check and is taken to the gateway. *)
Theorem verifyPayment_discloses_expected_signature :
  forall env req w secret o p sig oid,
    RAZORPAY_KEY_SECRET env = Some secret ->
    well_formed req o p sig oid ->
    sig <> Crypto.hmac_sha256_hex secret (o ++ "|" ++ p) ->
    exists res w',
      verifyPayment env req w = (Ok res, w') /\
      statusCode res = 400 /\
      details_expected res =
        Some (BString (Crypto.hmac_sha256_hex secret (o ++ "|" ++ p))) /\
      forall w2,
        gateway_calls
          (snd (verifyPayment env
                  (with_signature req (Crypto.hmac_sha256_hex secret (o ++ "|" ++ p)))
                  w2)) =
        (gateway_calls w2 ++ [PaymentsFetch p])%list.
Proof.
  intros env req w secret o p sig oid Hkey Hwf Hneq.
  exists (invalid_signature_response sig
            (Crypto.hmac_sha256_hex secret (o ++ "|" ++ p))).
  eexists. split; [|split; [reflexivity | split; [reflexivity|]]].
  - apply verifyPayment_mismatch_run with (oid := oid); assumption.
  - intros w2.
    apply verifyPayment_valid_signature_fetches
      with (secret := secret) (o := o) (oid := oid); [exact Hkey|].
    apply with_signature_well_formed with (sig := sig); [exact Hwf|].
    apply hmac_neq_empty.
Qed.

Lemma verifyPayment_discloses_expected_signature_witness :
  exists res w',
    verifyPayment Scenario.env (Scenario.verify_request "0badc0de" Scenario.O1)
      Scenario.world = (Ok res, w') /\
    statusCode res = 400 /\
    details_expected res =
      Some (BString (Crypto.hmac_sha256_hex "gateway_secret"
                       ("order_G1" ++ "|" ++ "pay_1"))) /\
    forall w2,
      gateway_calls
        (snd (verifyPayment Scenario.env
                (with_signature (Scenario.verify_request "0badc0de" Scenario.O1)
                   (Crypto.hmac_sha256_hex "gateway_secret"
                      ("order_G1" ++ "|" ++ "pay_1")))
                w2)) =
      (gateway_calls w2 ++ [PaymentsFetch "pay_1"])%list.
Proof.
  apply (verifyPayment_discloses_expected_signature
           Scenario.env (Scenario.verify_request "0badc0de" Scenario.O1) Scenario.world
           "gateway_secret" "order_G1" "pay_1" "0badc0de" Scenario.O1).
  - reflexivity.
  - unfold well_formed. repeat split; discriminate.
  - vm_compute. discriminate.
Defined.

Arguments resolve_paymentMethod : simpl never.
Arguments build_paymentDetails : simpl never.
Arguments verifyPayment_update_payment : simpl never.
Arguments verifyPayment_update_order : simpl never.
Arguments by_razorpayOrderId : simpl never.
Arguments by_order_id : simpl never.

(** The run of [verifyPayment] on a request with a valid signature when the
    gateway returns the payment entity [rp] and a Payment Record is stored
    for the gateway order. *)
Lemma verifyPayment_accepted_run env req w secret o p oid cid rp existing :
  RAZORPAY_KEY_SECRET env = Some secret ->
  well_formed req o p (Crypto.hmac_sha256_hex secret (o ++ "|" ++ p)) oid ->
  payments_fetch env p = Ok rp ->
  find (by_razorpayOrderId (Some o)) (payments w) = Some existing ->
  cast_ObjectId env oid = Some cid ->
  exists w',
    verifyPayment env req w =
      (Ok {| statusCode := 200;
             json := BObject
               [("success", BBool true);
                ("data", BPayment (Some
                   (verifyPayment_update_payment req
                      (resolve_paymentMethod (payment_method req) rp)
                      (build_paymentDetails
                         (resolve_paymentMethod (payment_method req) rp) rp)
                      existing)));
                ("message", BString ("Payment successful via " ++
                   resolve_paymentMethod (payment_method req) rp))] |}, w') /\
    payments w' =
      update_first (by_razorpayOrderId (Some o))
        (verifyPayment_update_payment req
           (resolve_paymentMethod (payment_method req) rp)
           (build_paymentDetails
              (resolve_paymentMethod (payment_method req) rp) rp))
        (payments w) /\
    orders w' =
      update_first (by_order_id cid)
        (verifyPayment_update_order req
           (resolve_paymentMethod (payment_method req) rp))
        (orders w) /\
    notifications w' = notifications w.
Proof.
  intros Hkey Hwf Hfetch Hfind Hcast. unfold verifyPayment.
  rewrite (well_formed_no_missing _ _ _ _ _ Hwf).
  destruct Hwf as (Ho & _ & Hp & _ & Hs & _ & Hi & _).
  rewrite Hkey, Ho, Hp, Hs, Hi. run. cbn [js_string].
  rewrite opt_eqb_refl, Hfetch. cbn. rewrite Hfind. cbn. rewrite Hfind, Hcast.
  eexists. split; [reflexivity|]. cbn. repeat split.
Qed.

(** The run of [verifyPayment] when the request's [order_id] is not an
    ObjectId: the Payment Record is written, then the Order update throws. *)
Lemma verifyPayment_cast_failure_run env req w secret o p oid rp existing :
  RAZORPAY_KEY_SECRET env = Some secret ->
  well_formed req o p (Crypto.hmac_sha256_hex secret (o ++ "|" ++ p)) oid ->
  payments_fetch env p = Ok rp ->
  find (by_razorpayOrderId (Some o)) (payments w) = Some existing ->
  cast_ObjectId env oid = None ->
  exists w',
    verifyPayment env req w =
      (Ok {| statusCode := 500;
             json := BObject
               [("success", BBool false);
                ("error", BString "Payment verification failed");
                ("details",
                 BValue (Some (JStr (CastError_message env "Order" "_id" oid))))] |},
       w') /\
    payments w' =
      update_first (by_razorpayOrderId (Some o))
        (verifyPayment_update_payment req
           (resolve_paymentMethod (payment_method req) rp)
           (build_paymentDetails
              (resolve_paymentMethod (payment_method req) rp) rp))
        (payments w) /\
    orders w' = orders w /\
    notifications w' = notifications w.
Proof.
  intros Hkey Hwf Hfetch Hfind Hcast. unfold verifyPayment.
  rewrite (well_formed_no_missing _ _ _ _ _ Hwf).
  destruct Hwf as (Ho & _ & Hp & _ & Hs & _ & Hi & _).
  rewrite Hkey, Ho, Hp, Hs, Hi. run. cbn [js_string].
  rewrite opt_eqb_refl, Hfetch. cbn. rewrite Hfind. cbn. rewrite Hfind, Hcast.
  eexists. split; [reflexivity|]. cbn. repeat split.
Qed.


(** ** Method resolution *)

Lemma or_default_hint hint : or_default hint "card" = hint_or_card hint.
Proof.
  unfold or_default, hint_or_card, present.
  destruct hint as [h|]; [|reflexivity].
  destruct (String.eqb h ""); reflexivity.
Qed.

Lemma resolve_paymentMethod_table hint rp :
  resolve_paymentMethod hint rp =
  spec_resolved_method (lookup "method" rp) hint.
Proof.
  unfold resolve_paymentMethod, spec_resolved_method.
  rewrite or_default_hint.
  destruct (lookup "method" rp) as [[| [|] | n | m | items | fields]|];
    try reflexivity.
  - cbn. destruct (Z.eqb n 0); reflexivity.
  - cbn [Json.truthy is_str method_table table_lookup].
    destruct (String.eqb_spec m "") as [->|_]; [reflexivity|].
    cbn [negb].
    destruct (String.eqb m "upi"); [reflexivity|].
    destruct (String.eqb m "upi_intent"); [reflexivity|].
    destruct (String.eqb m "netbanking"); [reflexivity|].
    destruct (String.eqb m "wallet"); [reflexivity|].
    destruct (String.eqb m "emi"); [reflexivity|].
    destruct (String.eqb m "card"); reflexivity.
Qed.

Lemma verifyPayment_update_keeps_match req m d o x :
  by_razorpayOrderId (Some o) x = true ->
  by_razorpayOrderId (Some o) (verifyPayment_update_payment req m d x) = true.
Proof. intros H. exact H. Qed.

Lemma verifyPayment_update_payment_idempotent req m d x :
  verifyPayment_update_payment req m d (verifyPayment_update_payment req m d x) =
  verifyPayment_update_payment req m d x.
Proof. reflexivity. Qed.

Lemma verifyPayment_update_order_keeps_match req m oid x :
  by_order_id oid x = true ->
  by_order_id oid (verifyPayment_update_order req m x) = true.
Proof. intros H. exact H. Qed.

Lemma verifyPayment_update_order_idempotent req m x :
  verifyPayment_update_order req m (verifyPayment_update_order req m x) =
  verifyPayment_update_order req m x.
Proof. reflexivity. Qed.

(** C6. After a verification that passed the signature check and found its
    Payment Record, the record stored for the gateway order carries the method
    given by the fixed table (upi/upi_intent to upi, netbanking, wallet, emi,
    card to themselves) applied to the method the gateway reports; for an
    unrecognised or absent gateway method it carries the client-declared hint,
    or card when there is none.  The record is written before the Order is
    looked up; the response returns it whenever the request's order id is an
    ObjectId. *)
Theorem verifyPayment_stores_resolved_method :
  forall env req w secret o p oid rp existing,
    RAZORPAY_KEY_SECRET env = Some secret ->
    well_formed req o p (Crypto.hmac_sha256_hex secret (o ++ "|" ++ p)) oid ->
    payments_fetch env p = Ok rp ->
    find (by_razorpayOrderId (Some o)) (payments w) = Some existing ->
    exists res w' stored,
      verifyPayment env req w = (Ok res, w') /\
      (cast_ObjectId env oid <> None ->
       field "data" (json res) = Some (BPayment (Some stored))) /\
      find (by_razorpayOrderId (Some o)) (payments w') = Some stored /\
      Payment.paymentMethod stored =
        spec_resolved_method (lookup "method" rp) (payment_method req).
Proof.
  intros env req w secret o p oid rp existing Hkey Hwf Hfetch Hfind.
  destruct (cast_ObjectId env oid) as [cid|] eqn:Hcast.
  - destruct (verifyPayment_accepted_run env req w secret o p oid cid rp existing
                Hkey Hwf Hfetch Hfind Hcast) as (w' & Hrun & Hpay & _ & _).
    eexists _, w', _. split; [exact Hrun|]. split; [reflexivity|]. split.
    + rewrite Hpay, find_update_first, Hfind; [reflexivity|].
      intros x Hx. apply verifyPayment_update_keeps_match, Hx.
    + apply resolve_paymentMethod_table.
  - destruct (verifyPayment_cast_failure_run env req w secret o p oid rp existing
                Hkey Hwf Hfetch Hfind Hcast) as (w' & Hrun & Hpay & _ & _).
    eexists _, w', _. split; [exact Hrun|].
    split; [intros H; contradiction H; reflexivity|]. split.
    + rewrite Hpay, find_update_first, Hfind; [reflexivity|].
      intros x Hx. apply verifyPayment_update_keeps_match, Hx.
    + apply resolve_paymentMethod_table.
Qed.

(** Well-formedness of a concrete request, by evaluation. *)
Ltac well_formed_by_evaluation :=
  unfold well_formed, Scenario.verify_request;
  cbn [razorpay_order_id razorpay_payment_id razorpay_signature order_id];
  split; [reflexivity|]; split; [discriminate|];
  split; [reflexivity|]; split; [discriminate|];
  split; [vm_compute; reflexivity|]; split; [vm_compute; discriminate|];
  split; [reflexivity | vm_compute; discriminate].

Lemma verifyPayment_stores_resolved_method_witness :
  exists res w' stored,
    verifyPayment Scenario.env
      (Scenario.verify_request Scenario.valid_signature Scenario.O1) Scenario.world =
      (Ok res, w') /\
    (cast_ObjectId Scenario.env Scenario.O1 <> None ->
     field "data" (json res) = Some (BPayment (Some stored))) /\
    find (by_razorpayOrderId (Some "order_G1")) (payments w') = Some stored /\
    Payment.paymentMethod stored =
      spec_resolved_method (lookup "method" Scenario.gateway_entity) (Some "card").
Proof.
  apply (verifyPayment_stores_resolved_method
           Scenario.env (Scenario.verify_request Scenario.valid_signature Scenario.O1)
           Scenario.world "gateway_secret" "order_G1" "pay_1" Scenario.O1
           Scenario.gateway_entity (Scenario.payment_with pending None)).
  - reflexivity.
  - well_formed_by_evaluation.
  - reflexivity.
  - reflexivity.
Defined.

Example upi_intent_is_stored_as_upi :
  resolve_paymentMethod (Some "card") [("method", JStr "upi_intent")] = "upi".
Proof. reflexivity. Qed.

Example unrecognised_method_keeps_hint :
  resolve_paymentMethod (Some "wallet") [("method", JStr "paylater")] = "wallet" /\
  resolve_paymentMethod None [("method", JStr "paylater")] = "card" /\
  resolve_paymentMethod None [] = "card".
Proof. repeat split. Qed.

(** ** Verification and the Order lookup *)




(** ** Idempotence of verification *)

(** C5. A valid verification payload (mandatory fields present, correct
    signature, a Payment Record stored for the gateway order, the gateway
    answering the fetch) verified twice gets the same response both times,
    the 200 success response whenever its order id is an ObjectId; the record
    has status completed; the second call leaves Payment Records and Orders
    exactly as the first left them, so method and detail are identical; and
    after the first call a request with any other signature is still rejected
    as invalid-signature. *)
Theorem verifyPayment_idempotent :
  forall env req w secret o p oid rp existing,
    RAZORPAY_KEY_SECRET env = Some secret ->
    well_formed req o p (Crypto.hmac_sha256_hex secret (o ++ "|" ++ p)) oid ->
    payments_fetch env p = Ok rp ->
    find (by_razorpayOrderId (Some o)) (payments w) = Some existing ->
    exists res w1 w2 stored,
      verifyPayment env req w = (Ok res, w1) /\
      verifyPayment env req w1 = (Ok res, w2) /\
      (cast_ObjectId env oid <> None ->
       statusCode res = 200 /\
       field "data" (json res) = Some (BPayment (Some stored))) /\
      Payment.status stored = completed /\
      find (by_razorpayOrderId (Some o)) (payments w1) = Some stored /\
      same_records w1 w2 /\
      forall sig',
        sig' <> "" ->
        sig' <> Crypto.hmac_sha256_hex secret (o ++ "|" ++ p) ->
        fst (verifyPayment env (with_signature req sig') w1) =
        Ok (invalid_signature_response sig'
              (Crypto.hmac_sha256_hex secret (o ++ "|" ++ p))).
Proof.
  intros env req w secret o p oid rp existing Hkey Hwf Hfetch Hfind.
  assert (Hrejected : forall w1 sig',
             sig' <> "" ->
             sig' <> Crypto.hmac_sha256_hex secret (o ++ "|" ++ p) ->
             fst (verifyPayment env (with_signature req sig') w1) =
             Ok (invalid_signature_response sig'
                   (Crypto.hmac_sha256_hex secret (o ++ "|" ++ p)))).
  { intros w1 sig' Hne Hneq.
    rewrite (verifyPayment_mismatch_run env (with_signature req sig') w1
               secret o p sig' oid Hkey); [reflexivity | | exact Hneq].
    apply with_signature_well_formed
      with (sig := Crypto.hmac_sha256_hex secret (o ++ "|" ++ p)); assumption. }
  assert (Hfound : forall w1,
             payments w1 =
               update_first (by_razorpayOrderId (Some o))
                 (verifyPayment_update_payment req
                    (resolve_paymentMethod (payment_method req) rp)
                    (build_paymentDetails
                       (resolve_paymentMethod (payment_method req) rp) rp))
                 (payments w) ->
             find (by_razorpayOrderId (Some o)) (payments w1) =
               Some (verifyPayment_update_payment req
                       (resolve_paymentMethod (payment_method req) rp)
                       (build_paymentDetails
                          (resolve_paymentMethod (payment_method req) rp) rp)
                       existing)).
  { intros w1 Hpay1. rewrite Hpay1, find_update_first, Hfind; [reflexivity|].
    intros x Hx. apply verifyPayment_update_keeps_match, Hx. }
  destruct (cast_ObjectId env oid) as [cid|] eqn:Hcast.
  - destruct (verifyPayment_accepted_run env req w secret o p oid cid rp existing
                Hkey Hwf Hfetch Hfind Hcast) as (w1 & Hrun1 & Hpay1 & Hord1 & _).
    pose proof (Hfound w1 Hpay1) as Hfind1.
    destruct (verifyPayment_accepted_run env req w1 secret o p oid cid rp _
                Hkey Hwf Hfetch Hfind1 Hcast) as (w2 & Hrun2 & Hpay2 & Hord2 & _).
    eexists _, w1, w2, _.
    split; [exact Hrun1|]. split; [exact Hrun2|].
    split; [intros _; split; reflexivity|]. split; [reflexivity|].
    split; [exact Hfind1|]. split; [|apply Hrejected].
    split.
    + rewrite Hpay2, Hpay1. apply update_first_idempotent.
      * intros x Hx. apply verifyPayment_update_keeps_match, Hx.
      * intros x. apply verifyPayment_update_payment_idempotent.
    + rewrite Hord2, Hord1. apply update_first_idempotent.
      * intros x Hx. apply verifyPayment_update_order_keeps_match, Hx.
      * intros x. apply verifyPayment_update_order_idempotent.
  - destruct (verifyPayment_cast_failure_run env req w secret o p oid rp existing
                Hkey Hwf Hfetch Hfind Hcast) as (w1 & Hrun1 & Hpay1 & Hord1 & _).
    pose proof (Hfound w1 Hpay1) as Hfind1.
    destruct (verifyPayment_cast_failure_run env req w1 secret o p oid rp _
                Hkey Hwf Hfetch Hfind1 Hcast) as (w2 & Hrun2 & Hpay2 & Hord2 & _).
    eexists _, w1, w2, (verifyPayment_update_payment req _ _ existing).
    split; [exact Hrun1|]. split; [exact Hrun2|].
    split; [intros H; contradiction H; reflexivity|]. split; [reflexivity|].
    split; [exact Hfind1|]. split; [|apply Hrejected].
    split.
    + rewrite Hpay2, Hpay1. apply update_first_idempotent.
      * intros x Hx. apply verifyPayment_update_keeps_match, Hx.
      * intros x. apply verifyPayment_update_payment_idempotent.
    + rewrite Hord2, Hord1. reflexivity.
Qed.

Lemma verifyPayment_idempotent_witness :
  exists res w1 w2 stored,
    verifyPayment Scenario.env
      (Scenario.verify_request Scenario.valid_signature Scenario.O1) Scenario.world =
      (Ok res, w1) /\
    verifyPayment Scenario.env
      (Scenario.verify_request Scenario.valid_signature Scenario.O1) w1 = (Ok res, w2) /\
    (cast_ObjectId Scenario.env Scenario.O1 <> None ->
     statusCode res = 200 /\
     field "data" (json res) = Some (BPayment (Some stored))) /\
    Payment.status stored = completed /\
    find (by_razorpayOrderId (Some "order_G1")) (payments w1) = Some stored /\
    same_records w1 w2 /\
    forall sig',
      sig' <> "" ->
      sig' <> Crypto.hmac_sha256_hex "gateway_secret" ("order_G1" ++ "|" ++ "pay_1") ->
      fst (verifyPayment Scenario.env
             (with_signature (Scenario.verify_request Scenario.valid_signature Scenario.O1) sig')
             w1) =
      Ok (invalid_signature_response sig'
            (Crypto.hmac_sha256_hex "gateway_secret" ("order_G1" ++ "|" ++ "pay_1"))).
Proof.
  apply (verifyPayment_idempotent
           Scenario.env (Scenario.verify_request Scenario.valid_signature Scenario.O1)
           Scenario.world "gateway_secret" "order_G1" "pay_1" Scenario.O1
           Scenario.gateway_entity (Scenario.payment_with pending None)).
  - reflexivity.
  - well_formed_by_evaluation.
  - reflexivity.
  - reflexivity.
Defined.

(** ** Gateway order initiation *)

Lemma positive_passes_validation amount :
  positive amount ->
  Number.truthy amount = true /\
  Number.isNaN amount = false /\
  Number.leb amount (S754_zero false) = false.
Proof.
  unfold positive. destruct amount as [s|s| |s m e]; try destruct s;
    cbn; intros H; try discriminate H; repeat split.
Qed.


Arguments Number.Math_round : simpl never.
Arguments Number.mul : simpl never.
Arguments createOrder_update_existing : simpl never.
Arguments createOrder_new_payment : simpl never.
Arguments createOrder_update_order : simpl never.




(** The product is the binary64 product: the double nearest 0.015 lies
    below 0.015, its product with 100 is the double 1.5, and 2 is sent. *)
Example createOrder_rounds_the_double_product :
  (8646911284551352 * 100 * 2 < 3 * 2 ^ 59)%Z /\
  Number.mul (S754_finite false 8646911284551352 (-59)) hundred =
    S754_finite false 6755399441055744 (-52) /\
  Number.Math_round (Number.mul (S754_finite false 8646911284551352 (-59)) hundred) =
    Number.of_Z 2.
Proof. split; [reflexivity|]. split; vm_compute; reflexivity. Qed.

(** The scenario of section 8: amount 499.00 is sent as 49900. *)
Example createOrder_499_sends_49900 :
  gateway_calls (snd (createOrder Scenario.env Scenario.create_request
                        Scenario.world)) =
  [OrdersCreate {| req_amount := Number.of_Z 49900; req_currency := "INR";
                   req_receipt := Scenario.O1 |}].
Proof. vm_compute. reflexivity. Qed.

(** ** Webhook processing *)

Arguments captured_update_order : simpl never.
Arguments captured_update_payment : simpl never.
Arguments failed_update_order : simpl never.
Arguments failed_update_payment : simpl never.
Arguments refund_update_payment : simpl never.
Arguments by_order_razorpayOrderId : simpl never.
Arguments by_razorpayPaymentId : simpl never.
Arguments by_payment_id : simpl never.

Lemma prop_nullish v k : nullish v = true -> prop v k = None.
Proof. destruct v as [[]|]; cbn; intros H; try discriminate H; reflexivity. Qed.

Lemma event_is_not_nullish req name :
  event_is req name -> nullish (Some (payload_body req)) = false.
Proof.
  unfold event_is. intros H.
  destruct (nullish (Some (payload_body req))) eqn:E; [|reflexivity].
  rewrite (prop_nullish _ _ E) in H. discriminate H.
Qed.


Ltac never_throws :=
  unfold try_catch;
  match goal with
  | |- fst (match ?b with _ => _ end) = _ =>
      destruct b as [[[]|?] ?]; reflexivity
  end.

Lemma handlePaymentCaptured_never_throws env payload w :
  fst (handlePaymentCaptured env payload w) = Ok tt.
Proof. unfold handlePaymentCaptured. never_throws. Qed.

Lemma handlePaymentFailed_never_throws env payload w :
  fst (handlePaymentFailed env payload w) = Ok tt.
Proof. unfold handlePaymentFailed. never_throws. Qed.

Lemma handleRefundCreated_never_throws env payload w :
  fst (handleRefundCreated env payload w) = Ok tt.
Proof. unfold handleRefundCreated. never_throws. Qed.

(** The event dispatch of [handlePaymentWebhook] for a given event name. *)
Lemma handlePaymentWebhook_signed_run env req w name :
  signed env req -> event_is req name ->
  handlePaymentWebhook env req w =
    (Ok acknowledgment,
     snd ((if String.eqb name "payment.captured"
           then handlePaymentCaptured env (payload_body req)
           else if String.eqb name "payment.failed"
           then handlePaymentFailed env (payload_body req)
           else if String.eqb name "refund.created"
           then handleRefundCreated env (payload_body req)
           else ret tt) w)).
Proof.
  intros (secret & Hkey & Hsig) Hev.
  pose proof (event_is_not_nullish req name Hev) as Hnn.
  unfold handlePaymentWebhook, get. rewrite Hkey, Hsig, Hnn.
  unfold event_is in Hev. rewrite Hev. run.
  rewrite opt_eqb_refl. cbn [negb is_str].
  destruct (String.eqb name "payment.captured").
  { pose proof (handlePaymentCaptured_never_throws env (payload_body req) w) as H.
    destruct (handlePaymentCaptured env (payload_body req) w) as [r w1].
    cbn in H. subst r. reflexivity. }
  destruct (String.eqb name "payment.failed").
  { pose proof (handlePaymentFailed_never_throws env (payload_body req) w) as H.
    destruct (handlePaymentFailed env (payload_body req) w) as [r w1].
    cbn in H. subst r. reflexivity. }
  destruct (String.eqb name "refund.created").
  { pose proof (handleRefundCreated_never_throws env (payload_body req) w) as H.
    destruct (handleRefundCreated env (payload_body req) w) as [r w1].
    cbn in H. subst r. reflexivity. }
  reflexivity.
Qed.

Arguments Json.prop : simpl never.

Lemma handlePaymentCaptured_unknown_order env payload w :
  find (by_order_razorpayOrderId (captured_order_id payload)) (orders w) = None ->
  same_records w (snd (handlePaymentCaptured env payload w)) /\
  notifications (snd (handlePaymentCaptured env payload w)) = notifications w.
Proof.
  unfold captured_order_id. intros Hfind.
  unfold handlePaymentCaptured, get. run.
  destruct (nullish (Some payload)); [split; [split|]; reflexivity|].
  destruct (nullish (prop (Some payload) "payload")); [split; [split|]; reflexivity|].
  destruct (nullish (prop (prop (Some payload) "payload") "payment"));
    [split; [split|]; reflexivity|].
  destruct (nullish (prop (prop (prop (Some payload) "payload") "payment") "entity"));
    [split; [split|]; reflexivity|].
  cbn. rewrite Hfind. split; [split|]; reflexivity.
Qed.

(** C7. A signed payment.captured webhook whose gateway order id matches no
    stored Order is answered with the acknowledgment (200, received: true):
    nothing is thrown, and Payment Records, Orders and notifications after the
    call are those before it. *)
Theorem handlePaymentWebhook_captured_unknown_order :
  forall env req w,
    signed env req ->
    event_is req "payment.captured" ->
    find (by_order_razorpayOrderId (captured_order_id (payload_body req)))
      (orders w) = None ->
    exists w',
      handlePaymentWebhook env req w = (Ok acknowledgment, w') /\
      same_records w w' /\
      notifications w' = notifications w.
Proof.
  intros env req w Hsigned Hev Hfind.
  eexists. split.
  - apply handlePaymentWebhook_signed_run with (name := "payment.captured");
      assumption.
  - cbn [String.eqb Ascii.eqb Bool.eqb].
    apply handlePaymentCaptured_unknown_order, Hfind.
Qed.

Lemma handlePaymentWebhook_captured_unknown_order_witness :
  exists w',
    handlePaymentWebhook Scenario.env
      (Scenario.signed_request (Scenario.payment_event "payment.captured" "order_X"))
      Scenario.world = (Ok acknowledgment, w') /\
    same_records Scenario.world w' /\
    notifications w' = notifications Scenario.world.
Proof.
  apply (handlePaymentWebhook_captured_unknown_order
           Scenario.env
           (Scenario.signed_request (Scenario.payment_event "payment.captured" "order_X"))
           Scenario.world).
  - exists "webhook_secret". split; reflexivity.
  - reflexivity.
  - reflexivity.
Defined.

Lemma opt_eqb_neq a b : a <> b -> opt_eqb a b = false.
Proof.
  destruct a as [x|], b as [y|]; cbn; intros H; try reflexivity.
  - apply String.eqb_neq. congruence.
  - contradiction.
Qed.

(** A signed request is never answered with a 400. *)
Lemma handlePaymentWebhook_signed_status env req w :
  signed env req ->
  exists res w',
    handlePaymentWebhook env req w = (Ok res, w') /\
    (statusCode res = 200 \/ statusCode res = 500).
Proof.
  intros (secret & Hkey & Hsig).
  unfold handlePaymentWebhook, get. rewrite Hkey, Hsig. run.
  rewrite opt_eqb_refl. cbn [negb].
  destruct (nullish (Some (payload_body req))).
  { eexists _, _. split; [reflexivity|]. right. reflexivity. }
  destruct (is_str _ "payment.captured").
  { pose proof (handlePaymentCaptured_never_throws env (payload_body req) w) as H.
    destruct (handlePaymentCaptured env (payload_body req) w) as [r w1].
    cbn in H. subst r. eexists _, _. split; [reflexivity|]. left. reflexivity. }
  destruct (is_str _ "payment.failed").
  { pose proof (handlePaymentFailed_never_throws env (payload_body req) w) as H.
    destruct (handlePaymentFailed env (payload_body req) w) as [r w1].
    cbn in H. subst r. eexists _, _. split; [reflexivity|]. left. reflexivity. }
  destruct (is_str _ "refund.created").
  { pose proof (handleRefundCreated_never_throws env (payload_body req) w) as H.
    destruct (handleRefundCreated env (payload_body req) w) as [r w1].
    cbn in H. subst r. eexists _, _. split; [reflexivity|]. left. reflexivity. }
  eexists _, _. split; [reflexivity|]. left. reflexivity.
Qed.

Lemma handlePaymentWebhook_mismatch_run env req w secret :
  RAZORPAY_WEBHOOK_SECRET env = Some secret ->
  x_razorpay_signature req <>
    Some (Crypto.hmac_sha256_hex secret (Json.stringify (payload_body req))) ->
  handlePaymentWebhook env req w =
    (Ok invalid_webhook_signature, snd (log_error "Invalid webhook signature" w)).
Proof.
  intros Hkey Hneq. unfold handlePaymentWebhook. rewrite Hkey. run.
  rewrite (opt_eqb_neq _ _ Hneq). reflexivity.
Qed.

(** C4. [handlePaymentWebhook] never sees the bytes received: it recomputes
    the HMAC-SHA256, under the webhook secret, over [JSON.stringify] of the
    body the parser handed over.  A delivery signed as the gateway signs it,
    over the exact text [raw] it sent, is therefore rejected with
    invalid-signature (400) whenever the re-serialisation of its parsed body
    has another digest than [raw]; nothing else happens: Payment Records,
    Orders, notifications and gateway calls are unchanged. *)
Theorem raw_signed_delivery_rejected :
  forall env secret raw payload w,
    RAZORPAY_WEBHOOK_SECRET env = Some secret ->
    Crypto.hmac_sha256_hex secret raw <>
      Crypto.hmac_sha256_hex secret (Json.stringify payload) ->
    exists w',
      handlePaymentWebhook env
        {| payload_body := payload;
           x_razorpay_signature := Some (Crypto.hmac_sha256_hex secret raw) |} w
        = (Ok invalid_webhook_signature, w') /\
      same_records w w' /\
      notifications w' = notifications w /\
      gateway_calls w' = gateway_calls w.
Proof.
  intros env secret raw payload w Hkey Hneq.
  eexists. split.
  - apply (handlePaymentWebhook_mismatch_run env _ w secret Hkey).
    cbn [x_razorpay_signature payload_body]. congruence.
  - repeat split.
Qed.

(** The payment.captured event for [order_G1], sent with a space after each
    colon and comma and signed over that text; [Scenario.payment_event] is
    the body [JSON.parse] makes of it. *)
Lemma raw_signed_delivery_rejected_witness :
  exists w',
    handlePaymentWebhook Scenario.env
      {| payload_body := Scenario.payment_event "payment.captured" "order_G1";
         x_razorpay_signature :=
           Some (Crypto.hmac_sha256_hex "webhook_secret" Scenario.raw_captured) |}
      Scenario.world = (Ok invalid_webhook_signature, w') /\
    same_records Scenario.world w' /\
    notifications w' = notifications Scenario.world /\
    gateway_calls w' = gateway_calls Scenario.world.
Proof.
  apply (raw_signed_delivery_rejected Scenario.env "webhook_secret"
           Scenario.raw_captured
           (Scenario.payment_event "payment.captured" "order_G1") Scenario.world).
  - reflexivity.
  - vm_compute. discriminate.
Defined.

(** What the handler accepts instead: the digest of the re-serialised body,
    which is not the digest of the text received. *)
Example reserialised_signature_accepted :
  Json.stringify (Scenario.payment_event "payment.captured" "order_G1") <>
    Scenario.raw_captured /\
  fst (handlePaymentWebhook Scenario.env
         (Scenario.signed_request
            (Scenario.payment_event "payment.captured" "order_G1"))
         Scenario.world) = Ok acknowledgment /\
  map Payment.status
    (payments
       (snd (handlePaymentWebhook Scenario.env
               (Scenario.signed_request
                  (Scenario.payment_event "payment.captured" "order_G1"))
               Scenario.world))) = [completed].
Proof.
  split; [vm_compute; discriminate|].
  split; [vm_compute; reflexivity|].
  vm_compute. reflexivity.
Qed.


(** ** Notification failures *)

Lemma createNotification_sink_down env type message data w :
  sink_down env ->
  exists e,
    createNotification env type message data w =
      (Throw e, snd (log_error "Error creating notification:" w)).
Proof.
  intros Hdown. unfold createNotification.
  destruct (Hdown {| type := type; message := message; data := data |}) as (e & He).
  exists e. run. rewrite He. reflexivity.
Qed.

Ltac frame := split; [split|]; reflexivity.

Ltac notification_fails Hdown :=
  match goal with
  | |- context [createNotification ?env ?t ?m ?d ?w] =>
      let e := fresh "e" in
      let He := fresh "He" in
      destruct (createNotification_sink_down env t m d w Hdown) as (e & He);
      rewrite He; cbn
  end.

Lemma handlePaymentCaptured_sink_down env payload w :
  sink_down env ->
  same_records w (snd (handlePaymentCaptured env payload w)) /\
  notifications (snd (handlePaymentCaptured env payload w)) = notifications w.
Proof.
  intros Hdown. unfold handlePaymentCaptured, get. run.
  destruct (nullish (Some payload)); [frame|].
  destruct (nullish (prop (Some payload) "payload")); [frame|].
  destruct (nullish (prop (prop (Some payload) "payload") "payment")); [frame|].
  destruct (nullish (prop (prop (prop (Some payload) "payload") "payment") "entity"));
    [frame|].
  cbn. destruct (find _ (orders w)) as [order|]; [|frame].
  notification_fails Hdown. frame.
Qed.

Lemma handlePaymentFailed_sink_down env payload w :
  sink_down env ->
  same_records w (snd (handlePaymentFailed env payload w)) /\
  notifications (snd (handlePaymentFailed env payload w)) = notifications w.
Proof.
  intros Hdown. unfold handlePaymentFailed, get. run.
  destruct (nullish (Some payload)); [frame|].
  destruct (nullish (prop (Some payload) "payload")); [frame|].
  destruct (nullish (prop (prop (Some payload) "payload") "payment")); [frame|].
  destruct (nullish (prop (prop (prop (Some payload) "payload") "payment") "entity"));
    [frame|].
  cbn. destruct (find _ (orders w)) as [order|]; [|frame].
  notification_fails Hdown. frame.
Qed.

Lemma handleRefundCreated_sink_down env payload w :
  sink_down env ->
  same_records w (snd (handleRefundCreated env payload w)) /\
  notifications (snd (handleRefundCreated env payload w)) = notifications w.
Proof.
  intros Hdown. unfold handleRefundCreated, get. run.
  destruct (nullish (Some payload)); [frame|].
  destruct (nullish (prop (Some payload) "payload")); [frame|].
  destruct (nullish (prop (prop (Some payload) "payload") "refund")); [frame|].
  destruct (nullish (prop (prop (prop (Some payload) "payload") "refund") "entity"));
    [frame|].
  cbn. destruct (find _ (payments w)) as [payment|]; [|frame].
  cbn. destruct (find _ (orders w)) as [order|]; [|frame].
  notification_fails Hdown. frame.
Qed.

(** C3, what the code does instead.  When saving the notification throws,
    every signed webhook event is still acknowledged with 200, but the handler
    has awaited [createNotification] before its updates and inside the same
    [try]: the error is logged and swallowed, and the Order and Payment Record
    updates of the event are never applied. *)
Theorem webhook_updates_skipped_when_notification_fails :
  forall env req w name,
    signed env req ->
    event_is req name ->
    sink_down env ->
    exists w',
      handlePaymentWebhook env req w = (Ok acknowledgment, w') /\
      same_records w w' /\
      notifications w' = notifications w.
Proof.
  intros env req w name Hsigned Hev Hdown.
  eexists. split.
  - apply handlePaymentWebhook_signed_run with (name := name); assumption.
  - destruct (String.eqb name "payment.captured");
      [apply handlePaymentCaptured_sink_down, Hdown|].
    destruct (String.eqb name "payment.failed");
      [apply handlePaymentFailed_sink_down, Hdown|].
    destruct (String.eqb name "refund.created");
      [apply handleRefundCreated_sink_down, Hdown|].
    frame.
Qed.

(** The failing input: the signed payment.captured event of the pending
    payment of order O1, with the notification store down. *)
Lemma webhook_updates_skipped_witness :
  exists w',
    handlePaymentWebhook Scenario.env_sink_down
      (Scenario.signed_request (Scenario.payment_event "payment.captured" "order_G1"))
      Scenario.world = (Ok acknowledgment, w') /\
    same_records Scenario.world w' /\
    notifications w' = notifications Scenario.world.
Proof.
  apply (webhook_updates_skipped_when_notification_fails
           Scenario.env_sink_down
           (Scenario.signed_request (Scenario.payment_event "payment.captured" "order_G1"))
           Scenario.world "payment.captured").
  - exists "webhook_secret". split; reflexivity.
  - reflexivity.
  - intros n. eexists. reflexivity.
Defined.

(** The same event with the store up completes the record; with the store
    down the record stays pending and two lines reach the error console. *)
Example captured_event_with_and_without_notifications :
  map Payment.status
    (payments (snd (handlePaymentWebhook Scenario.env
       (Scenario.signed_request (Scenario.payment_event "payment.captured" "order_G1"))
       Scenario.world))) = [completed] /\
  map Payment.status
    (payments (snd (handlePaymentWebhook Scenario.env_sink_down
       (Scenario.signed_request (Scenario.payment_event "payment.captured" "order_G1"))
       Scenario.world))) = [pending] /\
  console_error (snd (handlePaymentWebhook Scenario.env_sink_down
       (Scenario.signed_request (Scenario.payment_event "payment.captured" "order_G1"))
       Scenario.world)) =
    ["Error creating notification:"; "Error handling payment captured:"].
Proof.
  split; [vm_compute; reflexivity|].
  split; vm_compute; reflexivity.
Qed.

(** ** The refunded status *)

Lemma keeps_refunded_same w w' :
  payments w' = payments w -> keeps_refunded w w'.
Proof.
  intros H k p Hk Hp. exists p. rewrite H. split; assumption.
Qed.

Lemma keeps_refunded_update w w' q f :
  payments w' = update_first q f (payments w) ->
  (forall x, Payment.status x = refunded -> Payment.status (f x) = refunded) ->
  keeps_refunded w w'.
Proof.
  intros H Hf k p Hk Hp. rewrite H.
  destruct (update_first_nth q f (payments w) k p Hk) as [Hn | Hn].
  - exists p. split; assumption.
  - exists (f p). split; [exact Hn | apply Hf, Hp].
Qed.

Lemma keeps_refunded_append w w' q f extra :
  payments w' = (update_first q f (payments w) ++ extra)%list ->
  (forall x, Payment.status x = refunded -> Payment.status (f x) = refunded) ->
  keeps_refunded w w'.
Proof.
  intros H Hf k p Hk Hp. rewrite H.
  destruct (update_first_nth q f (payments w) k p Hk) as [Hn | Hn].
  - exists p. split; [apply nth_error_app_left, Hn | exact Hp].
  - exists (f p). split; [apply nth_error_app_left, Hn | apply Hf, Hp].
Qed.

(** Initiation writes the gateway order id, amount, currency and method of
    an existing record, never its status; a new record is appended. *)
Lemma createOrder_keeps_refunded env req w :
  keeps_refunded w (snd (createOrder env req w)).
Proof.
  unfold createOrder. run.
  destruct (body_amount req) as [amount|]; [|apply keeps_refunded_same; reflexivity].
  destruct (negb (Number.truthy amount) || negb (present (body_orderId req)));
    [apply keeps_refunded_same; reflexivity|].
  destruct (Number.isNaN amount || Number.leb amount (S754_zero false));
    [apply keeps_refunded_same; reflexivity|].
  cbn. destruct (orders_create env _) as [order|e]; cbn.
  - destruct (cast_ObjectId env _) as [cid|]; cbn;
      [|apply keeps_refunded_same; reflexivity].
    destruct (find _ (payments w)) as [existing|]; cbn.
    + eapply keeps_refunded_update; [reflexivity|].
      intros x Hx. exact Hx.
    + apply keeps_refunded_append
        with (q := fun _ => false) (f := fun x => x)
             (extra := [createOrder_new_payment cid
                          (user_id req) (id order) amount
                          match body_currency req with Some c => c | None => "INR" end
                          (or_default (body_paymentMethod req) "card") (next_id w)]).
      * cbn. rewrite update_first_no_match; [reflexivity|].
        clear. induction (payments w); [reflexivity | assumption].
      * intros x Hx. exact Hx.
  - destruct (Json.truthy (error_error e)); apply keeps_refunded_same; reflexivity.
Qed.

(** A refund event writes refunded on the record it finds. *)
Lemma handleRefundCreated_keeps_refunded env payload w :
  keeps_refunded w (snd (handleRefundCreated env payload w)).
Proof.
  unfold handleRefundCreated, get, createNotification. run.
  destruct (nullish (Some payload)); [apply keeps_refunded_same; reflexivity|].
  destruct (nullish (prop (Some payload) "payload"));
    [apply keeps_refunded_same; reflexivity|].
  destruct (nullish (prop (prop (Some payload) "payload") "refund"));
    [apply keeps_refunded_same; reflexivity|].
  destruct (nullish (prop (prop (prop (Some payload) "payload") "refund") "entity"));
    [apply keeps_refunded_same; reflexivity|].
  cbn. destruct (find _ (payments w)) as [payment|];
    [|apply keeps_refunded_same; reflexivity].
  cbn. destruct (find _ (orders w)) as [order|];
    [|apply keeps_refunded_same; reflexivity].
  destruct (notification_save env _) as [[]|e]; cbn.
  - eapply keeps_refunded_update; [reflexivity|].
    intros x _. reflexivity.
  - apply keeps_refunded_same; reflexivity.
Qed.

Lemma handlePaymentWebhook_keeps_refunded env req w :
  is_str (prop (Some (payload_body req)) "event") "payment.captured" = false ->
  is_str (prop (Some (payload_body req)) "event") "payment.failed" = false ->
  keeps_refunded w (snd (handlePaymentWebhook env req w)).
Proof.
  intros Hc Hf. unfold handlePaymentWebhook, get. run.
  destruct (RAZORPAY_WEBHOOK_SECRET env) as [secret|];
    [|apply keeps_refunded_same; reflexivity].
  destruct (negb (opt_eqb (x_razorpay_signature req) _));
    [apply keeps_refunded_same; reflexivity|].
  destruct (nullish (Some (payload_body req)));
    [apply keeps_refunded_same; reflexivity|].
  rewrite Hc, Hf.
  destruct (is_str _ "refund.created"); [|apply keeps_refunded_same; reflexivity].
  pose proof (handleRefundCreated_keeps_refunded env (payload_body req) w) as Hk.
  pose proof (handleRefundCreated_never_throws env (payload_body req) w) as Hn.
  destruct (handleRefundCreated env (payload_body req) w) as [r w1].
  cbn in Hn, Hk. subst r. exact Hk.
Qed.

(** C2 (as the code has it). A refunded Payment Record keeps its status
    through gateway order initiation and through every webhook event other
    than payment.captured and payment.failed (refund.created included).
    Nothing guards the other writers. *)
Theorem refunded_kept_unless_overwritten :
  forall env op w,
    overwrites_status op = false ->
    keeps_refunded w (perform env op w).
Proof.
  intros env [req | req | req] w Hop; cbn [perform].
  - apply createOrder_keeps_refunded.
  - discriminate Hop.
  - cbn [overwrites_status] in Hop. apply orb_false_iff in Hop as [Hc Hf].
    apply handlePaymentWebhook_keeps_refunded; assumption.
Qed.

Lemma refunded_kept_witness :
  keeps_refunded Scenario.world_refunded
    (perform Scenario.env (Webhook (Scenario.signed_request Scenario.refund_event))
       Scenario.world_refunded).
Proof.
  apply (refunded_kept_unless_overwritten
           Scenario.env (Webhook (Scenario.signed_request Scenario.refund_event))
           Scenario.world_refunded).
  reflexivity.
Defined.

(** C2, the claim as worded fails: on the store whose only Payment Record is
    refunded, an accepted verification and a payment.captured event set the
    status to completed, and a payment.failed event sets it to failed. *)
Lemma refunded_is_not_terminal :
  map Payment.status (payments Scenario.world_refunded) = [refunded] /\
  map Payment.status
    (payments (perform Scenario.env
       (Verification (Scenario.verify_request Scenario.valid_signature Scenario.O1))
       Scenario.world_refunded)) = [completed] /\
  map Payment.status
    (payments (perform Scenario.env
       (Webhook (Scenario.signed_request
                   (Scenario.payment_event "payment.captured" "order_G1")))
       Scenario.world_refunded)) = [completed] /\
  map Payment.status
    (payments (perform Scenario.env
       (Webhook (Scenario.signed_request
                   (Scenario.payment_event "payment.failed" "order_G1")))
       Scenario.world_refunded)) = [failed].
Proof.
  split; [reflexivity|].
  split; [vm_compute; reflexivity|].
  split; vm_compute; reflexivity.
Qed.

(** The scenario of section 8: a refund of a completed payment, delivered
    twice. *)
Example refund_created_twice :
  map Payment.status
    (payments (perform Scenario.env
       (Webhook (Scenario.signed_request Scenario.refund_event))
       (Scenario.world_with [Scenario.payment_with completed (Some "pay_1")]
          [Scenario.order_O1]))) = [refunded] /\
  map Payment.status
    (payments (perform Scenario.env
       (Webhook (Scenario.signed_request Scenario.refund_event))
       (perform Scenario.env
          (Webhook (Scenario.signed_request Scenario.refund_event))
          (Scenario.world_with [Scenario.payment_with completed (Some "pay_1")]
             [Scenario.order_O1])))) = [refunded].
Proof. split; vm_compute; reflexivity. Qed.

(** * Further properties of the payment controller *)

(** ** Failures write nothing *)





(** ** Gateway order initiation: validation and gateway failures *)

Lemma not_positive_fails_validation amount :
  ~ positive amount ->
  negb (Number.truthy amount) ||
  (Number.isNaN amount || Number.leb amount (S754_zero false)) = true.
Proof.
  unfold positive. destruct amount as [s|s| |s m e]; try destruct s; cbn;
    intros H; try reflexivity; contradiction H; reflexivity.
Qed.

(** X2. A request whose amount is absent, or is a Number that is zero,
    negative or NaN, or whose order id is absent or empty, is answered 400
    without the gateway being called and without anything being stored. *)
Theorem createOrder_rejects_invalid_input :
  forall env req w,
    (forall amount, body_amount req = Some amount -> ~ positive amount) \/
    present (body_orderId req) = false ->
    exists res w',
      createOrder env req w = (Ok res, w') /\
      statusCode res = 400 /\
      gateway_calls w' = gateway_calls w /\
      same_records w w' /\
      console_error w' = console_error w.
Proof.
  intros env req w Hbad. unfold createOrder. run.
  destruct (body_amount req) as [amount|];
    [|eexists _, _; split; [reflexivity|]; repeat split].
  destruct (negb (Number.truthy amount) || negb (present (body_orderId req))) eqn:H1;
    [eexists _, _; split; [reflexivity|]; repeat split|].
  destruct (Number.isNaN amount || Number.leb amount (S754_zero false)) eqn:H2;
    [eexists _, _; split; [reflexivity|]; repeat split|].
  exfalso. apply orb_false_iff in H1 as [Ht Hp].
  destruct Hbad as [Hbad | Hbad].
  - pose proof (not_positive_fails_validation amount (Hbad amount eq_refl)) as H.
    rewrite Ht, H2 in H. discriminate H.
  - rewrite Hbad in Hp. discriminate Hp.
Qed.

Lemma createOrder_rejects_invalid_input_witness :
  exists res w',
    createOrder Scenario.env
      {| body_amount := Some (S754_zero false); body_currency := None;
         body_orderId := Some Scenario.O1; body_paymentMethod := None; user_id := "U1" |}
      Scenario.world = (Ok res, w') /\
    statusCode res = 400 /\
    gateway_calls w' = gateway_calls Scenario.world /\
    same_records Scenario.world w' /\
    console_error w' = console_error Scenario.world.
Proof.
  apply (createOrder_rejects_invalid_input Scenario.env
           {| body_amount := Some (S754_zero false); body_currency := None;
              body_orderId := Some Scenario.O1; body_paymentMethod := None;
              user_id := "U1" |} Scenario.world).
  left. intros amount H. injection H as <-. discriminate.
Defined.

(** X3. When the gateway rejects the order of a valid request, the answer is
    400 with the gateway's own description if the SDK error carries an
    [error] object and 500 (Payment initialization failed) otherwise; no
    Payment Record or Order is written and one line goes to the error
    console. *)
Theorem createOrder_gateway_failure :
  forall env req w amount oid e,
    body_amount req = Some amount ->
    positive amount ->
    body_orderId req = Some oid -> oid <> "" ->
    orders_create env
      {| req_amount := Number.Math_round (Number.mul amount hundred);
         req_currency := match body_currency req with Some c => c | None => "INR" end;
         req_receipt := oid |} = Throw e ->
    exists res w',
      createOrder env req w = (Ok res, w') /\
      statusCode res = (if Json.truthy (error_error e) then 400 else 500) /\
      field "success" (json res) = Some (BBool false) /\
      field "error" (json res) =
        Some (BValue (Some
          (if Json.truthy (error_error e)
           then or_literal (prop (error_error e) "description")
                  "Payment initialization failed"
           else JStr "Payment initialization failed"))) /\
      same_records w w' /\
      console_error w' = (console_error w ++ ["Detailed error in createOrder:"])%list.
Proof.
  intros env req w amount oid e Hamount Hpos Hoid Hne Hgw.
  destruct (positive_passes_validation amount Hpos) as (Ht & Hn & Hl).
  unfold createOrder. rewrite Hamount, Hoid, Ht, Hn, Hl.
  rewrite (present_Some oid Hne). run. cbn [negb orb js_string].
  rewrite Hgw. cbn.
  destruct (Json.truthy (error_error e));
    (eexists _, _; split; [reflexivity|]; repeat split).
Qed.

Lemma createOrder_gateway_failure_witness :
  exists res w',
    createOrder Outage.env Scenario.create_request Scenario.world = (Ok res, w') /\
    statusCode res =
      (if Json.truthy (error_error (GatewayRejected Outage.gateway_error))
       then 400 else 500) /\
    field "success" (json res) = Some (BBool false) /\
    field "error" (json res) =
      Some (BValue (Some
        (if Json.truthy (error_error (GatewayRejected Outage.gateway_error))
         then or_literal
                (prop (error_error (GatewayRejected Outage.gateway_error)) "description")
                "Payment initialization failed"
         else JStr "Payment initialization failed"))) /\
    same_records Scenario.world w' /\
    console_error w' =
      (console_error Scenario.world ++ ["Detailed error in createOrder:"])%list.
Proof.
  apply (createOrder_gateway_failure Outage.env Scenario.create_request
           Scenario.world Scenario.amount_499 Scenario.O1
           (GatewayRejected Outage.gateway_error)).
  - reflexivity.
  - reflexivity.
  - reflexivity.
  - discriminate.
  - reflexivity.
Defined.

(** ** Gateway order initiation: what is stored *)

(** The store after an initiation the gateway accepted. *)
Lemma createOrder_accepted_run env req w amount oid cid order :
  body_amount req = Some amount ->
  positive amount ->
  body_orderId req = Some oid -> oid <> "" ->
  orders_create env
    {| req_amount := Number.Math_round (Number.mul amount hundred);
       req_currency := match body_currency req with Some c => c | None => "INR" end;
       req_receipt := oid |} = Ok order ->
  cast_ObjectId env oid = Some cid ->
  exists w',
    createOrder env req w =
      (Ok {| statusCode := 200;
             json := BObject
               [("success", BBool true);
                ("data", BObject
                   [("orderId", BString (id order));
                    ("amount", BValue (Some (JNum (order_amount order))));
                    ("currency", BString (order_currency order));
                    ("paymentMethod",
                     BString (or_default (body_paymentMethod req) "card"))])] |},
       w') /\
    payments w' =
      match find (fun p => String.eqb (Payment.orderId p) cid) (payments w) with
      | Some existing =>
          update_first (by_payment_id (Payment._id existing))
            (createOrder_update_existing (id order) amount
               match body_currency req with Some c => c | None => "INR" end
               (body_paymentMethod req)
               (or_default (body_paymentMethod req) "card"))
            (payments w)
      | None =>
          (payments w ++
           [createOrder_new_payment cid (user_id req) (id order) amount
              match body_currency req with Some c => c | None => "INR" end
              (or_default (body_paymentMethod req) "card") (next_id w)])%list
      end /\
    orders w' =
      update_first (by_order_id cid)
        (createOrder_update_order (id order) amount) (orders w) /\
    notifications w' = notifications w.
Proof.
  intros Hamount Hpos Hoid Hne Hgw Hcast.
  destruct (positive_passes_validation amount Hpos) as (Ht & Hn & Hl).
  unfold createOrder. rewrite Hamount, Hoid, Ht, Hn, Hl.
  rewrite (present_Some oid Hne). run. cbn [negb orb js_string].
  rewrite Hgw. cbn. rewrite Hcast. cbn.
  destruct (find _ (payments w)) as [existing|]; cbn; rewrite ?Hcast;
    (eexists; split; [reflexivity|]; repeat split).
Qed.

Lemma createOrder_initiated_run env req w amount oid cid order :
  initiated env req amount oid cid order ->
  exists res w',
    createOrder env req w = (Ok res, w') /\
    statusCode res = 200 /\
    payments w' =
      match find (fun p => String.eqb (Payment.orderId p) cid) (payments w) with
      | Some existing =>
          update_first (by_payment_id (Payment._id existing))
            (createOrder_update_existing (id order) amount
               match body_currency req with Some c => c | None => "INR" end
               (body_paymentMethod req)
               (or_default (body_paymentMethod req) "card"))
            (payments w)
      | None =>
          (payments w ++
           [createOrder_new_payment cid (user_id req) (id order) amount
              match body_currency req with Some c => c | None => "INR" end
              (or_default (body_paymentMethod req) "card") (next_id w)])%list
      end /\
    orders w' =
      update_first (by_order_id cid)
        (createOrder_update_order (id order) amount) (orders w) /\
    notifications w' = notifications w.
Proof.
  intros (Hamount & Hpos & Hoid & Hne & Hgw & Hcast).
  destruct (createOrder_accepted_run env req w amount oid cid order
              Hamount Hpos Hoid Hne Hgw Hcast) as (w' & Hrun & Hpay & Hord & Hnot).
  eexists _, w'. split; [exact Hrun|]. repeat split; assumption.
Qed.

Lemma createOrder_update_existing_settlement gid amount currency pm vpm p :
  same_settlement p (createOrder_update_existing gid amount currency pm vpm p).
Proof. repeat split. Qed.

Lemma same_settlement_refl p : same_settlement p p.
Proof. repeat split. Qed.

(** X4. An accepted initiation never touches what a payment has settled:
    every Payment Record already stored keeps its place, identity, status,
    gateway payment id, signature, detail, error and refund detail (a completed
    or refunded record is not reset to pending).  One record is added exactly
    when none was stored for the order. *)
Theorem createOrder_keeps_settlements :
  forall env req w amount oid cid order,
    initiated env req amount oid cid order ->
    exists res w',
      createOrder env req w = (Ok res, w') /\
      (forall k p,
          nth_error (payments w) k = Some p ->
          exists p', nth_error (payments w') k = Some p' /\ same_settlement p p') /\
      List.length (payments w') =
        (List.length (payments w) +
         match find (fun p => String.eqb (Payment.orderId p) cid) (payments w) with
         | Some _ => 0
         | None => 1
         end)%nat.
Proof.
  intros env req w amount oid cid order Hinit.
  destruct (createOrder_initiated_run env req w amount oid cid order Hinit)
    as (res & w' & Hrun & _ & Hpay & _ & _).
  exists res, w'. split; [exact Hrun|]. rewrite Hpay.
  destruct (find _ (payments w)) as [existing|]; split.
  - intros k p Hk.
    destruct (update_first_nth (by_payment_id (Payment._id existing))
                (createOrder_update_existing (id order) amount
                   match body_currency req with Some c => c | None => "INR" end
                   (body_paymentMethod req)
                   (or_default (body_paymentMethod req) "card"))
                (payments w) k p Hk) as [Hn | Hn].
    + exists p. split; [exact Hn | apply same_settlement_refl].
    + eexists. split; [exact Hn | apply createOrder_update_existing_settlement].
  - rewrite update_first_length. lia.
  - intros k p Hk. exists p. split;
      [apply nth_error_app_left, Hk | apply same_settlement_refl].
  - rewrite length_app. reflexivity.
Qed.

Ltac initiated_by_evaluation :=
  unfold initiated;
  split; [reflexivity|]; split; [reflexivity|]; split; [reflexivity|];
  split; [discriminate|]; split; reflexivity.

Lemma createOrder_keeps_settlements_witness :
  exists res w',
    createOrder Scenario.env Scenario.create_request Scenario.world = (Ok res, w') /\
    (forall k p,
        nth_error (payments Scenario.world) k = Some p ->
        exists p', nth_error (payments w') k = Some p' /\ same_settlement p p') /\
    List.length (payments w') =
      (List.length (payments Scenario.world) +
       match find (fun p => String.eqb (Payment.orderId p) Scenario.O1)
               (payments Scenario.world) with
       | Some _ => 0
       | None => 1
       end)%nat.
Proof.
  apply (createOrder_keeps_settlements Scenario.env Scenario.create_request
           Scenario.world Scenario.amount_499 Scenario.O1 Scenario.O1
           {| id := "order_G1"; order_amount := 49900; order_currency := "INR" |}).
  initiated_by_evaluation.
Defined.

Lemma find_update_by_id (q : Payment.doc -> bool) f l e :
  NoDup (map Payment._id l) ->
  find q l = Some e ->
  (forall x, q (f x) = q x) ->
  find q (update_first (by_payment_id (Payment._id e)) f l) = Some (f e).
Proof.
  intros Hnd Hfind Hq. induction l as [|x l IH]; [discriminate Hfind|].
  cbn [find update_first] in *. inversion Hnd as [|? ? Hnotin Hnd']; subst.
  destruct (q x) eqn:Hqx.
  - injection Hfind as ->. unfold by_payment_id. rewrite Nat.eqb_refl.
    cbn [find]. rewrite Hq, Hqx. reflexivity.
  - assert (Hin : In e l) by (apply find_some in Hfind; apply Hfind).
    unfold by_payment_id at 1. destruct (Nat.eqb_spec (Payment._id x) (Payment._id e)) as [Heq|_].
    + exfalso. apply Hnotin. cbn [map]. rewrite Heq. apply in_map, Hin.
    + cbn [find]. rewrite Hqx. apply IH; assumption.
Qed.

Lemma find_app_none {A} (q : A -> bool) l x :
  find q l = None -> q x = true -> find q (l ++ [x]) = Some x.
Proof.
  induction l as [|y l IH]; cbn [find app]; intros Hnone Hx.
  - rewrite Hx. reflexivity.
  - destruct (q y); [discriminate Hnone | apply IH; assumption].
Qed.

(** X5. Initiation is an upsert keyed by the order: with unique [_id]s, after
    an accepted initiation the Payment Record found for the order carries the
    gateway order id the response returns, the requested amount and currency;
    it is pending if it was created by this call and keeps its earlier status
    otherwise. *)
Theorem createOrder_upserts_payment_record :
  forall env req w amount oid cid order,
    unique_payment_ids w ->
    initiated env req amount oid cid order ->
    exists res w' stored,
      createOrder env req w = (Ok res, w') /\
      find (fun p => String.eqb (Payment.orderId p) cid) (payments w') = Some stored /\
      Payment.razorpayOrderId stored = id order /\
      Payment.amount stored = amount /\
      Payment.currency stored =
        match body_currency req with Some c => c | None => "INR" end /\
      Payment.status stored =
        match find (fun p => String.eqb (Payment.orderId p) cid) (payments w) with
        | Some existing => Payment.status existing
        | None => pending
        end /\
      (match field "data" (json res) with
       | Some data => field "orderId" data
       | None => None
       end) = Some (BString (Payment.razorpayOrderId stored)).
Proof.
  intros env req w amount oid cid order Hnd Hinit.
  destruct Hinit as (Hamount & Hpos & Hoid & Hne & Hgw & Hcast).
  destruct (createOrder_accepted_run env req w amount oid cid order
              Hamount Hpos Hoid Hne Hgw Hcast) as (w' & Hrun & Hpay & _ & _).
  destruct (find (fun p => String.eqb (Payment.orderId p) cid) (payments w))
    as [existing|] eqn:Hfind.
  - eexists _, w', _. split; [exact Hrun|]. split.
    + rewrite Hpay. apply find_update_by_id; [exact Hnd | exact Hfind|].
      intros x. reflexivity.
    + repeat split.
  - eexists _, w', _. split; [exact Hrun|]. split.
    + rewrite Hpay. apply find_app_none; [exact Hfind|].
      cbn. apply String.eqb_refl.
    + repeat split.
Qed.

Lemma createOrder_upserts_payment_record_witness :
  exists res w' stored,
    createOrder Scenario.env Scenario.create_request
      (Scenario.world_with [] [Scenario.order_O1]) = (Ok res, w') /\
    find (fun p => String.eqb (Payment.orderId p) Scenario.O1) (payments w') = Some stored /\
    Payment.razorpayOrderId stored = "order_G1" /\
    Payment.amount stored = Scenario.amount_499 /\
    Payment.currency stored =
      match body_currency Scenario.create_request with Some c => c | None => "INR" end /\
    Payment.status stored =
      match find (fun p => String.eqb (Payment.orderId p) Scenario.O1)
              (payments (Scenario.world_with [] [Scenario.order_O1])) with
      | Some existing => Payment.status existing
      | None => pending
      end /\
    (match field "data" (json res) with
     | Some data => field "orderId" data
     | None => None
     end) = Some (BString (Payment.razorpayOrderId stored)).
Proof.
  apply (createOrder_upserts_payment_record Scenario.env Scenario.create_request
           (Scenario.world_with [] [Scenario.order_O1]) Scenario.amount_499 Scenario.O1 Scenario.O1
           {| id := "order_G1"; order_amount := 49900; order_currency := "INR" |}).
  - constructor.
  - initiated_by_evaluation.
Defined.

Lemma find_update_first_some {A} (q q' : A -> bool) f l e :
  (forall x, q (f x) = q x) ->
  find q l = Some e ->
  exists e', find q (update_first q' f l) = Some e'.
Proof.
  intros Hq. induction l as [|x l IH]; [discriminate|].
  cbn [find update_first]. destruct (q x) eqn:Hqx.
  - intros _. destruct (q' x); cbn [find].
    + rewrite Hq, Hqx. eauto.
    + rewrite Hqx. eauto.
  - intros Hfind. destruct (q' x); cbn [find].
    + rewrite Hq, Hqx. rewrite Hfind. eauto.
    + rewrite Hqx. apply IH, Hfind.
Qed.

Lemma createOrder_update_order_keeps_match gid amount cid x :
  by_order_id cid x = true ->
  by_order_id cid (createOrder_update_order gid amount x) = true.
Proof. intros H. exact H. Qed.

(** X6. An accepted initiation mirrors the gateway order onto the Order it
    names: afterwards that Order has payment method razorpay, payment status
    pending (whatever it was before, completed included), the gateway order id
    and the amount; its fulfilment status and its gateway payment id are
    kept. *)
Theorem createOrder_mirrors_onto_order :
  forall env req w amount oid cid order o,
    initiated env req amount oid cid order ->
    find (by_order_id cid) (orders w) = Some o ->
    exists res w' o',
      createOrder env req w = (Ok res, w') /\
      find (by_order_id cid) (orders w') = Some o' /\
      Order.payment_method o' = Some "razorpay" /\
      Order.payment_status o' = Some pending /\
      Order.payment_razorpayOrderId o' = Some (id order) /\
      Order.payment_amount o' = Some amount /\
      Order.status o' = Order.status o /\
      Order.payment_razorpayPaymentId o' = Order.payment_razorpayPaymentId o.
Proof.
  intros env req w amount oid cid order o Hinit Hfind.
  destruct (createOrder_initiated_run env req w amount oid cid order Hinit)
    as (res & w' & Hrun & _ & _ & Hord & _).
  eexists res, w', _. split; [exact Hrun|]. split.
  - rewrite Hord, find_update_first, Hfind; [reflexivity|].
    intros x Hx. apply createOrder_update_order_keeps_match, Hx.
  - repeat split.
Qed.

Lemma createOrder_mirrors_onto_order_witness :
  exists res w' o',
    createOrder Scenario.env Scenario.create_request Scenario.world = (Ok res, w') /\
    find (by_order_id Scenario.O1) (orders w') = Some o' /\
    Order.payment_method o' = Some "razorpay" /\
    Order.payment_status o' = Some pending /\
    Order.payment_razorpayOrderId o' = Some "order_G1" /\
    Order.payment_amount o' = Some Scenario.amount_499 /\
    Order.status o' = Order.status Scenario.order_O1 /\
    Order.payment_razorpayPaymentId o' =
      Order.payment_razorpayPaymentId Scenario.order_O1.
Proof.
  apply (createOrder_mirrors_onto_order Scenario.env Scenario.create_request
           Scenario.world Scenario.amount_499 Scenario.O1 Scenario.O1
           {| id := "order_G1"; order_amount := 49900; order_currency := "INR" |}
           Scenario.order_O1).
  - initiated_by_evaluation.
  - reflexivity.
Defined.

(** X7. The order id is not checked against the Orders: when it is an
    ObjectId that no Order has as [_id], a valid initiation the gateway
    accepts still answers 200 and stores a Payment Record for the id, and the
    Orders are left as they were. *)
Theorem createOrder_without_order :
  forall env req w amount oid cid order,
    initiated env req amount oid cid order ->
    find (by_order_id cid) (orders w) = None ->
    exists res w' stored,
      createOrder env req w = (Ok res, w') /\
      statusCode res = 200 /\
      orders w' = orders w /\
      find (fun p => String.eqb (Payment.orderId p) cid) (payments w') = Some stored.
Proof.
  intros env req w amount oid cid order Hinit Hnone.
  destruct (createOrder_initiated_run env req w amount oid cid order Hinit)
    as (res & w' & Hrun & Hst & Hpay & Hord & _).
  assert (Hstored : exists stored,
             find (fun p => String.eqb (Payment.orderId p) cid) (payments w') =
             Some stored).
  { rewrite Hpay.
    destruct (find (fun p => String.eqb (Payment.orderId p) cid) (payments w))
      as [existing|] eqn:Hfind.
    - eapply find_update_first_some; [|exact Hfind]. intros x. reflexivity.
    - eexists. apply find_app_none; [exact Hfind|]. cbn. apply String.eqb_refl. }
  destruct Hstored as (stored & Hstored).
  exists res, w', stored. split; [exact Hrun|]. split; [exact Hst|]. split.
  - rewrite Hord. apply update_first_no_match, Hnone.
  - exact Hstored.
Qed.

Lemma createOrder_without_order_witness :
  exists res w' stored,
    createOrder Scenario.env Scenario.create_request
      (Scenario.world_with [] []) = (Ok res, w') /\
    statusCode res = 200 /\
    orders w' = orders (Scenario.world_with [] []) /\
    find (fun p => String.eqb (Payment.orderId p) Scenario.O1) (payments w') = Some stored.
Proof.
  apply (createOrder_without_order Scenario.env Scenario.create_request
           (Scenario.world_with [] []) Scenario.amount_499 Scenario.O1 Scenario.O1
           {| id := "order_G1"; order_amount := 49900; order_currency := "INR" |}).
  - initiated_by_evaluation.
  - reflexivity.
Defined.

(** ** Verification: field validation, detail object, named order *)

(** X8. A verification request missing mandatory fields is answered 400 with
    the list of exactly the absent (or empty) fields, in the fixed order
    razorpay_order_id, razorpay_payment_id, razorpay_signature, order_id; this
    happens before the secret is read and before the gateway is called. *)
Theorem verifyPayment_reports_missing_fields :
  forall env req w,
    all_fields_present req = false ->
    exists res w',
      verifyPayment env req w = (Ok res, w') /\
      statusCode res = 400 /\
      field "error" (json res) =
        Some (BString "Missing required payment verification fields") /\
      field "missingFields" (json res) =
        Some (BValue (Some (JArr (map JStr (absent_fields req))))) /\
      absent_fields req <> [] /\
      gateway_calls w' = gateway_calls w.
Proof.
  unfold all_fields_present, verifyPayment, missing, absent_fields.
  intros env req w H. cbn [filter map fst snd].
  destruct (present (razorpay_order_id req)), (present (razorpay_payment_id req)),
    (present (razorpay_signature req)), (present (order_id req));
    try discriminate H; cbn;
    (eexists _, _; split; [reflexivity|]; repeat split; discriminate).
Qed.

Lemma verifyPayment_reports_missing_fields_witness :
  exists res w',
    verifyPayment Outage.env
      {| razorpay_order_id := Some "order_G1"; razorpay_payment_id := None;
         razorpay_signature := Some "0badc0de"; payment_method := None;
         order_id := Some "" |} Scenario.world = (Ok res, w') /\
    statusCode res = 400 /\
    field "error" (json res) =
      Some (BString "Missing required payment verification fields") /\
    field "missingFields" (json res) =
      Some (BValue (Some (JArr (map JStr
        (absent_fields
           {| razorpay_order_id := Some "order_G1"; razorpay_payment_id := None;
              razorpay_signature := Some "0badc0de"; payment_method := None;
              order_id := Some "" |}))))) /\
    absent_fields
      {| razorpay_order_id := Some "order_G1"; razorpay_payment_id := None;
         razorpay_signature := Some "0badc0de"; payment_method := None;
         order_id := Some "" |} <> [] /\
    gateway_calls w' = gateway_calls Scenario.world.
Proof.
  apply (verifyPayment_reports_missing_fields Outage.env
           {| razorpay_order_id := Some "order_G1"; razorpay_payment_id := None;
              razorpay_signature := Some "0badc0de"; payment_method := None;
              order_id := Some "" |} Scenario.world).
  reflexivity.
Defined.

Lemma or_literal_truthy v lit :
  lit <> "" -> Json.truthy (Some (or_literal v lit)) = true.
Proof.
  intros Hlit. unfold or_literal, js_or.
  destruct (Json.truthy v) eqn:Hv.
  - destruct v as [j|]; [exact Hv | discriminate Hv].
  - cbn. destruct (String.eqb_spec lit ""); [contradiction | reflexivity].
Qed.

Ltac leaf_truthy :=
  let k := fresh "k" in let sub := fresh "sub" in
  let leaf := fresh "leaf" in let v := fresh "v" in
  let Hk := fresh "Hk" in let Hleaf := fresh "Hleaf" in
  intros k sub leaf v Hk Hleaf;
  unfold prop in Hk; cbn [lookup] in Hk;
  repeat match type of Hk with
         | (if ?c then _ else _) = _ => destruct c; [|try discriminate Hk]
         end;
  try discriminate Hk;
  injection Hk as <-; cbn [lookup] in Hleaf;
  repeat match type of Hleaf with
         | (if ?c then _ else _) = _ =>
             destruct c;
             [injection Hleaf as <-; apply or_literal_truthy; discriminate|]
         end;
  discriminate Hleaf.

(** X9. The detail object built for a payment has exactly one top-level
    entry for the methods upi, netbanking (under the key bank), wallet and
    card, and none for any other method (emi included); every leaf of it is a
    truthy value, the literal unknown standing in for what the gateway entity
    lacks. *)
Theorem build_paymentDetails_shape :
  forall paymentMethod rp,
    exists fields,
      build_paymentDetails paymentMethod rp = JObj fields /\
      map fst fields = detail_keys paymentMethod /\
      leaves_truthy (JObj fields).
Proof.
  intros paymentMethod rp. unfold build_paymentDetails, detail_keys.
  destruct (String.eqb_spec paymentMethod "upi") as [->|_].
  { cbn [String.eqb Ascii.eqb Bool.eqb app].
    eexists. split; [reflexivity|]. split; [reflexivity|]. leaf_truthy. }
  destruct (String.eqb_spec paymentMethod "netbanking") as [->|_].
  { cbn [String.eqb Ascii.eqb Bool.eqb app].
    eexists. split; [reflexivity|]. split; [reflexivity|]. leaf_truthy. }
  destruct (String.eqb_spec paymentMethod "wallet") as [->|_].
  { cbn [String.eqb Ascii.eqb Bool.eqb app].
    eexists. split; [reflexivity|]. split; [reflexivity|]. leaf_truthy. }
  destruct (String.eqb_spec paymentMethod "card") as [->|_].
  { cbn [String.eqb Ascii.eqb Bool.eqb app].
    eexists. split; [reflexivity|]. split; [reflexivity|]. leaf_truthy. }
  eexists. split; [reflexivity|]. split; [reflexivity|].
  intros k sub leaf v Hk. discriminate Hk.
Qed.

Ltac verifiable_by_evaluation :=
  exists "gateway_secret"; split; [reflexivity|];
  split; [well_formed_by_evaluation | reflexivity].

(** X10. An accepted verification confirms the Order the client names in
    [order_id] (an ObjectId, as the Order was found under it): that Order
    becomes confirmed with payment status completed and the gateway payment
    id, signature and resolved method of the request.  The name is taken as
    sent: nothing relates it to the order the Payment Record belongs to. *)
Theorem verifyPayment_confirms_named_order :
  forall env req w o p oid cid rp existing named,
    verifiable env req o p oid rp ->
    cast_ObjectId env oid = Some cid ->
    find (by_razorpayOrderId (Some o)) (payments w) = Some existing ->
    find (by_order_id cid) (orders w) = Some named ->
    exists res w' confirmed,
      verifyPayment env req w = (Ok res, w') /\
      statusCode res = 200 /\
      find (by_order_id cid) (orders w') = Some confirmed /\
      Order.status confirmed = "confirmed" /\
      Order.payment_status confirmed = Some completed /\
      Order.payment_razorpayPaymentId confirmed = Some p /\
      Order.payment_razorpaySignature confirmed = razorpay_signature req /\
      Order.payment_paymentMethod confirmed =
        Some (resolve_paymentMethod (payment_method req) rp) /\
      Order.payment_razorpayOrderId confirmed = Order.payment_razorpayOrderId named.
Proof.
  intros env req w o p oid cid rp existing named (secret & Hkey & Hwf & Hfetch)
    Hcast Hfind Hnamed.
  destruct (verifyPayment_accepted_run env req w secret o p oid cid rp existing
              Hkey Hwf Hfetch Hfind Hcast) as (w' & Hrun & _ & Hord & _).
  eexists _, w', _. split; [exact Hrun|]. split; [reflexivity|]. split.
  - rewrite Hord, find_update_first, Hnamed; [reflexivity|].
    intros x Hx. apply verifyPayment_update_order_keeps_match, Hx.
  - destruct Hwf as (_ & _ & Hp & _). unfold verifyPayment_update_order. cbn.
    rewrite Hp. repeat split.
Qed.

(** The payment made for order O1 confirms order O2 when the request names
    O2. *)
Lemma verifyPayment_confirms_named_order_witness :
  exists res w' confirmed,
    verifyPayment Scenario.env
      (Scenario.verify_request Scenario.valid_signature Scenario.O2) TwoOrders.world =
      (Ok res, w') /\
    statusCode res = 200 /\
    find (by_order_id Scenario.O2) (orders w') = Some confirmed /\
    Order.status confirmed = "confirmed" /\
    Order.payment_status confirmed = Some completed /\
    Order.payment_razorpayPaymentId confirmed = Some "pay_1" /\
    Order.payment_razorpaySignature confirmed =
      razorpay_signature (Scenario.verify_request Scenario.valid_signature Scenario.O2) /\
    Order.payment_paymentMethod confirmed =
      Some (resolve_paymentMethod
              (payment_method (Scenario.verify_request Scenario.valid_signature Scenario.O2))
              Scenario.gateway_entity) /\
    Order.payment_razorpayOrderId confirmed =
      Order.payment_razorpayOrderId TwoOrders.order_O2.
Proof.
  apply (verifyPayment_confirms_named_order Scenario.env
           (Scenario.verify_request Scenario.valid_signature Scenario.O2) TwoOrders.world
           "order_G1" "pay_1" Scenario.O2 Scenario.O2 Scenario.gateway_entity
           (Scenario.payment_with pending None) TwoOrders.order_O2).
  - verifiable_by_evaluation.
  - reflexivity.
  - reflexivity.
  - reflexivity.
Defined.

(** ** Initiation followed by verification *)

Lemma createOrder_record_keyed env req w amount oid cid order :
  unique_payment_ids w ->
  initiated env req amount oid cid order ->
  exists res w1 stored,
    createOrder env req w = (Ok res, w1) /\
    statusCode res = 200 /\
    find (fun p => String.eqb (Payment.orderId p) cid) (payments w1) = Some stored /\
    Payment.razorpayOrderId stored = id order.
Proof.
  intros Hnd Hinit.
  destruct (createOrder_initiated_run env req w amount oid cid order Hinit)
    as (res & w1 & Hrun & Hst & Hpay & _ & _).
  destruct (find (fun p => String.eqb (Payment.orderId p) cid) (payments w))
    as [existing|] eqn:Hfind.
  - eexists res, w1, _. split; [exact Hrun|]. split; [exact Hst|]. split.
    + rewrite Hpay. apply find_update_by_id; [exact Hnd | exact Hfind|].
      intros x. reflexivity.
    + reflexivity.
  - eexists res, w1, _. split; [exact Hrun|]. split; [exact Hst|]. split.
    + rewrite Hpay. apply find_app_none; [exact Hfind|].
      cbn. apply String.eqb_refl.
    + reflexivity.
Qed.

Lemma find_other_query {A} (q q' : A -> bool) l x :
  find q l = Some x -> q' x = true -> exists y, find q' l = Some y.
Proof.
  intros Hfind Hq'. destruct (find q' l) as [y|] eqn:E; [eauto|].
  apply find_some in Hfind as [Hin _].
  pose proof (find_none q' l E x Hin) as Hnone. congruence.
Qed.

(** X11. The two synchronous steps compose: with unique [_id]s, after an
    accepted initiation a verification request that carries the gateway order
    id the initiation returned, with a valid signature, is accepted (200, not
    404), and the Payment Record found under that gateway order id is then
    completed with the gateway payment id of the request. *)
Theorem initiation_then_verification :
  forall env req vreq w amount oid cid order p rp,
    unique_payment_ids w ->
    initiated env req amount oid cid order ->
    verifiable env vreq (id order) p oid rp ->
    exists res1 w1 res2 w2 stored,
      createOrder env req w = (Ok res1, w1) /\
      statusCode res1 = 200 /\
      verifyPayment env vreq w1 = (Ok res2, w2) /\
      statusCode res2 = 200 /\
      find (by_razorpayOrderId (Some (id order))) (payments w2) = Some stored /\
      Payment.status stored = completed /\
      Payment.razorpayPaymentId stored = Some p.
Proof.
  intros env req vreq w amount oid cid order p rp Hnd Hinit
    (secret & Hkey & Hwf & Hfetch).
  assert (Hcast : cast_ObjectId env oid = Some cid) by apply Hinit.
  destruct (createOrder_record_keyed env req w amount oid cid order Hnd Hinit)
    as (res1 & w1 & keyed & Hrun1 & Hst1 & Hkeyed & Hgid).
  destruct (find_other_query _ (by_razorpayOrderId (Some (id order))) _ _ Hkeyed)
    as (existing & Hexisting).
  { unfold by_razorpayOrderId. rewrite Hgid. apply String.eqb_refl. }
  destruct (verifyPayment_accepted_run env vreq w1 secret (id order) p oid cid rp
              existing Hkey Hwf Hfetch Hexisting Hcast)
    as (w2 & Hrun2 & Hpay2 & _ & _).
  eexists res1, w1, _, w2, _.
  split; [exact Hrun1|]. split; [exact Hst1|]. split; [exact Hrun2|].
  split; [reflexivity|]. split.
  - rewrite Hpay2, find_update_first, Hexisting; [reflexivity|].
    intros x Hx. apply verifyPayment_update_keeps_match, Hx.
  - destruct Hwf as (_ & _ & Hp & _). unfold verifyPayment_update_payment. cbn.
    rewrite Hp. split; reflexivity.
Qed.

Lemma initiation_then_verification_witness :
  exists res1 w1 res2 w2 stored,
    createOrder Scenario.env Scenario.create_request
      (Scenario.world_with [] [Scenario.order_O1]) = (Ok res1, w1) /\
    statusCode res1 = 200 /\
    verifyPayment Scenario.env
      (Scenario.verify_request Scenario.valid_signature Scenario.O1) w1 = (Ok res2, w2) /\
    statusCode res2 = 200 /\
    find (by_razorpayOrderId
            (Some (id {| id := "order_G1"; order_amount := 49900;
                         order_currency := "INR" |})))
      (payments w2) = Some stored /\
    Payment.status stored = completed /\
    Payment.razorpayPaymentId stored = Some "pay_1".
Proof.
  apply (initiation_then_verification Scenario.env Scenario.create_request
           (Scenario.verify_request Scenario.valid_signature Scenario.O1)
           (Scenario.world_with [] [Scenario.order_O1]) Scenario.amount_499 Scenario.O1 Scenario.O1
           {| id := "order_G1"; order_amount := 49900; order_currency := "INR" |}
           "pay_1" Scenario.gateway_entity).
  - constructor.
  - initiated_by_evaluation.
  - verifiable_by_evaluation.
Defined.

(** ** Webhook events: what each handler writes *)

Lemma find_update_first_cases {A} (q q' : A -> bool) f l e :
  (forall x, q (f x) = q x) ->
  find q l = Some e ->
  find q (update_first q' f l) = Some e \/
  find q (update_first q' f l) = Some (f e).
Proof.
  intros Hq. induction l as [|x l IH]; [discriminate|].
  cbn [find update_first]. destruct (q x) eqn:Hqx.
  - intros H. injection H as ->. destruct (q' e); cbn [find].
    + rewrite Hq, Hqx. right. reflexivity.
    + rewrite Hqx. left. reflexivity.
  - intros Hfind. destruct (q' x); cbn [find].
    + rewrite Hq, Hqx. left. exact Hfind.
    + rewrite Hqx. apply IH, Hfind.
Qed.

Lemma entity_readable_true kind payload :
  entity_readable kind payload = true ->
  nullish (Some payload) = false /\
  nullish (prop (Some payload) "payload") = false /\
  nullish (prop (prop (Some payload) "payload") kind) = false /\
  nullish (event_entity kind payload) = false.
Proof.
  unfold entity_readable. intros H.
  apply andb_prop in H as [H H4]. apply andb_prop in H as [H H3].
  apply andb_prop in H as [H1 H2].
  repeat split; apply negb_true_iff; assumption.
Qed.

(** A handler that cannot read its entity writes nothing. *)
Lemma handlePaymentCaptured_unreadable env payload w :
  entity_readable "payment" payload = false ->
  same_records w (snd (handlePaymentCaptured env payload w)) /\
  notifications (snd (handlePaymentCaptured env payload w)) = notifications w.
Proof.
  unfold entity_readable, event_entity, handlePaymentCaptured, get. run.
  destruct (nullish (Some payload)); [intros _; frame|].
  destruct (nullish (prop (Some payload) "payload")); [intros _; frame|].
  destruct (nullish (prop (prop (Some payload) "payload") "payment"));
    [intros _; frame|].
  destruct (nullish (prop (prop (prop (Some payload) "payload") "payment") "entity"));
    [intros _; frame|].
  discriminate.
Qed.

Lemma handlePaymentCaptured_readable_run env payload w :
  entity_readable "payment" payload = true ->
  snd (handlePaymentCaptured env payload w) =
  snd (match find (by_order_razorpayOrderId
                     (prop (event_entity "payment" payload) "order_id"))
               (orders w) with
       | None => log_error "Order not found for payment:" w
       | Some order =>
           match notification_save env
                   (captured_notification (event_entity "payment" payload) order) with
           | Ok _ =>
               (Ok tt,
                {| payments :=
                     update_first
                       (by_razorpayOrderId
                          (string_field
                             (prop (event_entity "payment" payload) "order_id")))
                       (captured_update_payment (event_entity "payment" payload))
                       (payments w);
                   orders :=
                     update_first (by_order_id (Order._id order))
                       (captured_update_order (event_entity "payment" payload))
                       (orders w);
                   notifications :=
                     (notifications w ++
                      [captured_notification (event_entity "payment" payload) order])%list;
                   next_id := next_id w;
                   gateway_calls := gateway_calls w;
                   console_error := console_error w |})
           | Throw _ =>
               log_error "Error handling payment captured:"
                 (snd (log_error "Error creating notification:" w))
           end
       end).
Proof.
  intros Hread.
  destruct (entity_readable_true _ _ Hread) as (H1 & H2 & H3 & H4).
  unfold event_entity in *.
  unfold handlePaymentCaptured, get, createNotification, captured_notification.
  run. rewrite H1, H2, H3, H4. cbn.
  destruct (find _ (orders w)) as [order|]; [|reflexivity].
  destruct (notification_save env _) as [[]|e]; reflexivity.
Qed.

Lemma handlePaymentFailed_unreadable env payload w :
  entity_readable "payment" payload = false ->
  same_records w (snd (handlePaymentFailed env payload w)) /\
  notifications (snd (handlePaymentFailed env payload w)) = notifications w.
Proof.
  unfold entity_readable, event_entity, handlePaymentFailed, get. run.
  destruct (nullish (Some payload)); [intros _; frame|].
  destruct (nullish (prop (Some payload) "payload")); [intros _; frame|].
  destruct (nullish (prop (prop (Some payload) "payload") "payment"));
    [intros _; frame|].
  destruct (nullish (prop (prop (prop (Some payload) "payload") "payment") "entity"));
    [intros _; frame|].
  discriminate.
Qed.

Lemma handlePaymentFailed_readable_run env payload w :
  entity_readable "payment" payload = true ->
  snd (handlePaymentFailed env payload w) =
  snd (match find (by_order_razorpayOrderId
                     (prop (event_entity "payment" payload) "order_id"))
               (orders w) with
       | None => log_error "Order not found for failed payment:" w
       | Some order =>
           match notification_save env
                   (failed_notification (event_entity "payment" payload) order) with
           | Ok _ =>
               (Ok tt,
                {| payments :=
                     update_first
                       (by_razorpayOrderId
                          (string_field
                             (prop (event_entity "payment" payload) "order_id")))
                       (failed_update_payment (event_entity "payment" payload))
                       (payments w);
                   orders :=
                     update_first (by_order_id (Order._id order))
                       (failed_update_order (event_entity "payment" payload))
                       (orders w);
                   notifications :=
                     (notifications w ++
                      [failed_notification (event_entity "payment" payload) order])%list;
                   next_id := next_id w;
                   gateway_calls := gateway_calls w;
                   console_error := console_error w |})
           | Throw _ =>
               log_error "Error handling payment failed:"
                 (snd (log_error "Error creating notification:" w))
           end
       end).
Proof.
  intros Hread.
  destruct (entity_readable_true _ _ Hread) as (H1 & H2 & H3 & H4).
  unfold event_entity in *.
  unfold handlePaymentFailed, get, createNotification, failed_notification.
  run. rewrite H1, H2, H3, H4. cbn.
  destruct (find _ (orders w)) as [order|]; [|reflexivity].
  destruct (notification_save env _) as [[]|e]; reflexivity.
Qed.

Lemma handleRefundCreated_unreadable env payload w :
  entity_readable "refund" payload = false ->
  same_records w (snd (handleRefundCreated env payload w)) /\
  notifications (snd (handleRefundCreated env payload w)) = notifications w.
Proof.
  unfold entity_readable, event_entity, handleRefundCreated, get. run.
  destruct (nullish (Some payload)); [intros _; frame|].
  destruct (nullish (prop (Some payload) "payload")); [intros _; frame|].
  destruct (nullish (prop (prop (Some payload) "payload") "refund"));
    [intros _; frame|].
  destruct (nullish (prop (prop (prop (Some payload) "payload") "refund") "entity"));
    [intros _; frame|].
  discriminate.
Qed.

Lemma handleRefundCreated_readable_run env payload w :
  entity_readable "refund" payload = true ->
  snd (handleRefundCreated env payload w) =
  snd (match find (by_razorpayPaymentId
                     (prop (event_entity "refund" payload) "payment_id"))
               (payments w) with
       | None => log_error "Payment not found for refund:" w
       | Some payment =>
           match find (by_order_id (Payment.orderId payment)) (orders w) with
           | None => log_error "Order not found for refund:" w
           | Some order =>
               match notification_save env
                       (refund_notification (event_entity "refund" payload)
                          payment order) with
               | Ok _ =>
                   (Ok tt,
                    {| payments :=
                         update_first (by_payment_id (Payment._id payment))
                           (refund_update_payment (event_entity "refund" payload))
                           (payments w);
                       orders := orders w;
                       notifications :=
                         (notifications w ++
                          [refund_notification (event_entity "refund" payload)
                             payment order])%list;
                       next_id := next_id w;
                       gateway_calls := gateway_calls w;
                       console_error := console_error w |})
               | Throw _ =>
                   log_error "Error handling refund created:"
                     (snd (log_error "Error creating notification:" w))
               end
           end
       end).
Proof.
  intros Hread.
  destruct (entity_readable_true _ _ Hread) as (H1 & H2 & H3 & H4).
  unfold event_entity in *.
  unfold handleRefundCreated, get, createNotification, refund_notification.
  run. rewrite H1, H2, H3, H4. cbn.
  destruct (find _ (payments w)) as [payment|]; [|reflexivity].
  cbn. destruct (find _ (orders w)) as [order|]; [|reflexivity].
  destruct (notification_save env _) as [[]|e]; reflexivity.
Qed.

(** ** Webhook deliveries *)

Lemma handlePaymentWebhook_accepted_run env req w :
  webhook_accepts env req = true ->
  handlePaymentWebhook env req w =
    (Ok acknowledgment, snd (handle_event env (payload_body req) w)).
Proof.
  unfold webhook_accepts, handlePaymentWebhook, handle_event, get.
  destruct (RAZORPAY_WEBHOOK_SECRET env) as [secret|]; [|discriminate].
  intros H. apply andb_prop in H as [Hsig Hnn]. run. rewrite Hsig.
  apply negb_true_iff in Hnn. rewrite Hnn. cbn [negb].
  destruct (is_str _ "payment.captured").
  { pose proof (handlePaymentCaptured_never_throws env (payload_body req) w) as H.
    destruct (handlePaymentCaptured env (payload_body req) w) as [r w1].
    cbn in H. subst r. reflexivity. }
  destruct (is_str _ "payment.failed").
  { pose proof (handlePaymentFailed_never_throws env (payload_body req) w) as H.
    destruct (handlePaymentFailed env (payload_body req) w) as [r w1].
    cbn in H. subst r. reflexivity. }
  destruct (is_str _ "refund.created").
  { pose proof (handleRefundCreated_never_throws env (payload_body req) w) as H.
    destruct (handleRefundCreated env (payload_body req) w) as [r w1].
    cbn in H. subst r. reflexivity. }
  reflexivity.
Qed.

Lemma handlePaymentWebhook_refused_frame env req w :
  webhook_accepts env req = false ->
  same_records w (snd (handlePaymentWebhook env req w)) /\
  notifications (snd (handlePaymentWebhook env req w)) = notifications w.
Proof.
  unfold webhook_accepts, handlePaymentWebhook, get.
  destruct (RAZORPAY_WEBHOOK_SECRET env) as [secret|]; [|intros _; frame].
  run. destruct (opt_eqb _ _); [|intros _; frame].
  destruct (nullish _); [intros _; frame|discriminate].
Qed.

Lemma signed_accepts env req :
  signed env req -> nullish (Some (payload_body req)) = false ->
  webhook_accepts env req = true.
Proof.
  intros (secret & Hkey & Hsig) Hnn. unfold webhook_accepts.
  rewrite Hkey, Hsig, Hnn, opt_eqb_refl. reflexivity.
Qed.

(** A second delivery of the same event finds the documents the first one
    found, and rewrites them with the same values. *)
Lemma handlePaymentCaptured_redelivery env payload w :
  same_records (snd (handlePaymentCaptured env payload w))
    (snd (handlePaymentCaptured env payload
            (snd (handlePaymentCaptured env payload w)))).
Proof.
  destruct (entity_readable "payment" payload) eqn:Hread;
    [|apply handlePaymentCaptured_unreadable, Hread].
  rewrite (handlePaymentCaptured_readable_run env payload w Hread).
  destruct (find _ (orders w)) as [order|] eqn:Hfind.
  2:{ rewrite (handlePaymentCaptured_readable_run env payload _ Hread).
      run. cbn [snd orders]. rewrite Hfind. split; reflexivity. }
  destruct (notification_save env (captured_notification _ order)) as [[]|e] eqn:Hsave.
  2:{ rewrite (handlePaymentCaptured_readable_run env payload _ Hread).
      run. cbn [snd orders]. rewrite Hfind, Hsave. split; reflexivity. }
  rewrite (handlePaymentCaptured_readable_run env payload _ Hread).
  cbn [snd orders payments].
  set (entity := event_entity "payment" payload) in *.
  assert (Hsame : exists order',
             find (by_order_razorpayOrderId (prop entity "order_id"))
               (update_first (by_order_id (Order._id order))
                  (captured_update_order entity) (orders w)) = Some order' /\
             Order._id order' = Order._id order /\
             Order.orderNumber order' = Order.orderNumber order).
  { destruct (find_update_first_cases
                (by_order_razorpayOrderId (prop entity "order_id"))
                (by_order_id (Order._id order)) (captured_update_order entity)
                (orders w) order (fun _ => eq_refl) Hfind) as [H|H];
      rewrite H; eexists; repeat split; reflexivity. }
  destruct Hsame as (order' & -> & Hid & Hnum).
  assert (Hn : captured_notification entity order' =
               captured_notification entity order).
  { unfold captured_notification. rewrite Hid, Hnum. reflexivity. }
  rewrite Hn, Hsave, Hid. cbn [snd payments orders]. split.
  - apply update_first_idempotent; [|reflexivity].
    intros x Hx. exact Hx.
  - apply update_first_idempotent; [|reflexivity].
    intros x Hx. exact Hx.
Qed.

Lemma handlePaymentFailed_redelivery env payload w :
  same_records (snd (handlePaymentFailed env payload w))
    (snd (handlePaymentFailed env payload
            (snd (handlePaymentFailed env payload w)))).
Proof.
  destruct (entity_readable "payment" payload) eqn:Hread;
    [|apply handlePaymentFailed_unreadable, Hread].
  rewrite (handlePaymentFailed_readable_run env payload w Hread).
  destruct (find _ (orders w)) as [order|] eqn:Hfind.
  2:{ rewrite (handlePaymentFailed_readable_run env payload _ Hread).
      run. cbn [snd orders]. rewrite Hfind. split; reflexivity. }
  destruct (notification_save env (failed_notification _ order)) as [[]|e] eqn:Hsave.
  2:{ rewrite (handlePaymentFailed_readable_run env payload _ Hread).
      run. cbn [snd orders]. rewrite Hfind, Hsave. split; reflexivity. }
  rewrite (handlePaymentFailed_readable_run env payload _ Hread).
  cbn [snd orders payments].
  set (entity := event_entity "payment" payload) in *.
  assert (Hsame : exists order',
             find (by_order_razorpayOrderId (prop entity "order_id"))
               (update_first (by_order_id (Order._id order))
                  (failed_update_order entity) (orders w)) = Some order' /\
             Order._id order' = Order._id order /\
             Order.orderNumber order' = Order.orderNumber order).
  { destruct (find_update_first_cases
                (by_order_razorpayOrderId (prop entity "order_id"))
                (by_order_id (Order._id order)) (failed_update_order entity)
                (orders w) order (fun _ => eq_refl) Hfind) as [H|H];
      rewrite H; eexists; repeat split; reflexivity. }
  destruct Hsame as (order' & -> & Hid & Hnum).
  assert (Hn : failed_notification entity order' =
               failed_notification entity order).
  { unfold failed_notification. rewrite Hid, Hnum. reflexivity. }
  rewrite Hn, Hsave, Hid. cbn [snd payments orders]. split.
  - apply update_first_idempotent; [|reflexivity].
    intros x Hx. exact Hx.
  - apply update_first_idempotent; [|reflexivity].
    intros x Hx. exact Hx.
Qed.

Lemma handleRefundCreated_redelivery env payload w :
  same_records (snd (handleRefundCreated env payload w))
    (snd (handleRefundCreated env payload
            (snd (handleRefundCreated env payload w)))).
Proof.
  destruct (entity_readable "refund" payload) eqn:Hread;
    [|apply handleRefundCreated_unreadable, Hread].
  rewrite (handleRefundCreated_readable_run env payload w Hread).
  destruct (find _ (payments w)) as [payment|] eqn:Hfind.
  2:{ rewrite (handleRefundCreated_readable_run env payload _ Hread).
      run. cbn [snd payments]. rewrite Hfind. split; reflexivity. }
  destruct (find _ (orders w)) as [order|] eqn:Horder.
  2:{ rewrite (handleRefundCreated_readable_run env payload _ Hread).
      run. cbn [snd payments orders]. rewrite Hfind, Horder. split; reflexivity. }
  destruct (notification_save env (refund_notification _ payment order))
    as [[]|e] eqn:Hsave.
  2:{ rewrite (handleRefundCreated_readable_run env payload _ Hread).
      run. cbn [snd payments orders]. rewrite Hfind, Horder, Hsave.
      split; reflexivity. }
  rewrite (handleRefundCreated_readable_run env payload _ Hread).
  cbn [snd orders payments].
  set (entity := event_entity "refund" payload) in *.
  assert (Hsame : exists payment',
             find (by_razorpayPaymentId (prop entity "payment_id"))
               (update_first (by_payment_id (Payment._id payment))
                  (refund_update_payment entity) (payments w)) = Some payment' /\
             Payment._id payment' = Payment._id payment /\
             Payment.orderId payment' = Payment.orderId payment).
  { destruct (find_update_first_cases
                (by_razorpayPaymentId (prop entity "payment_id"))
                (by_payment_id (Payment._id payment)) (refund_update_payment entity)
                (payments w) payment (fun _ => eq_refl) Hfind) as [H|H];
      rewrite H; eexists; repeat split; reflexivity. }
  destruct Hsame as (payment' & -> & Hid & Horderid).
  assert (Hn : refund_notification entity payment' order =
               refund_notification entity payment order).
  { unfold refund_notification. rewrite Hid. reflexivity. }
  rewrite Horderid, Horder, Hn, Hsave, Hid. cbn [snd payments orders]. split.
  - apply update_first_idempotent; [|reflexivity].
    intros x Hx. exact Hx.
  - reflexivity.
Qed.

Lemma handle_event_redelivery env payload w :
  same_records (snd (handle_event env payload w))
    (snd (handle_event env payload (snd (handle_event env payload w)))).
Proof.
  unfold handle_event. cbn zeta.
  destruct (is_str _ "payment.captured");
    [apply handlePaymentCaptured_redelivery|].
  destruct (is_str _ "payment.failed");
    [apply handlePaymentFailed_redelivery|].
  destruct (is_str _ "refund.created");
    [apply handleRefundCreated_redelivery|].
  split; reflexivity.
Qed.

(** X12. Webhook deliveries are idempotent on the stored records: delivering
    the same request a second time, whatever its event, signature or body,
    leaves every Payment Record and every Order as the first delivery left
    it. *)
Theorem webhook_redelivery_idempotent :
  forall env req w,
    same_records (perform env (Webhook req) w)
      (perform env (Webhook req) (perform env (Webhook req) w)).
Proof.
  intros env req w. cbn [perform].
  destruct (webhook_accepts env req) eqn:Hacc.
  - rewrite !(handlePaymentWebhook_accepted_run env req _ Hacc). cbn [snd].
    apply handle_event_redelivery.
  - apply handlePaymentWebhook_refused_frame, Hacc.
Qed.

(** X13. A signed delivery whose parsed body is an object or an array (what
    the body parser hands over) is always answered with the acknowledgment
    (200, received: true), whatever its event and whatever happened while the
    event was handled: an unknown order, an unreadable payload, a notification
    store that is down. *)
Theorem signed_delivery_acknowledged :
  forall env req w,
    signed env req ->
    nullish (Some (payload_body req)) = false ->
    fst (handlePaymentWebhook env req w) = Ok acknowledgment.
Proof.
  intros env req w Hsigned Hnn.
  rewrite (handlePaymentWebhook_accepted_run env req w
             (signed_accepts env req Hsigned Hnn)).
  reflexivity.
Qed.

Lemma signed_delivery_acknowledged_witness :
  fst (handlePaymentWebhook Scenario.env_sink_down
         (Scenario.signed_request (Scenario.payment_event "payment.captured" "order_G1"))
         Scenario.world) = Ok acknowledgment.
Proof.
  apply (signed_delivery_acknowledged Scenario.env_sink_down
           (Scenario.signed_request
              (Scenario.payment_event "payment.captured" "order_G1"))
           Scenario.world).
  - exists "webhook_secret". split; reflexivity.
  - reflexivity.
Defined.

Lemma entity_field_readable kind payload k x :
  prop (event_entity kind payload) k = Some x ->
  entity_readable kind payload = true.
Proof.
  unfold entity_readable, event_entity. intros H.
  destruct (nullish (prop (prop (prop (Some payload) "payload") kind) "entity")) eqn:E4;
    [rewrite (prop_nullish _ _ E4) in H; discriminate H|].
  destruct (nullish (prop (prop (Some payload) "payload") kind)) eqn:E3;
    [rewrite (prop_nullish _ "entity" E3) in E4; discriminate E4|].
  destruct (nullish (prop (Some payload) "payload")) eqn:E2;
    [rewrite (prop_nullish _ kind E2) in E3; discriminate E3|].
  destruct (nullish (Some payload)) eqn:E1;
    [rewrite (prop_nullish _ "payload" E1) in E2; discriminate E2|].
  reflexivity.
Qed.

(** X14. A signed payment.captured event that names a gateway order under
    which an Order is stored, delivered while the notification store accepts
    writes, is acknowledged; it adds the payment-received notification; the
    Order with the found Order's [_id] gets payment status completed, the
    event's payment id and the event's entity as details; and the Payment
    Record stored under the gateway order id, if there is one, gets status
    completed, the payment id and the entity as details. *)
Theorem captured_event_completes_payment :
  forall env req w order gid pid,
    signed env req ->
    event_is req "payment.captured" ->
    prop (event_entity "payment" (payload_body req)) "order_id" = Some (JStr gid) ->
    prop (event_entity "payment" (payload_body req)) "id" = Some (JStr pid) ->
    find (by_order_razorpayOrderId (Some (JStr gid))) (orders w) = Some order ->
    notification_save env
      (captured_notification (event_entity "payment" (payload_body req)) order)
      = Ok tt ->
    exists w',
      handlePaymentWebhook env req w = (Ok acknowledgment, w') /\
      notifications w' =
        (notifications w ++
         [captured_notification (event_entity "payment" (payload_body req)) order])%list /\
      (exists o',
         find (by_order_id (Order._id order)) (orders w') = Some o' /\
         Order.payment_status o' = Some completed /\
         Order.payment_razorpayPaymentId o' = Some pid /\
         Order.payment_details o' = event_entity "payment" (payload_body req)) /\
      (forall p,
         find (by_razorpayOrderId (Some gid)) (payments w) = Some p ->
         exists p',
           find (by_razorpayOrderId (Some gid)) (payments w') = Some p' /\
           Payment.status p' = completed /\
           Payment.razorpayPaymentId p' = Some pid /\
           Payment.paymentDetails p' = event_entity "payment" (payload_body req)).
Proof.
  intros env req w order gid pid Hsigned Hev Hgid Hpid Hfind Hsave.
  set (entity := event_entity "payment" (payload_body req)) in *.
  pose proof (entity_field_readable _ _ _ _ Hgid) as Hread.
  rewrite (handlePaymentWebhook_signed_run env req w _ Hsigned Hev).
  cbn [String.eqb Ascii.eqb Bool.eqb].
  eexists. split; [reflexivity|].
  rewrite (handlePaymentCaptured_readable_run env _ w Hread).
  fold entity. rewrite Hgid, Hfind, Hsave. cbn [snd notifications orders payments].
  split; [reflexivity|]. split.
  - destruct (find_other_query _ (by_order_id (Order._id order)) _ _ Hfind)
      as [o0 H0]; [apply String.eqb_refl|].
    rewrite find_update_first by (intros x Hx; exact Hx). rewrite H0.
    eexists. split; [reflexivity|]. unfold captured_update_order.
    cbn [Order.payment_status Order.payment_razorpayPaymentId Order.payment_details].
    rewrite Hpid. repeat split.
  - intros p Hp. cbn [string_field].
    rewrite find_update_first by (intros x Hx; exact Hx). rewrite Hp.
    eexists. split; [reflexivity|]. unfold captured_update_payment.
    cbn [Payment.status Payment.razorpayPaymentId Payment.paymentDetails].
    rewrite Hpid. repeat split.
Qed.

Lemma captured_event_completes_payment_witness :
  exists w',
    handlePaymentWebhook Scenario.env Deliveries.payment_captured Scenario.world
      = (Ok acknowledgment, w') /\
    notifications w' =
      (notifications Scenario.world ++
       [captured_notification
          (event_entity "payment" (payload_body Deliveries.payment_captured))
          Scenario.order_O1])%list /\
    (exists o',
       find (by_order_id Scenario.O1) (orders w') = Some o' /\
       Order.payment_status o' = Some completed /\
       Order.payment_razorpayPaymentId o' = Some "pay_1" /\
       Order.payment_details o' =
         event_entity "payment" (payload_body Deliveries.payment_captured)) /\
    (forall p,
       find (by_razorpayOrderId (Some "order_G1")) (payments Scenario.world) = Some p ->
       exists p',
         find (by_razorpayOrderId (Some "order_G1")) (payments w') = Some p' /\
         Payment.status p' = completed /\
         Payment.razorpayPaymentId p' = Some "pay_1" /\
         Payment.paymentDetails p' =
           event_entity "payment" (payload_body Deliveries.payment_captured)).
Proof.
  apply (captured_event_completes_payment Scenario.env Deliveries.payment_captured
           Scenario.world Scenario.order_O1 "order_G1" "pay_1").
  - exists "webhook_secret". split; reflexivity.
  - reflexivity.
  - reflexivity.
  - reflexivity.
  - reflexivity.
  - reflexivity.
Defined.

(** X15. A signed payment.failed event that names a gateway order under which
    an Order is stored and carries an error description, delivered while the
    notification store accepts writes, is acknowledged; it adds the
    payment-failed notification; the Order with the found Order's [_id] gets
    payment status failed and the error description; and the Payment Record
    stored under the gateway order id, if there is one, gets status failed and
    the error description, and keeps its gateway payment id and details. *)
Theorem failed_event_marks_payment_failed :
  forall env req w order gid description,
    signed env req ->
    event_is req "payment.failed" ->
    prop (event_entity "payment" (payload_body req)) "order_id" = Some (JStr gid) ->
    prop (event_entity "payment" (payload_body req)) "error_description"
      = Some (JStr description) ->
    find (by_order_razorpayOrderId (Some (JStr gid))) (orders w) = Some order ->
    notification_save env
      (failed_notification (event_entity "payment" (payload_body req)) order)
      = Ok tt ->
    exists w',
      handlePaymentWebhook env req w = (Ok acknowledgment, w') /\
      notifications w' =
        (notifications w ++
         [failed_notification (event_entity "payment" (payload_body req)) order])%list /\
      (exists o',
         find (by_order_id (Order._id order)) (orders w') = Some o' /\
         Order.payment_status o' = Some failed /\
         Order.payment_error o' = Some description) /\
      (forall p,
         find (by_razorpayOrderId (Some gid)) (payments w) = Some p ->
         exists p',
           find (by_razorpayOrderId (Some gid)) (payments w') = Some p' /\
           Payment.status p' = failed /\
           Payment.error p' = Some description /\
           Payment.razorpayPaymentId p' = Payment.razorpayPaymentId p /\
           Payment.paymentDetails p' = Payment.paymentDetails p).
Proof.
  intros env req w order gid description Hsigned Hev Hgid Hdesc Hfind Hsave.
  set (entity := event_entity "payment" (payload_body req)) in *.
  pose proof (entity_field_readable _ _ _ _ Hgid) as Hread.
  rewrite (handlePaymentWebhook_signed_run env req w _ Hsigned Hev).
  cbn [String.eqb Ascii.eqb Bool.eqb].
  eexists. split; [reflexivity|].
  rewrite (handlePaymentFailed_readable_run env _ w Hread).
  fold entity. rewrite Hgid, Hfind, Hsave. cbn [snd notifications orders payments].
  split; [reflexivity|]. split.
  - destruct (find_other_query _ (by_order_id (Order._id order)) _ _ Hfind)
      as [o0 H0]; [apply String.eqb_refl|].
    rewrite find_update_first by (intros x Hx; exact Hx). rewrite H0.
    eexists. split; [reflexivity|]. unfold failed_update_order.
    cbn [Order.payment_status Order.payment_error].
    rewrite Hdesc. repeat split.
  - intros p Hp. cbn [string_field].
    rewrite find_update_first by (intros x Hx; exact Hx). rewrite Hp.
    eexists. split; [reflexivity|]. unfold failed_update_payment.
    cbn [Payment.status Payment.error Payment.razorpayPaymentId
         Payment.paymentDetails].
    rewrite Hdesc. repeat split.
Qed.

Lemma failed_event_marks_payment_failed_witness :
  exists w',
    handlePaymentWebhook Scenario.env Deliveries.payment_failed
      Deliveries.world_completed = (Ok acknowledgment, w') /\
    notifications w' =
      (notifications Deliveries.world_completed ++
       [failed_notification
          (event_entity "payment" (payload_body Deliveries.payment_failed))
          Scenario.order_O1])%list /\
    (exists o',
       find (by_order_id Scenario.O1) (orders w') = Some o' /\
       Order.payment_status o' = Some failed /\
       Order.payment_error o' = Some "Payment was declined by the bank") /\
    (forall p,
       find (by_razorpayOrderId (Some "order_G1"))
         (payments Deliveries.world_completed) = Some p ->
       exists p',
         find (by_razorpayOrderId (Some "order_G1")) (payments w') = Some p' /\
         Payment.status p' = failed /\
         Payment.error p' = Some "Payment was declined by the bank" /\
         Payment.razorpayPaymentId p' = Payment.razorpayPaymentId p /\
         Payment.paymentDetails p' = Payment.paymentDetails p).
Proof.
  apply (failed_event_marks_payment_failed Scenario.env Deliveries.payment_failed
           Deliveries.world_completed Scenario.order_O1 "order_G1"
           "Payment was declined by the bank").
  - exists "webhook_secret". split; reflexivity.
  - reflexivity.
  - reflexivity.
  - reflexivity.
  - reflexivity.
  - reflexivity.
Defined.



(** ** What a webhook delivery never rewrites *)

Lemma Forall2_update_first {A} (R : A -> A -> Prop) q f (l : list A) :
  (forall x, R x x) -> (forall x, R x (f x)) ->
  Forall2 R l (update_first q f l).
Proof.
  intros Hrefl Hf. induction l as [|x l IH]; cbn [update_first]; [constructor|].
  destruct (q x).
  - constructor; [apply Hf|]. clear IH. induction l; constructor; auto.
  - constructor; [apply Hrefl | exact IH].
Qed.

Lemma order_kept_refl o : order_kept o o.
Proof. repeat split. Qed.

Lemma payment_kept_refl p : payment_kept p p.
Proof. repeat split. Qed.

Lemma kept_frame w w' :
  same_records w w' ->
  Forall2 order_kept (orders w) (orders w') /\
  Forall2 payment_kept (payments w) (payments w').
Proof.
  intros [-> ->]. split.
  - induction (orders w); constructor; auto using order_kept_refl.
  - induction (payments w); constructor; auto using payment_kept_refl.
Qed.

Ltac kept_by_frame := apply kept_frame; split; reflexivity.

Lemma handlePaymentCaptured_kept env payload w :
  Forall2 order_kept (orders w) (orders (snd (handlePaymentCaptured env payload w))) /\
  Forall2 payment_kept (payments w)
    (payments (snd (handlePaymentCaptured env payload w))).
Proof.
  destruct (entity_readable "payment" payload) eqn:Hread;
    [|apply kept_frame, handlePaymentCaptured_unreadable, Hread].
  rewrite (handlePaymentCaptured_readable_run env payload w Hread).
  destruct (find _ (orders w)) as [order|]; [|kept_by_frame].
  destruct (notification_save env _) as [[]|e]; [|kept_by_frame].
  cbn [snd orders payments]. split.
  - apply Forall2_update_first; [apply order_kept_refl|]. intros x. repeat split.
  - apply Forall2_update_first; [apply payment_kept_refl|]. intros x. repeat split.
Qed.

Lemma handlePaymentFailed_kept env payload w :
  Forall2 order_kept (orders w) (orders (snd (handlePaymentFailed env payload w))) /\
  Forall2 payment_kept (payments w)
    (payments (snd (handlePaymentFailed env payload w))).
Proof.
  destruct (entity_readable "payment" payload) eqn:Hread;
    [|apply kept_frame, handlePaymentFailed_unreadable, Hread].
  rewrite (handlePaymentFailed_readable_run env payload w Hread).
  destruct (find _ (orders w)) as [order|]; [|kept_by_frame].
  destruct (notification_save env _) as [[]|e]; [|kept_by_frame].
  cbn [snd orders payments]. split.
  - apply Forall2_update_first; [apply order_kept_refl|]. intros x. repeat split.
  - apply Forall2_update_first; [apply payment_kept_refl|]. intros x. repeat split.
Qed.

Lemma handleRefundCreated_orders env payload w :
  orders (snd (handleRefundCreated env payload w)) = orders w.
Proof.
  destruct (entity_readable "refund" payload) eqn:Hread;
    [|apply handleRefundCreated_unreadable, Hread].
  rewrite (handleRefundCreated_readable_run env payload w Hread).
  destruct (find _ (payments w)) as [payment|]; [|reflexivity].
  destruct (find _ (orders w)) as [order|]; [|reflexivity].
  destruct (notification_save env _) as [[]|e]; reflexivity.
Qed.

Lemma handleRefundCreated_kept env payload w :
  Forall2 order_kept (orders w) (orders (snd (handleRefundCreated env payload w))) /\
  Forall2 payment_kept (payments w)
    (payments (snd (handleRefundCreated env payload w))).
Proof.
  destruct (entity_readable "refund" payload) eqn:Hread;
    [|apply kept_frame, handleRefundCreated_unreadable, Hread].
  rewrite (handleRefundCreated_readable_run env payload w Hread).
  destruct (find _ (payments w)) as [payment|]; [|kept_by_frame].
  destruct (find _ (orders w)) as [order|]; [|kept_by_frame].
  destruct (notification_save env _) as [[]|e]; [|kept_by_frame].
  cbn [snd orders payments]. split.
  - apply kept_frame with (w := w) (w' := w). split; reflexivity.
  - apply Forall2_update_first; [apply payment_kept_refl|]. intros x. repeat split.
Qed.

(** X17. No webhook delivery adds or removes a stored document, and none
    rewrites what identifies or prices one: every Order keeps its place, its
    [_id], order number, fulfilment status, payment method, gateway order id,
    signature and amount; every Payment Record keeps its place, its [_id],
    order, user, gateway order id, signature, amount, currency and payment
    method. *)
Theorem webhook_keeps_identity_and_amounts :
  forall env req w,
    Forall2 order_kept (orders w) (orders (perform env (Webhook req) w)) /\
    Forall2 payment_kept (payments w) (payments (perform env (Webhook req) w)).
Proof.
  intros env req w. cbn [perform].
  destruct (webhook_accepts env req) eqn:Hacc;
    [|apply kept_frame, handlePaymentWebhook_refused_frame, Hacc].
  rewrite (handlePaymentWebhook_accepted_run env req _ Hacc). cbn [snd].
  unfold handle_event. cbn zeta.
  destruct (is_str _ "payment.captured"); [apply handlePaymentCaptured_kept|].
  destruct (is_str _ "payment.failed"); [apply handlePaymentFailed_kept|].
  destruct (is_str _ "refund.created"); [apply handleRefundCreated_kept|].
  kept_by_frame.
Qed.

(** X18. Only payment.captured and payment.failed events write to Orders: a
    delivery with any other event (refund.created included) leaves every
    Order as it was, so a refund is never mirrored onto the Order. *)
Theorem only_payment_events_write_orders :
  forall env req w,
    is_str (prop (Some (payload_body req)) "event") "payment.captured" = false ->
    is_str (prop (Some (payload_body req)) "event") "payment.failed" = false ->
    orders (perform env (Webhook req) w) = orders w.
Proof.
  intros env req w Hcaptured Hfailed. cbn [perform].
  destruct (webhook_accepts env req) eqn:Hacc;
    [|apply handlePaymentWebhook_refused_frame, Hacc].
  rewrite (handlePaymentWebhook_accepted_run env req _ Hacc). cbn [snd].
  unfold handle_event. cbn zeta. rewrite Hcaptured, Hfailed.
  destruct (is_str _ "refund.created"); [apply handleRefundCreated_orders|].
  reflexivity.
Qed.

Lemma only_payment_events_write_orders_witness :
  orders (perform Scenario.env (Webhook Deliveries.refund_created)
            Deliveries.world_completed) = orders Deliveries.world_completed.
Proof.
  apply (only_payment_events_write_orders Scenario.env Deliveries.refund_created
           Deliveries.world_completed); reflexivity.
Defined.

(** X19. A signed delivery whose event is none of payment.captured,
    payment.failed and refund.created is acknowledged and does nothing: the
    store, the notifications, the gateway calls and the error console are
    those before the call. *)
Theorem unhandled_event_is_acknowledged_noop :
  forall env req w,
    signed env req ->
    nullish (Some (payload_body req)) = false ->
    is_str (prop (Some (payload_body req)) "event") "payment.captured" = false ->
    is_str (prop (Some (payload_body req)) "event") "payment.failed" = false ->
    is_str (prop (Some (payload_body req)) "event") "refund.created" = false ->
    handlePaymentWebhook env req w = (Ok acknowledgment, w).
Proof.
  intros env req w Hsigned Hnn Hcaptured Hfailed Hrefund.
  rewrite (handlePaymentWebhook_accepted_run env req w
             (signed_accepts env req Hsigned Hnn)).
  unfold handle_event. cbn zeta. rewrite Hcaptured, Hfailed, Hrefund. reflexivity.
Qed.

Lemma unhandled_event_is_acknowledged_noop_witness :
  handlePaymentWebhook Scenario.env Deliveries.unhandled Scenario.world
    = (Ok acknowledgment, Scenario.world).
Proof.
  apply (unhandled_event_is_acknowledged_noop Scenario.env Deliveries.unhandled
           Scenario.world).
  - exists "webhook_secret". split; reflexivity.
  - reflexivity.
  - reflexivity.
  - reflexivity.
  - reflexivity.
Defined.

(** ** Verification: the answers other than 200 and 400 *)

(** X20. A verification request with a valid signature whose gateway order id
    matches no Payment Record is answered 404 (Payment not found) after the
    payment was fetched from the gateway once; nothing is written, not even to
    the Order the request names. *)
Theorem verifyPayment_unknown_gateway_order :
  forall env req w o p oid rp,
    verifiable env req o p oid rp ->
    find (by_razorpayOrderId (Some o)) (payments w) = None ->
    exists w',
      verifyPayment env req w = (Ok payment_not_found, w') /\
      same_records w w' /\
      notifications w' = notifications w /\
      gateway_calls w' = (gateway_calls w ++ [PaymentsFetch p])%list.
Proof.
  intros env req w o p oid rp (secret & Hkey & Hwf & Hfetch) Hfind.
  unfold verifyPayment.
  rewrite (well_formed_no_missing _ _ _ _ _ Hwf).
  destruct Hwf as (Ho & _ & Hp & _ & Hs & _ & Hi & _).
  rewrite Hkey, Ho, Hp, Hs, Hi. run. cbn [js_string].
  rewrite opt_eqb_refl, Hfetch. cbn. rewrite Hfind. cbn.
  eexists. split; [reflexivity|]. repeat split.
Qed.

Lemma verifyPayment_unknown_gateway_order_witness :
  exists w',
    verifyPayment Scenario.env
      (Scenario.verify_request Scenario.valid_signature Scenario.O1)
      (Scenario.world_with [] [Scenario.order_O1]) = (Ok payment_not_found, w') /\
    same_records (Scenario.world_with [] [Scenario.order_O1]) w' /\
    notifications w' = notifications (Scenario.world_with [] [Scenario.order_O1]) /\
    gateway_calls w' =
      (gateway_calls (Scenario.world_with [] [Scenario.order_O1]) ++
       [PaymentsFetch "pay_1"])%list.
Proof.
  apply (verifyPayment_unknown_gateway_order Scenario.env
           (Scenario.verify_request Scenario.valid_signature Scenario.O1)
           (Scenario.world_with [] [Scenario.order_O1])
           "order_G1" "pay_1" Scenario.O1 Scenario.gateway_entity).
  - verifiable_by_evaluation.
  - reflexivity.
Defined.

(** X21. When the gateway fails to return the payment of a request with a
    valid signature, verification is answered 500 (Payment verification
    failed) with the error's message as details; nothing is written and one
    line goes to the error console. *)
Theorem verifyPayment_gateway_failure :
  forall env req w secret o p oid e,
    RAZORPAY_KEY_SECRET env = Some secret ->
    well_formed req o p (Crypto.hmac_sha256_hex secret (o ++ "|" ++ p)) oid ->
    payments_fetch env p = Throw e ->
    exists w',
      verifyPayment env req w = (Ok (verification_failed e), w') /\
      same_records w w' /\
      notifications w' = notifications w /\
      console_error w' = (console_error w ++ ["Error verifying payment:"])%list.
Proof.
  intros env req w secret o p oid e Hkey Hwf Hfetch.
  unfold verifyPayment.
  rewrite (well_formed_no_missing _ _ _ _ _ Hwf).
  destruct Hwf as (Ho & _ & Hp & _ & Hs & _ & Hi & _).
  rewrite Hkey, Ho, Hp, Hs, Hi. run. cbn [js_string].
  rewrite opt_eqb_refl, Hfetch. cbn.
  eexists. split; [reflexivity|]. repeat split.
Qed.

Lemma verifyPayment_gateway_failure_witness :
  exists w',
    verifyPayment Outage.env
      (Scenario.verify_request Scenario.valid_signature Scenario.O1) Scenario.world
      = (Ok (verification_failed (Thrown "connect ETIMEDOUT")), w') /\
    same_records Scenario.world w' /\
    notifications w' = notifications Scenario.world /\
    console_error w' =
      (console_error Scenario.world ++ ["Error verifying payment:"])%list.
Proof.
  apply (verifyPayment_gateway_failure Outage.env
           (Scenario.verify_request Scenario.valid_signature Scenario.O1) Scenario.world
           "gateway_secret" "order_G1" "pay_1" Scenario.O1 (Thrown "connect ETIMEDOUT")).
  - reflexivity.
  - well_formed_by_evaluation.
  - reflexivity.
Defined.

(** X22. Without a gateway secret in the environment a verification request
    that carries all four fields is answered 500 (Payment verification
    failed) whatever its signature: the HMAC cannot be computed, the gateway
    is not called and nothing is written. *)
Theorem verifyPayment_without_secret :
  forall env req w,
    RAZORPAY_KEY_SECRET env = None ->
    all_fields_present req = true ->
    exists res w',
      verifyPayment env req w = (Ok res, w') /\
      statusCode res = 500 /\
      field "success" (json res) = Some (BBool false) /\
      field "error" (json res) = Some (BString "Payment verification failed") /\
      same_records w w' /\
      notifications w' = notifications w /\
      gateway_calls w' = gateway_calls w.
Proof.
  intros env req w Hkey Hall.
  destruct (all_fields_present_well_formed req Hall) as (o & p & sig & oid & Hwf).
  unfold verifyPayment.
  rewrite (well_formed_no_missing _ _ _ _ _ Hwf). rewrite Hkey. run.
  eexists _, _. split; [reflexivity|]. repeat split.
Qed.

Lemma verifyPayment_without_secret_witness :
  exists res w',
    verifyPayment Unconfigured.env
      (Scenario.verify_request Scenario.valid_signature Scenario.O1) Scenario.world =
      (Ok res, w') /\
    statusCode res = 500 /\
    field "success" (json res) = Some (BBool false) /\
    field "error" (json res) = Some (BString "Payment verification failed") /\
    same_records Scenario.world w' /\
    notifications w' = notifications Scenario.world /\
    gateway_calls w' = gateway_calls Scenario.world.
Proof.
  apply (verifyPayment_without_secret Unconfigured.env
           (Scenario.verify_request Scenario.valid_signature Scenario.O1)
           Scenario.world).
  - reflexivity.
  - reflexivity.
Defined.

(** X23. Without a webhook secret in the environment every delivery, signed
    or not, is answered 500 (Webhook processing failed) and no event is
    handled. *)
Theorem handlePaymentWebhook_without_secret :
  forall env req w,
    RAZORPAY_WEBHOOK_SECRET env = None ->
    exists w',
      handlePaymentWebhook env req w = (Ok webhook_processing_failed, w') /\
      same_records w w' /\
      notifications w' = notifications w.
Proof.
  intros env req w Hkey. unfold handlePaymentWebhook. rewrite Hkey. run.
  eexists. split; [reflexivity|]. repeat split.
Qed.

Lemma handlePaymentWebhook_without_secret_witness :
  exists w',
    handlePaymentWebhook Unconfigured.env Deliveries.payment_captured Scenario.world
      = (Ok webhook_processing_failed, w') /\
    same_records Scenario.world w' /\
    notifications w' = notifications Scenario.world.
Proof.
  apply (handlePaymentWebhook_without_secret Unconfigured.env
           Deliveries.payment_captured Scenario.world).
  reflexivity.
Defined.

(** ** The configuration test *)

(** X24. [testRazorpayConfig] always answers, with 200 or 500, and never
    touches Payment Records, Orders or notifications.  It answers 200 exactly
    when both API keys are set to a non-empty value and the gateway accepts a
    test order of 100 minor units in INR; it places that order at the gateway
    on every call with both keys set, and calls the gateway not at all
    otherwise; with a key missing the answer tells which keys are set, as two
    booleans. *)
Theorem testRazorpayConfig_reports_configuration :
  forall env key_id w,
    exists res w',
      testRazorpayConfig env key_id w = (Ok res, w') /\
      same_records w w' /\
      notifications w' = notifications w /\
      (statusCode res = 200 \/ statusCode res = 500) /\
      (statusCode res = 200 <->
       keys_configured env key_id = true /\
       exists order, orders_create env test_order_request = Ok order) /\
      gateway_calls w' =
        (if keys_configured env key_id
         then (gateway_calls w ++ [OrdersCreate test_order_request])%list
         else gateway_calls w) /\
      (keys_configured env key_id = false ->
       field "keyId" (json res) = Some (BBool (present key_id)) /\
       field "keySecret" (json res)
         = Some (BBool (present (RAZORPAY_KEY_SECRET env)))).
Proof.
  intros env key_id w. unfold testRazorpayConfig, keys_configured.
  destruct (present key_id), (present (RAZORPAY_KEY_SECRET env)); run;
    cbn [negb orb andb].
  1:{ destruct (orders_create env test_order_request) as [order|e] eqn:Hcreate.
      - eexists _, _. split; [reflexivity|]. cbn.
        repeat split; eauto; discriminate.
      - eexists _, _. split; [reflexivity|]. cbn.
        repeat split; eauto; try discriminate.
        intros (_ & order & H). discriminate H. }
  all: eexists _, _; (split; [reflexivity|]); cbn;
    repeat split; eauto; try discriminate; intros (H & _); discriminate H.
Qed.

(** ** The CORS origin policy *)

Lemma strip_prefix_app p s rest :
  Cors.strip_prefix p s = Some rest <-> s = p ++ rest.
Proof.
  revert s. induction p as [|a p IH]; intros s; cbn [Cors.strip_prefix String.append].
  - split; congruence.
  - destruct s as [|b s]; [split; discriminate|].
    destruct (Ascii.eqb_spec a b) as [->|Hne].
    + rewrite IH. split; congruence.
    + split; [discriminate|]. intros H. injection H as H _. congruence.
Qed.

Lemma label_run_split s label tail :
  Cors.label_run s = (label, tail) ->
  s = label ++ tail /\
  (forall c, In c (list_ascii_of_string label) -> Cors.is_label_char c = true) /\
  (forall c tail', tail = String c tail' -> Cors.is_label_char c = false).
Proof.
  revert label tail. induction s as [|c s IH]; intros label tail; cbn [Cors.label_run].
  - intros H. injection H as <- <-. repeat split; [intros c []|discriminate].
  - destruct (Cors.is_label_char c) eqn:Hc.
    + destruct (Cors.label_run s) as [l t]. intros H. injection H as <- <-.
      destruct (IH l t eq_refl) as (-> & Hall & Htail). repeat split.
      * intros c' [<-|Hin]; [exact Hc | apply Hall, Hin].
      * exact Htail.
    + intros H. injection H as <- <-. repeat split; [intros c' []|].
      intros c' tail' H. injection H as <- _. exact Hc.
Qed.

Lemma label_run_label label c tail :
  (forall c', In c' (list_ascii_of_string label) -> Cors.is_label_char c' = true) ->
  Cors.is_label_char c = false ->
  Cors.label_run (label ++ String c tail) = (label, String c tail).
Proof.
  intros Hall Hc. induction label as [|a label IH];
    cbn [Cors.label_run String.append].
  - rewrite Hc. reflexivity.
  - rewrite (Hall a) by (left; reflexivity).
    rewrite IH; [reflexivity|]. intros c' Hin. apply Hall. right. exact Hin.
Qed.

Lemma vercelPreviewRegex_test_spec origin :
  Cors.vercelPreviewRegex_test origin = true <-> Cors.preview_origin origin.
Proof.
  unfold Cors.vercelPreviewRegex_test, Cors.preview_origin. split.
  - destruct (Cors.strip_prefix _ origin) as [rest|] eqn:Hpre; [|discriminate].
    apply strip_prefix_app in Hpre.
    destruct (Cors.label_run rest) as [label tail] eqn:Hrun.
    destruct (label_run_split _ _ _ Hrun) as (-> & Hall & _).
    intros H. apply andb_prop in H as [Hne Htail].
    apply String.eqb_eq in Htail. subst tail.
    exists label. split; [|split; [exact Hall | exact Hpre]].
    intros ->. discriminate Hne.
  - intros (label & Hne & Hall & ->).
    assert (Hpre : Cors.strip_prefix "https://clothes-site-frontend-"
                     ("https://clothes-site-frontend-" ++ label ++ ".vercel.app")
                   = Some (label ++ ".vercel.app"))
      by (apply strip_prefix_app; reflexivity).
    rewrite Hpre.
    rewrite (label_run_label label "." "vercel.app" Hall eq_refl).
    rewrite String.eqb_refl, andb_true_r.
    destruct label; [contradiction Hne; reflexivity | reflexivity].
Qed.

Lemma includes_In l origin : Cors.includes l origin = true <-> In origin l.
Proof.
  unfold Cors.includes. rewrite existsb_exists. split.
  - intros (x & Hin & Heq). apply String.eqb_eq in Heq. subst x. exact Hin.
  - intros Hin. exists origin. split; [exact Hin | apply String.eqb_refl].
Qed.

Lemma filter_Boolean_In l origin :
  In origin (Cors.filter_Boolean l) <-> origin <> "" /\ In (Some origin) l.
Proof.
  induction l as [|v l IH]; cbn [Cors.filter_Boolean In]; [tauto|].
  destruct v as [s|]; cbn [present js_string].
  - destruct (String.eqb_spec s "") as [->|Hs]; cbn [negb In].
    + rewrite IH. split; [tauto|]. intros (Hne & [H|H]); [congruence|tauto].
    + rewrite IH. split.
      * intros [<-|H]; [tauto|tauto].
      * intros (Hne & [H|H]); [left; congruence | tauto].
  - rewrite IH. split; [tauto|]. intros (Hne & [H|H]); [discriminate|tauto].
Qed.

Lemma allowedOrigins_In client admin origin :
  In origin (Cors.allowedOrigins client admin) <->
  In origin Cors.fixed_origins \/
  origin <> "" /\ (client = Some origin \/ admin = Some origin).
Proof.
  unfold Cors.allowedOrigins. rewrite filter_Boolean_In, in_app_iff, in_map_iff.
  cbn [In]. split.
  - intros (Hne & [(x & Hx & Hin)|[H|[H|[]]]]).
    + left. congruence.
    + right. tauto.
    + right. tauto.
  - intros [Hin|(Hne & [H|H])].
    + split; [|left; exists origin; tauto].
      intros ->. cbn in Hin. intuition discriminate.
    + tauto.
    + tauto.
Qed.

(** X25. The CORS policy: a request is let through exactly when it carries no
    origin (or an empty one), or its origin is one of the six fixed origins,
    or equals the configured client or admin origin, or is a preview origin:
    the project prefix, one non-empty label of lower-case letters, digits and
    hyphens, and the platform suffix, with nothing before or after.  Every
    other origin is refused with the error Not allowed by CORS. *)
Theorem cors_origin_policy :
  forall client admin origin,
    (Cors.origin_callback client admin origin = Ok true \/
     Cors.origin_callback client admin origin = Throw (Thrown "Not allowed by CORS")) /\
    (Cors.origin_callback client admin origin = Ok true <->
     present origin = false \/
     exists o,
       origin = Some o /\
       (In o Cors.fixed_origins \/ client = Some o \/ admin = Some o \/
        Cors.preview_origin o)).
Proof.
  intros client admin origin. unfold Cors.origin_callback.
  destruct (present origin) eqn:Hpresent; cbn [negb].
  2:{ split; [left; reflexivity|]. split; [left; reflexivity | reflexivity]. }
  destruct origin as [o|]; [|discriminate Hpresent]. cbn [js_string].
  assert (Hne : o <> "").
  { intros ->. discriminate Hpresent. }
  destruct (Cors.includes _ o) eqn:Hinc; cbn [orb].
  - apply includes_In, allowedOrigins_In in Hinc.
    split; [left; reflexivity|]. split; [|reflexivity]. intros _. right.
    exists o. split; [reflexivity|]. tauto.
  - destruct (Cors.vercelPreviewRegex_test o) eqn:Hre.
    + apply vercelPreviewRegex_test_spec in Hre.
      split; [left; reflexivity|]. split; [|reflexivity]. intros _. right.
      exists o. split; [reflexivity|]. tauto.
    + split; [right; reflexivity|]. split; [discriminate|].
      intros [H|(o' & Ho & H)]; [discriminate H|]. injection Ho as <-.
      exfalso. destruct H as [H|[H|[H|H]]].
      * assert (Hin : In o (Cors.allowedOrigins client admin))
          by (apply allowedOrigins_In; tauto).
        apply includes_In in Hin. congruence.
      * assert (Hin : In o (Cors.allowedOrigins client admin))
          by (apply allowedOrigins_In; tauto).
        apply includes_In in Hin. congruence.
      * assert (Hin : In o (Cors.allowedOrigins client admin))
          by (apply allowedOrigins_In; tauto).
        apply includes_In in Hin. congruence.
      * apply vercelPreviewRegex_test_spec in H. congruence.
Qed.
